(** * GRASS GIS library: raster cell values (gis/raster.c) and raster
      history records (gis/history.c)

    A shallow embedding of the two C files and the properties of their
    null handling, kind dispatch, command-line wrapping and history
    file input/output. *)

From Stdlib Require Import ZArith Lia Bool List Ascii String.
From Stdlib Require Import Floats.SpecFloat.
From stdpp Require Import base tactics option list.
From Equations Require Import Equations.

Local Open Scope Z_scope.

(** ** IEEE 754 binary interchange formats

    [FCELL] is C [float] and [DCELL] is C [double].  A value of either type
    is represented by its bit pattern, an unsigned number of 32 or 64 bits;
    its numeric meaning is the [spec_float] it decodes to.  Bit patterns are
    needed because the null value of a floating kind is one particular
    pattern and not every NaN. *)
Module IEEE.

Section Format.
(** [mw]: width of the trailing significand field; [ew]: width of the
    exponent field (23 and 8 for binary32, 52 and 11 for binary64). *)
Variables mw ew : Z.

Definition prec : Z := mw + 1.
Definition emax : Z := 2 ^ (ew - 1).

Definition sign_of (b : Z) : bool := Z.testbit b (mw + ew).
Definition expo_of (b : Z) : Z := Z.land (Z.shiftr b mw) (Z.ones ew).
Definition mant_of (b : Z) : Z := Z.land b (Z.ones mw).

Definition is_nan (b : Z) : bool :=
  (expo_of b =? Z.ones ew) && negb (mant_of b =? 0).

Definition decode (b : Z) : spec_float :=
  let s := sign_of b in
  let e := expo_of b in
  let m := mant_of b in
  if e =? 0 then
    match m with
    | Zpos p => S754_finite s p (emin prec emax)
    | _ => S754_zero s
    end
  else if e =? Z.ones ew then
    if m =? 0 then S754_infinity s else S754_nan
  else
    match m + 2 ^ mw with
    | Zpos p => S754_finite s p (e + emin prec emax - 1)
    | _ => S754_nan
    end.

Definition sign_bit (s : bool) : Z := if s then 2 ^ (mw + ew) else 0.

(** The quiet NaN with an empty payload. *)
Definition default_nan : Z := Z.shiftl (Z.ones ew) mw + 2 ^ (mw - 1).

Definition encode (f : spec_float) : Z :=
  match f with
  | S754_zero s => sign_bit s
  | S754_infinity s => sign_bit s + Z.shiftl (Z.ones ew) mw
  | S754_nan => default_nan
  | S754_finite s m e =>
      if Zpos m <? 2 ^ mw then sign_bit s + Zpos m
      else sign_bit s + Z.shiftl (e - emin prec emax + 1) mw + (Zpos m - 2 ^ mw)
  end.

(** Rounding of an arbitrary finite value into the format (to nearest,
    ties to even, overflow to infinity). *)
Definition round (f : spec_float) : spec_float :=
  match f with
  | S754_finite s m e => binary_round prec emax s m e
  | _ => f
  end.

Definition of_int (n : Z) : Z := encode (binary_normalize prec emax n 0 false).

Definition gt (a b : Z) : bool := SFltb (decode b) (decode a).
Definition eq (a b : Z) : bool := SFeqb (decode a) (decode b).
End Format.

(** Truncation toward zero of a floating value; [None] where the integral
    part is not an [int], which C leaves undefined. *)
Definition INT_MIN : Z := - 2 ^ 31.
Definition INT_MAX : Z := 2 ^ 31 - 1.

Definition trunc (f : spec_float) : option Z :=
  match f with
  | S754_zero _ => Some 0
  | S754_finite s m e =>
      let t := cond_Zopp s (Z.shiftl (Zpos m) e) in
      if (INT_MIN <=? t) && (t <=? INT_MAX) then Some t else None
  | _ => None
  end.

Definition decode32 := decode 23 8.
Definition encode32 := encode 23 8.
Definition decode64 := decode 52 11.
Definition encode64 := encode 52 11.

(** NaN operands of a conversion between the formats keep their sign and
    the leading payload bits and come out quiet. *)
Definition nan32_to_64 (b : Z) : Z :=
  sign_bit 52 11 (sign_of 23 8 b) + Z.shiftl (Z.ones 11) 52
  + Z.lor (Z.shiftl (mant_of 23 b) 29) (2 ^ 51).

Definition nan64_to_32 (b : Z) : Z :=
  sign_bit 23 8 (sign_of 52 11 b) + Z.shiftl (Z.ones 8) 23
  + Z.lor (Z.shiftr (mant_of 52 b) 29) (2 ^ 22).

End IEEE.

(** ** C conversions between the three cell types *)

Definition CELL := Z.   (* int: the signed value *)
Definition FCELL := Z.  (* float: binary32 bit pattern *)
Definition DCELL := Z.  (* double: binary64 bit pattern *)

Definition CELL_to_FCELL (c : CELL) : FCELL := IEEE.of_int 23 8 c.
Definition CELL_to_DCELL (c : CELL) : DCELL := IEEE.of_int 52 11 c.
Definition FCELL_to_CELL (f : FCELL) : option CELL := IEEE.trunc (IEEE.decode32 f).
Definition DCELL_to_CELL (d : DCELL) : option CELL := IEEE.trunc (IEEE.decode64 d).

Definition FCELL_to_DCELL (f : FCELL) : DCELL :=
  if IEEE.is_nan 23 8 f then IEEE.nan32_to_64 f
  else IEEE.encode64 (IEEE.round 52 11 (IEEE.decode32 f)).

Definition DCELL_to_FCELL (d : DCELL) : FCELL :=
  if IEEE.is_nan 52 11 d then IEEE.nan64_to_32 d
  else IEEE.encode32 (IEEE.round 23 8 (IEEE.decode64 d)).

Definition FCELL_gt := IEEE.gt 23 8.
Definition FCELL_eq := IEEE.eq 23 8.
Definition DCELL_gt := IEEE.gt 52 11.
Definition DCELL_eq := IEEE.eq 52 11.

(** ** The numbers of the conversions *)

(** The statements about the casts speak of the number a value stands for,
    (-1)^s * m * 2^e for [S754_finite s m e], and compare numbers by
    integer arithmetic after scaling both sides by a power of two. *)

(** [q] is the integer nearest to [n / 2^k], the even one of the two when
    [n / 2^k] lies half way; for [k <= 0] it is [n * 2^(-k)] itself. *)
Definition nearest_even (n k q : Z) : bool :=
  let unit := 2 ^ Z.max 0 k in
  let err := Z.abs (q * unit - n * 2 ^ Z.max 0 (- k)) in
  (2 * err <? unit) || ((2 * err =? unit) && Z.even q).

(** [y] is the number (-1)^s * n * 2^e rounded to nearest, ties to even,
    in the format of precision [prec] and exponent bound [emax]: with [E]
    the exponent of the format at the magnitude of the number, [y] is
    q * 2^E for the integer [q] nearest to n * 2^e / 2^E; a zero of the
    same sign when [q] is 0; an infinity of the same sign when q * 2^E is
    2^emax or more. *)
Definition rounded (prec emax : Z) (s : bool) (n : positive) (e : Z)
    (y : spec_float) : bool :=
  let E := fexp prec emax (Zpos (digits2_pos n) + e) in
  let k := E - e in
  match y with
  | S754_zero s' => Bool.eqb s' s && nearest_even (Zpos n) k 0
  | S754_finite s' m' e' =>
      Bool.eqb s' s && (E <=? e') && (e' <=? emax - prec)
      && (Zpos m' <? 2 ^ prec)
      && nearest_even (Zpos n) k (Zpos m' * 2 ^ (e' - E))
  | S754_infinity s' =>
      Bool.eqb s' s
      && ((emax - prec <? E)
          || ((E =? emax - prec) && nearest_even (Zpos n) k (2 ^ prec)))
  | S754_nan => false
  end.

(** [x] and [y] are the same number, the same zero, the same infinity, or
    both NaN. *)
Definition same_number (x y : spec_float) : bool :=
  match x, y with
  | S754_zero s, S754_zero s' => Bool.eqb s s'
  | S754_infinity s, S754_infinity s' => Bool.eqb s s'
  | S754_nan, S754_nan => true
  | S754_finite s m e, S754_finite s' m' e' =>
      Bool.eqb s s'
      && (Zpos m * 2 ^ (e - Z.min e e') =? Zpos m' * 2 ^ (e' - Z.min e e'))
  | _, _ => false
  end.

(** An [int] as a number. *)
Definition number_of_int (c : Z) : spec_float :=
  match c with
  | Z0 => S754_zero false
  | Zpos p => S754_finite false p 0
  | Zneg p => S754_finite true p 0
  end.

(** [y] is what a conversion to the floating format makes of [x]: a number
    is rounded to nearest; a zero, an infinity and a NaN stay what they
    are. *)
Definition converted (prec emax : Z) (x y : spec_float) : bool :=
  match x with
  | S754_finite s m e => rounded prec emax s m e y
  | _ => same_number x y
  end.

(** [r] is what a conversion to [int] makes of [x]: the integer [t] of the
    sign of [x] with |t| <= |x| < |t| + 1 where that is an [int]; nothing
    where it is not, or where [x] is an infinity or a NaN. *)
Definition truncated (x : spec_float) (r : option Z) : bool :=
  match x with
  | S754_zero _ => match r with Some t => t =? 0 | None => false end
  | S754_finite s m e =>
      let num := Zpos m * 2 ^ Z.max 0 e in
      let den := 2 ^ Z.max 0 (- e) in
      match r with
      | Some t =>
          (IEEE.INT_MIN <=? t) && (t <=? IEEE.INT_MAX)
          && (if s then t <=? 0 else 0 <=? t)
          && (Z.abs t * den <=? num) && (num <? (Z.abs t + 1) * den)
      | None =>
          if s then (2 ^ 31 + 1) * den <=? num else 2 ^ 31 * den <=? num
      end
  | _ => match r with None => true | Some _ => false end
  end.

(** |y| <= |x|, which holds of every [y] that is [x] with low digits
    dropped. *)
Definition magnitude_le (y x : spec_float) : bool :=
  match y, x with
  | S754_zero _, _ => true
  | S754_finite _ m' e', S754_finite _ m e =>
      Zpos m' * 2 ^ (e' - Z.min e e') <=? Zpos m * 2 ^ (e - Z.min e e')
  | S754_finite _ _ _, S754_infinity _ => true
  | S754_infinity _, S754_infinity _ => true
  | _, _ => false
  end.

(** ** Raster cell value routines (gis/raster.c) *)
Module Raster.

Definition RASTER_MAP_TYPE := Z.

(** What raster.c takes from <grass/gis.h> and from the null-value module
    of the library, neither of which is part of the sources at hand: the
    three type tags (the [case] labels of every [switch]), the null pattern
    of each cell type, and what the null routines do with a tag that names
    no cell type. *)
Record gislib := {
  CELL_TYPE : RASTER_MAP_TYPE;
  FCELL_TYPE : RASTER_MAP_TYPE;
  DCELL_TYPE : RASTER_MAP_TYPE;
  cellNullPattern : CELL;
  fcellNullPattern : FCELL;
  dcellNullPattern : DCELL;
  wrong_type_is_null : Z -> RASTER_MAP_TYPE -> bool;
  wrong_type_set_null : Z -> Z -> RASTER_MAP_TYPE -> Z
}.

(** The labels of one C [switch] are pairwise different. *)
Definition labels_distinct (G : gislib) : Prop :=
  CELL_TYPE G <> FCELL_TYPE G /\ CELL_TYPE G <> DCELL_TYPE G /\
  FCELL_TYPE G <> DCELL_TYPE G.

(** A tag that names one of the three cell types. *)
Definition is_kind (G : gislib) (t : RASTER_MAP_TYPE) : Prop :=
  t = CELL_TYPE G \/ t = FCELL_TYPE G \/ t = DCELL_TYPE G.

Section Engine.
Variable G : gislib.

(** A [void *] into a raster buffer is modelled by the object it points
    to: the [int] for a CELL buffer, the bit pattern of the [float] or
    [double] for an FCELL or DCELL buffer.  A function that writes through
    the pointer returns the new object. *)

(** Modelled from the spec: G_is_c_null_value, G_is_f_null_value and
    G_is_d_null_value are not in src/; each "inspects the bit pattern at
    the pointer ... and returns whether it equals that kind's reserved
    sentinel". *)
Definition G_is_c_null_value (cellVal : CELL) : bool :=
  cellVal =? cellNullPattern G.
Definition G_is_f_null_value (fcellVal : FCELL) : bool :=
  fcellVal =? fcellNullPattern G.
Definition G_is_d_null_value (dcellVal : DCELL) : bool :=
  dcellVal =? dcellNullPattern G.

(** Modelled from the spec: G_is_null_value is not in src/; it is the
    spec's [is_null(buffer_ptr, kind)], which tests the pattern "according
    to kind's width".  The spec is silent on other tags. *)
Definition G_is_null_value (rast : Z) (data_type : RASTER_MAP_TYPE) : bool :=
  if data_type =? CELL_TYPE G then G_is_c_null_value rast
  else if data_type =? FCELL_TYPE G then G_is_f_null_value rast
  else if data_type =? DCELL_TYPE G then G_is_d_null_value rast
  else wrong_type_is_null G rast data_type.

(** Modelled from the spec: G_set_c_null_value, G_set_f_null_value,
    G_set_d_null_value and G_set_null_value are not in src/; each "writes
    the sentinel pattern into [count] consecutive elements of the given
    kind".  Of the elements written the model keeps the first, the one
    the pointer designates. *)
Definition G_set_c_null_value (cellVals : CELL) (numVals : Z) : CELL :=
  if 0 <? numVals then cellNullPattern G else cellVals.
Definition G_set_f_null_value (fcellVals : FCELL) (numVals : Z) : FCELL :=
  if 0 <? numVals then fcellNullPattern G else fcellVals.
Definition G_set_d_null_value (dcellVals : DCELL) (numVals : Z) : DCELL :=
  if 0 <? numVals then dcellNullPattern G else dcellVals.

Definition G_set_null_value (buf : Z) (numVals : Z)
    (data_type : RASTER_MAP_TYPE) : Z :=
  if data_type =? CELL_TYPE G then G_set_c_null_value buf numVals
  else if data_type =? FCELL_TYPE G then G_set_f_null_value buf numVals
  else if data_type =? DCELL_TYPE G then G_set_d_null_value buf numVals
  else wrong_type_set_null G buf numVals data_type.

(** raster.c, G_raster_cmp *)
Definition G_raster_cmp (v1 v2 : Z) (data_type : RASTER_MAP_TYPE) : Z :=
  if G_is_null_value v1 data_type then
    if G_is_null_value v2 data_type then 0 else -1
  else if G_is_null_value v2 data_type then 1
  else if data_type =? CELL_TYPE G then
    if v1 >? v2 then 1 else if v1 =? v2 then 0 else -1
  else if data_type =? FCELL_TYPE G then
    if FCELL_gt v1 v2 then 1 else if FCELL_eq v1 v2 then 0 else -1
  else if data_type =? DCELL_TYPE G then
    if DCELL_gt v1 v2 then 1 else if DCELL_eq v1 v2 then 0 else -1
  else 0.

(** raster.c, G_set_raster_value_c *)
Definition G_set_raster_value_c (rast : Z) (cval : CELL)
    (data_type : RASTER_MAP_TYPE) : Z :=
  let c := cval in
  if G_is_c_null_value c then G_set_null_value rast 1 data_type
  else if data_type =? CELL_TYPE G then cval
  else if data_type =? FCELL_TYPE G then CELL_to_FCELL cval
  else if data_type =? DCELL_TYPE G then CELL_to_DCELL cval
  else rast.

(** raster.c, G_set_raster_value_f; [None] when the cast to CELL is
    undefined in C. *)
Definition G_set_raster_value_f (rast : Z) (fval : FCELL)
    (data_type : RASTER_MAP_TYPE) : option Z :=
  let f := fval in
  if G_is_f_null_value f then Some (G_set_null_value rast 1 data_type)
  else if data_type =? CELL_TYPE G then FCELL_to_CELL fval
  else if data_type =? FCELL_TYPE G then Some fval
  else if data_type =? DCELL_TYPE G then Some (FCELL_to_DCELL fval)
  else Some rast.

(** raster.c, G_set_raster_value_d *)
Definition G_set_raster_value_d (rast : Z) (dval : DCELL)
    (data_type : RASTER_MAP_TYPE) : option Z :=
  let d := dval in
  if G_is_d_null_value d then Some (G_set_null_value rast 1 data_type)
  else if data_type =? CELL_TYPE G then DCELL_to_CELL dval
  else if data_type =? FCELL_TYPE G then Some (DCELL_to_FCELL dval)
  else if data_type =? DCELL_TYPE G then Some dval
  else Some rast.

(** raster.c, G_get_raster_value_c.  The local [c] is not initialised
    before the null routine fills it; [c0] is whatever it held. *)
Definition G_get_raster_value_c (c0 : CELL) (rast : Z)
    (data_type : RASTER_MAP_TYPE) : option CELL :=
  if G_is_null_value rast data_type then
    let c := G_set_c_null_value c0 1 in Some c
  else if data_type =? CELL_TYPE G then Some rast
  else if data_type =? FCELL_TYPE G then FCELL_to_CELL rast
  else if data_type =? DCELL_TYPE G then DCELL_to_CELL rast
  else Some 0.

(** raster.c, G_get_raster_value_f; the final [return 0] is [+0.0f]. *)
Definition G_get_raster_value_f (f0 : FCELL) (rast : Z)
    (data_type : RASTER_MAP_TYPE) : FCELL :=
  if G_is_null_value rast data_type then
    let f := G_set_f_null_value f0 1 in f
  else if data_type =? CELL_TYPE G then CELL_to_FCELL rast
  else if data_type =? FCELL_TYPE G then rast
  else if data_type =? DCELL_TYPE G then DCELL_to_FCELL rast
  else CELL_to_FCELL 0.

(** raster.c, G_get_raster_value_d *)
Definition G_get_raster_value_d (d0 : DCELL) (rast : Z)
    (data_type : RASTER_MAP_TYPE) : DCELL :=
  if G_is_null_value rast data_type then
    let d := G_set_d_null_value d0 1 in d
  else if data_type =? CELL_TYPE G then CELL_to_DCELL rast
  else if data_type =? FCELL_TYPE G then FCELL_to_DCELL rast
  else if data_type =? DCELL_TYPE G then rast
  else CELL_to_DCELL 0.

(** The null pattern of a kind, as the statements below name it. *)
Definition sentinel (data_type : RASTER_MAP_TYPE) : Z :=
  if data_type =? CELL_TYPE G then cellNullPattern G
  else if data_type =? FCELL_TYPE G then fcellNullPattern G
  else dcellNullPattern G.
End Engine.

(** The results of G_raster_cmp, and the three-way result of a numeric
    comparison given its [>] and [==]. *)
Definition LESS : Z := -1.
Definition EQUAL : Z := 0.
Definition GREATER : Z := 1.

Definition three_way {A} (gt eq : A -> A -> bool) (a b : A) : Z :=
  if gt a b then GREATER else if eq a b then EQUAL else LESS.

(** An instance for evaluation, with the values of the GRASS headers and
    null-value module: tags 0, 1, 2; the CELL null is the smallest [int];
    the floating nulls have every bit set; a tag that is no cell type is
    never null and nothing is written for it. *)
Definition grass : gislib := {|
  CELL_TYPE := 0; FCELL_TYPE := 1; DCELL_TYPE := 2;
  cellNullPattern := IEEE.INT_MIN;
  fcellNullPattern := Z.ones 32;
  dcellNullPattern := Z.ones 64;
  wrong_type_is_null := fun _ _ => false;
  wrong_type_set_null := fun buf _ _ => buf
|}.

End Raster.

(** ** Raster history records (gis/history.c) *)
Module History.

(** "History file is limited to [80]x[50], as defined in include/gis.h" *)
Definition RECORD_LEN : Z := 80.
Definition MAXEDLINES : Z := 50.

(** A C string: the characters before the terminating NUL. *)
Definition cstring := list ascii.
Definition strlen (s : cstring) : Z := Z.of_nat (length s).

Definition NUL : ascii := "000"%char.
Definition newline : ascii := "010"%char.
Definition backslash : ascii := "\"%char.
Definition percent : ascii := "%"%char.

(** struct History of <grass/gis.h>: eight [char [RECORD_LEN]] fields, the
    comment rows [edhist[MAXEDLINES][RECORD_LEN]] and their count. *)
Record History := mkHistory {
  mapid : cstring;
  title : cstring;
  mapset : cstring;
  creator : cstring;
  maptype : cstring;
  datsrc_1 : cstring;
  datsrc_2 : cstring;
  keywrd : cstring;
  edlinecnt : Z;
  edhist : list cstring
}.

Definition set_mapid (s : cstring) (h : History) : History :=
  mkHistory s (title h) (mapset h) (creator h) (maptype h) (datsrc_1 h)
    (datsrc_2 h) (keywrd h) (edlinecnt h) (edhist h).
Definition set_title (s : cstring) (h : History) : History :=
  mkHistory (mapid h) s (mapset h) (creator h) (maptype h) (datsrc_1 h)
    (datsrc_2 h) (keywrd h) (edlinecnt h) (edhist h).
Definition set_mapset (s : cstring) (h : History) : History :=
  mkHistory (mapid h) (title h) s (creator h) (maptype h) (datsrc_1 h)
    (datsrc_2 h) (keywrd h) (edlinecnt h) (edhist h).
Definition set_creator (s : cstring) (h : History) : History :=
  mkHistory (mapid h) (title h) (mapset h) s (maptype h) (datsrc_1 h)
    (datsrc_2 h) (keywrd h) (edlinecnt h) (edhist h).
Definition set_maptype (s : cstring) (h : History) : History :=
  mkHistory (mapid h) (title h) (mapset h) (creator h) s (datsrc_1 h)
    (datsrc_2 h) (keywrd h) (edlinecnt h) (edhist h).
Definition set_datsrc_1 (s : cstring) (h : History) : History :=
  mkHistory (mapid h) (title h) (mapset h) (creator h) (maptype h) s
    (datsrc_2 h) (keywrd h) (edlinecnt h) (edhist h).
Definition set_datsrc_2 (s : cstring) (h : History) : History :=
  mkHistory (mapid h) (title h) (mapset h) (creator h) (maptype h)
    (datsrc_1 h) s (keywrd h) (edlinecnt h) (edhist h).
Definition set_keywrd (s : cstring) (h : History) : History :=
  mkHistory (mapid h) (title h) (mapset h) (creator h) (maptype h)
    (datsrc_1 h) (datsrc_2 h) s (edlinecnt h) (edhist h).
Definition set_edlinecnt (n : Z) (h : History) : History :=
  mkHistory (mapid h) (title h) (mapset h) (creator h) (maptype h)
    (datsrc_1 h) (datsrc_2 h) (keywrd h) n (edhist h).
Definition set_edhist (rows : list cstring) (h : History) : History :=
  mkHistory (mapid h) (title h) (mapset h) (creator h) (maptype h)
    (datsrc_1 h) (datsrc_2 h) (keywrd h) (edlinecnt h) rows.

(** [hist->edlinecnt++] *)
Definition incr_edlinecnt (h : History) : History :=
  set_edlinecnt (edlinecnt h + 1) h.

(** [edhist[i]] read as a string. *)
Definition row (h : History) (i : Z) : cstring :=
  edhist h !!! Z.to_nat i.

(** *** Execution of C with undefined behaviour made explicit *)
Inductive fault :=
  | BadIndex      (* a row index outside [0, MAXEDLINES) *)
  | RowOverflow   (* more than RECORD_LEN bytes written to one row *)
  | BadFormat.    (* a conversion specification without its argument *)

Inductive res (A : Type) :=
  | Ok (a : A)
  | Fault (f : fault).
Arguments Ok {A} a.
Arguments Fault {A} f.

Definition bind {A B} (m : res A) (k : A -> res B) : res B :=
  match m with
  | Ok a => k a
  | Fault f => Fault f
  end.

Notation "x <- m ;; k" := (bind m (fun x => k))
  (at level 100, m at next level, right associativity) : stdpp_scope.

(** A string stored into row [i] of the comment array, as [strcpy],
    [sprintf] and [strncpy]/[strcat] do in the end: the row must exist and
    the string with its terminator must fit. *)
Definition store_row (i : Z) (s : cstring) (h : History) : res History :=
  if (0 <=? i) && (i <? MAXEDLINES) then
    if strlen s <? RECORD_LEN then
      Ok (set_edhist (<[Z.to_nat i := s]> (edhist h)) h)
    else Fault RowOverflow
  else Fault BadIndex.

(** [sprintf(buf, fmt)] with no further argument: ordinary characters are
    copied, [%%] gives one percent sign, any other conversion is undefined
    for want of its argument. *)
Fixpoint sprintf0 (fmt : cstring) : res cstring :=
  match fmt with
  | [] => Ok []
  | c :: rest =>
      if Ascii.eqb c percent then
        match rest with
        | c' :: rest' =>
            if Ascii.eqb c' percent then
              s <- sprintf0 rest' ;; Ok (percent :: s)
            else Fault BadFormat
        | [] => Fault BadFormat
        end
      else s <- sprintf0 rest ;; Ok (c :: s)
  end.

(** [&cmdlin[j]] *)
Definition from (cmdlin : cstring) (j : Z) : cstring := drop (Z.to_nat j) cmdlin.

(** [strncpy(dst, src, 68); dst[68] = '\0'; strcat(dst, "\\")] *)
Definition fragment (src : cstring) : cstring := take 68 src ++ [backslash].

(** The [while] loop of G_command_history.  [inl h]: the loop left the
    function with [return 2]; [inr (j, h)]: the loop ran to its end. *)
Equations? wrap (cmdlin : cstring) (j : Z) (hist : History) :
    res (History + Z * History) by wf (Z.to_nat (strlen cmdlin - j)) lt :=
  wrap cmdlin j hist with Z_gt_dec (strlen cmdlin - j) 70 := {
    | left _ =>
        bind (store_row (edlinecnt hist) (fragment (from cmdlin j)) hist)
          (fun h =>
             let h := incr_edlinecnt h in
             if edlinecnt h >? MAXEDLINES - 2 then Ok (inl h)
             else wrap cmdlin (j + 68) h)
    | right _ => Ok (inr (j, hist))
  }.
Proof. lia. Qed.

(** history.c, G_command_history.  [cmdlin] is what G_recreate_command
    returns, both times it is called (the parser is not part of these
    sources); the result is the return value and the record. *)
Definition G_command_history (cmdlin : cstring) (hist : History) :
    res (Z * History) :=
  let cmdlen := strlen cmdlin in
  if edlinecnt hist >? MAXEDLINES - 2 then Ok (1, hist)
  else
    hist <- (if edlinecnt hist >? 0 then
               h <- store_row (edlinecnt hist) [] hist ;;
               Ok (incr_edlinecnt h)
             else Ok hist) ;;
    if cmdlen <? 70 then
      line <- sprintf0 cmdlin ;;
      h <- store_row (edlinecnt hist) line hist ;;
      Ok (0, incr_edlinecnt h)
    else
      r <- wrap cmdlin 0 hist ;;
      match r with
      | inl h => Ok (2, h)
      | inr (j, hist) =>
          if cmdlen - j >? 0 then
            h <- store_row (edlinecnt hist) (from cmdlin j) hist ;;
            Ok (0, incr_edlinecnt h)
          else Ok (0, hist)
      end.

(** *** History files *)

(** An open stream: for reading, the bytes not yet read; for writing, the
    bytes written so far.  Opening the file is the business of
    G_fopen_old and G_fopen_new and of the mapset lookup behind them; the
    functions below receive what the open returned, [None] for [NULL]. *)
Definition FILE := list ascii.

Definition printable (c : ascii) : bool :=
  ((32 <=? N_of_ascii c) && (N_of_ascii c <=? 126))%N.

(** [fgets]: at most [room] bytes, the newline included if it is reached. *)
Fixpoint read_upto (room : nat) (fd : FILE) : cstring * FILE :=
  match room, fd with
  | S room', c :: fd' =>
      if Ascii.eqb c newline then ([c], fd')
      else let '(s, rest) := read_upto room' fd' in (c :: s, rest)
  | _, _ => ([], fd)
  end.

(** The string in a buffer, cut where G_getl puts its terminator: at the
    newline, or at a NUL of the file. *)
Fixpoint cut_line (s : cstring) : cstring :=
  match s with
  | [] => []
  | c :: s' =>
      if Ascii.eqb c NUL || Ascii.eqb c newline then [] else c :: cut_line s'
  end.

(** Modelled from the spec: G_getl is not in src/; it is the "buffered line
    I/O" of the host library that reads one line of the "newline-terminated
    text file", "each line bounded to a fixed maximum record length", into a
    buffer of [n] bytes, without the newline.  [None] at end of file, where
    the buffer is left as it was. *)
Definition G_getl (n : Z) (fd : FILE) : option (cstring * FILE) :=
  match fd with
  | [] => None
  | _ :: _ =>
      let '(s, rest) := read_upto (Z.to_nat (n - 1)) fd in
      Some (cut_line s, rest)
  end.

(** Modelled from the spec: G_zero is not in src/; the record it leaves is
    the empty one, every byte of the structure being zero. *)
Definition G_zero (hist : History) : History :=
  mkHistory [] [] [] [] [] [] [] [] 0 (replicate (Z.to_nat MAXEDLINES) []).

(** [fprintf(fd, "%s\n", s)] *)
Definition fprintf_line (s : cstring) (fd : FILE) : FILE := fd ++ s ++ [newline].

Section ReadWrite.
(** The "safe placeholder" of the sanitization step. *)
Variable placeholder : ascii.

(** Modelled from the spec: G_ascii_check is not in src/; it is the
    "ASCII-sanitization step (replace any non-printable byte with a safe
    placeholder)". *)
Definition G_ascii_check (s : cstring) : cstring :=
  map (fun c => if printable c then c else placeholder) s.

(** The [while] loop of G_read_history; its guard keeps the row index
    below MAXEDLINES and G_getl keeps the line within the row. *)
Equations? read_edhist (fd : FILE) (hist : History) : History
    by wf (Z.to_nat (MAXEDLINES - edlinecnt hist)) lt :=
  read_edhist fd hist with Z_lt_dec (edlinecnt hist) MAXEDLINES := {
    | left _ with G_getl RECORD_LEN fd := {
        | Some (s, fd') =>
            read_edhist fd'
              (incr_edlinecnt
                 (set_edhist
                    (<[Z.to_nat (edlinecnt hist) := G_ascii_check s]>
                       (edhist hist)) hist))
        | None => hist }
    | right _ => hist }.
Proof. simpl. lia. Qed.

(** history.c, G_read_history.  [fd] is what G_fopen_old returned; the
    result is the return value and the record left in [*hist]. *)
Definition G_read_history (fd : option FILE) (hist : History) : Z * History :=
  let hist := G_zero hist in
  match fd with
  | None => (-1, hist)
  | Some fd =>
  match G_getl RECORD_LEN fd with
  | None => (-1, hist)
  | Some (s, fd) =>
  let hist := set_mapid (G_ascii_check s) hist in
  match G_getl RECORD_LEN fd with
  | None => (-1, hist)
  | Some (s, fd) =>
  let hist := set_title (G_ascii_check s) hist in
  match G_getl RECORD_LEN fd with
  | None => (-1, hist)
  | Some (s, fd) =>
  let hist := set_mapset (G_ascii_check s) hist in
  match G_getl RECORD_LEN fd with
  | None => (-1, hist)
  | Some (s, fd) =>
  let hist := set_creator (G_ascii_check s) hist in
  match G_getl RECORD_LEN fd with
  | None => (-1, hist)
  | Some (s, fd) =>
  let hist := set_maptype (G_ascii_check s) hist in
  match G_getl RECORD_LEN fd with
  | None => (-1, hist)
  | Some (s, fd) =>
  let hist := set_datsrc_1 (G_ascii_check s) hist in
  match G_getl RECORD_LEN fd with
  | None => (-1, hist)
  | Some (s, fd) =>
  let hist := set_datsrc_2 (G_ascii_check s) hist in
  match G_getl RECORD_LEN fd with
  | None => (-1, hist)
  | Some (s, fd) =>
  let hist := set_keywrd (G_ascii_check s) hist in
  let hist := set_edlinecnt 0 hist in
  (0, read_edhist fd hist)
  end end end end end end end end end.
End ReadWrite.

(** The [for] loop of G_write_history. *)
Equations? write_edhist (i : Z) (hist : History) (fd : FILE) : FILE
    by wf (Z.to_nat (edlinecnt hist - i)) lt :=
  write_edhist i hist fd with Z_lt_dec i (edlinecnt hist) := {
    | left _ => write_edhist (i + 1) hist (fprintf_line (row hist i) fd)
    | right _ => fd }.
Proof. lia. Qed.

(** history.c, G_write_history.  [fd] is what G_fopen_new returned, the
    new and empty file; the result is the return value and the file as it
    is closed. *)
Definition G_write_history (fd : option FILE) (hist : History) :
    Z * option FILE :=
  match fd with
  | None => (-1, None)
  | Some fd =>
      let fd := fprintf_line (mapid hist) fd in
      let fd := fprintf_line (title hist) fd in
      let fd := fprintf_line (mapset hist) fd in
      let fd := fprintf_line (creator hist) fd in
      let fd := fprintf_line (maptype hist) fd in
      let fd := fprintf_line (datsrc_1 hist) fd in
      let fd := fprintf_line (datsrc_2 hist) fd in
      let fd := fprintf_line (keywrd hist) fd in
      let fd := write_edhist 0 hist fd in
      (0, Some fd)
  end.

(** *** Vocabulary of the statements *)

(** The lines a file yields to successive G_getl calls, to its end. *)
Fixpoint lines_upto (fuel : nat) (fd : FILE) : list cstring :=
  match fuel with
  | O => []
  | S fuel' =>
      match G_getl RECORD_LEN fd with
      | Some (s, fd') => s :: lines_upto fuel' fd'
      | None => []
      end
  end.

Definition file_lines (fd : FILE) : list cstring := lines_upto (length fd) fd.

(** The eight fields of a record, in file order. *)
Definition fields (h : History) : list cstring :=
  [mapid h; title h; mapset h; creator h; maptype h; datsrc_1 h; datsrc_2 h;
   keywrd h].

(** The comment log: the rows in use. *)
Definition comments (h : History) : list cstring :=
  take (Z.to_nat (edlinecnt h)) (edhist h).

(** A string that a line of the file can carry and G_getl hand back whole:
    printable characters only, and room left in the RECORD_LEN-byte buffer
    for the newline and the terminator. *)
Definition line_ok (s : cstring) : Prop :=
  Forall (fun c => printable c = true) s /\ strlen s <= RECORD_LEN - 2.

(** The comment array has its MAXEDLINES rows. *)
Definition rows_allocated (h : History) : Prop :=
  length (edhist h) = Z.to_nat MAXEDLINES.

(** The text of a file made of the given lines. *)
Definition text_of (ls : list cstring) : FILE :=
  concat (map (fun l => l ++ [newline]) ls).

(** The record whose leading fields are the given strings, in file order,
    the others being those of [h]. *)
Definition with_fields (ls : list cstring) (h : History) : History :=
  fold_left (fun h '(set, s) => set s h)
    (zip [set_mapid; set_title; set_mapset; set_creator; set_maptype;
          set_datsrc_1; set_datsrc_2; set_keywrd] ls) h.

(** The blank row that separates a command line from earlier comments. *)
Definition separator (h : History) : list cstring :=
  if edlinecnt h >? 0 then [[]] else [].

(** *** Initialising a record *)

(** What G_short_history asks of the rest of the library, none of it part
    of these sources: the date, the current mapset, the user and the
    program name as strings, and the message catalogue behind the macro
    [_]. *)
Record host := {
  G_date : cstring;
  G_mapset : cstring;
  G_whoami : cstring;
  G_program_name : cstring;
  gettext : cstring -> cstring
}.

(** [strncpy(field, src, RECORD_LEN)] into a field of RECORD_LEN bytes:
    a source of fewer than RECORD_LEN characters is copied with its
    terminator; a longer one fills the field and leaves it without
    terminator, which is no string ([None]). *)
Definition strncpy_field (src : cstring) : option cstring :=
  if strlen src <? RECORD_LEN then Some src else None.

(** [sprintf(buf, fmt, args...)] with string arguments only: ordinary
    characters are copied, [%%] gives a percent sign, [%s] the next
    argument; a [%s] without argument is undefined.  Other conversions are
    not modelled and are reported as [BadFormat] as well. *)
Fixpoint sprintf_s (fmt : cstring) (args : list cstring) : res cstring :=
  match fmt with
  | [] => Ok []
  | c :: rest =>
      if Ascii.eqb c percent then
        match rest with
        | c' :: rest' =>
            if Ascii.eqb c' percent then
              s <- sprintf_s rest' args ;; Ok (percent :: s)
            else if Ascii.eqb c' "s"%char then
              match args with
              | a :: args' => s <- sprintf_s rest' args' ;; Ok (a ++ s)
              | [] => Fault BadFormat
              end
            else Fault BadFormat
        | [] => Fault BadFormat
        end
      else s <- sprintf_s rest args ;; Ok (c :: s)
  end.

(** [sprintf] into a field of RECORD_LEN bytes: [None] if the format is
    bad or the text and its terminator do not fit. *)
Definition sprintf_field (fmt : cstring) (args : list cstring) :
    option cstring :=
  match sprintf_s fmt args with
  | Ok s => if strlen s <? RECORD_LEN then Some s else None
  | Fault _ => None
  end.

(** history.c, G_short_history.  The result is the record left in
    [*hist]; [None] when a field is left unterminated or overrun.  The
    comment rows are not touched. *)
Definition G_short_history (H : host) (name type : cstring) (hist : History) :
    option History :=
  match strncpy_field (G_date H) with None => None | Some s =>
  let hist := set_mapid s hist in
  match strncpy_field name with None => None | Some s =>
  let hist := set_title s hist in
  match strncpy_field (G_mapset H) with None => None | Some s =>
  let hist := set_mapset s hist in
  match strncpy_field (G_whoami H) with None => None | Some s =>
  let hist := set_creator s hist in
  match strncpy_field type with None => None | Some s =>
  let hist := set_maptype s hist in
  match sprintf_field (gettext H (list_ascii_of_string "generated by %s"))
          [G_program_name H] with None => None | Some s =>
  let hist := set_keywrd s hist in
  let hist := set_datsrc_1 [] hist in
  let hist := set_datsrc_2 [] hist in
  Some (set_edlinecnt 0 hist)
  end end end end end end.

(** The rows that carry a command line cut into pieces: every piece but
    the last with the continuation mark. *)
Definition marked (pieces : list cstring) : list cstring :=
  map (fun f => f ++ [backslash]) pieces.

(** A string as G_read_history leaves one in the record: it fits its
    RECORD_LEN bytes with the terminator and is printable throughout. *)
Definition tidy (s : cstring) : Prop :=
  strlen s < RECORD_LEN /\ Forall (fun c => printable c = true) s.

(** *** Sample data *)

Definition str (s : string) : cstring := list_ascii_of_string s.

(** A record as G_short_history and one call of G_command_history leave
    it: one comment row in use. *)
Definition sample_history : History :=
  mkHistory (str "Tue Nov  3 10:00:00 2009") (str "elevation")
    (str "PERMANENT") (str "cerl") (str "raster") [] []
    (str "generated by r.in.gdal") 1
    (str "r.in.gdal input=dem.tif output=elevation"
       :: replicate 49 []).

(** A record with all rows but one in use. *)
Definition sample_nearly_full : History := set_edlinecnt 49 sample_history.

(** A command line of 200 characters. *)
Definition sample_command_200 : cstring :=
  str "r.patch input=" ++ concat (replicate 23 (str "tile_ab,")) ++ str "t1".

(** A session without message catalogue. *)
Definition sample_host : host := {|
  G_date := str "Tue Nov  3 10:00:00 2009";
  G_mapset := str "PERMANENT";
  G_whoami := str "cerl";
  G_program_name := str "r.in.gdal";
  gettext := fun msg => msg
|}.

(** A history file of sixty lines: eight fields and fifty-two comments. *)
Definition long_file : FILE := text_of (replicate 60 (str "r.mapcalc")).

(** A history file that ends after its first line. *)
Definition truncated_file : FILE := str "Tue Nov  3 10:00:00 2009" ++ [newline].

End History.

(** * Properties of the raster cell value routines *)

Import Raster.

(** Every [switch (data_type)] is a chain of tests of the tag against the
    labels; [by_label] decides each test of the goal. *)
Ltac by_label :=
  repeat match goal with
  | |- context [?a =? ?b] =>
      destruct (Z.eqb_spec a b); try congruence; try lia
  end.

Lemma switch_CELL (G : gislib) k : k = CELL_TYPE G -> (k =? CELL_TYPE G) = true.
Proof. intros ->. apply Z.eqb_refl. Qed.

Lemma switch_FCELL (G : gislib) k :
  labels_distinct G -> k = FCELL_TYPE G ->
  (k =? CELL_TYPE G) = false /\ (k =? FCELL_TYPE G) = true.
Proof. intros (H1 & _ & _) ->. split; by_label. Qed.

Lemma switch_DCELL (G : gislib) k :
  labels_distinct G -> k = DCELL_TYPE G ->
  (k =? CELL_TYPE G) = false /\ (k =? FCELL_TYPE G) = false /\
  (k =? DCELL_TYPE G) = true.
Proof. intros (_ & H2 & H3) ->. repeat split; by_label. Qed.

Lemma switch_default (G : gislib) k :
  k <> CELL_TYPE G -> k <> FCELL_TYPE G -> k <> DCELL_TYPE G ->
  (k =? CELL_TYPE G) = false /\ (k =? FCELL_TYPE G) = false /\
  (k =? DCELL_TYPE G) = false.
Proof. intros. repeat split; by_label. Qed.

(** Rewrites the tests of a [switch] once the tag is known. *)
Ltac take_case G HG Hk :=
  first
    [ rewrite !(switch_CELL G _ Hk)
    | let E := fresh in
      destruct (switch_FCELL G _ HG Hk) as [E ?]; rewrite ?E; clear E;
      match goal with E' : (_ =? FCELL_TYPE G) = true |- _ => rewrite ?E' end
    | let E := fresh in
      destruct (switch_DCELL G _ HG Hk) as (E & ? & ?); rewrite ?E; clear E;
      repeat match goal with
      | E' : (_ =? _) = _ |- _ => rewrite ?E'; clear E'
      end ].

(** The null pattern of a kind is null for that kind. *)
Lemma sentinel_is_null (G : gislib) k :
  labels_distinct G -> is_kind G k ->
  G_is_null_value G (sentinel G k) k = true.
Proof.
  intros HG Hk. unfold G_is_null_value, sentinel,
    G_is_c_null_value, G_is_f_null_value, G_is_d_null_value.
  destruct Hk as [Hk | [Hk | Hk]]; take_case G HG Hk; apply Z.eqb_refl.
Qed.

(** Writing one null element leaves the null pattern of the kind. *)
Lemma G_set_null_value_one (G : gislib) buf k :
  labels_distinct G -> is_kind G k ->
  G_set_null_value G buf 1 k = sentinel G k.
Proof.
  intros HG Hk. unfold G_set_null_value, sentinel,
    G_set_c_null_value, G_set_f_null_value, G_set_d_null_value.
  destruct Hk as [Hk | [Hk | Hk]]; take_case G HG Hk; reflexivity.
Qed.

(** The casts on a few values: 3 as a [float]; 3.14159274 and its
    negative truncated toward zero; 2^31 out of the range of [int]; the
    nearest [float] of the [double] pi; the largest [double] as a [float],
    infinity. *)
Example casts_on_values :
  CELL_to_FCELL 3 = 0x40400000 /\
  FCELL_to_CELL 0x40490FDB = Some 3 /\
  FCELL_to_CELL 0xC0490FDB = Some (-3) /\
  FCELL_to_CELL 0x4F000000 = None /\
  DCELL_to_FCELL 0x400921FB54442D18 = 0x40490FDB /\
  FCELL_to_DCELL 0x40490FDB = 0x400921FB60000000 /\
  DCELL_to_FCELL 0x7FEFFFFFFFFFFFFF = 0x7F800000.
Proof. repeat split. Qed.

(** The cast alone would not carry a null across kinds: the FCELL null of
    GRASS cast to [double] is not the DCELL null, yet G_set_raster_value_f
    stores the DCELL null. *)
Example null_is_not_cast :
  FCELL_to_DCELL (fcellNullPattern grass) <> dcellNullPattern grass /\
  G_set_raster_value_f grass 0 (fcellNullPattern grass) (DCELL_TYPE grass)
    = Some (dcellNullPattern grass).
Proof. split; [ vm_compute; discriminate | reflexivity ]. Qed.

(** C1 (as the code has it): G_raster_cmp returns EQUAL when both values
    are null; when exactly one is null the null value is the smaller one,
    so that [cmp(null, non_null, k)] is LESS and [cmp(non_null, null, k)] is
    GREATER; when neither is null the result is the numeric three-way
    comparison of the two values as [int], [float] or [double] according to
    the kind. *)
Theorem G_raster_cmp_null_is_least (G : gislib) (v1 v2 : Z)
    (k : RASTER_MAP_TYPE) :
  labels_distinct G ->
  (G_is_null_value G v1 k = true -> G_is_null_value G v2 k = true ->
     G_raster_cmp G v1 v2 k = EQUAL) /\
  (G_is_null_value G v1 k = true -> G_is_null_value G v2 k = false ->
     G_raster_cmp G v1 v2 k = LESS) /\
  (G_is_null_value G v1 k = false -> G_is_null_value G v2 k = true ->
     G_raster_cmp G v1 v2 k = GREATER) /\
  (G_is_null_value G v1 k = false -> G_is_null_value G v2 k = false ->
     (k = CELL_TYPE G -> G_raster_cmp G v1 v2 k = three_way Z.gtb Z.eqb v1 v2) /\
     (k = FCELL_TYPE G ->
        G_raster_cmp G v1 v2 k = three_way FCELL_gt FCELL_eq v1 v2) /\
     (k = DCELL_TYPE G ->
        G_raster_cmp G v1 v2 k = three_way DCELL_gt DCELL_eq v1 v2)).
Proof.
  intros HG. unfold G_raster_cmp.
  split; [| split; [| split]]; intros N1 N2; rewrite N1, N2; try reflexivity.
  split; [| split]; intros Hk; take_case G HG Hk; reflexivity.
Qed.

Lemma grass_labels_distinct : labels_distinct grass.
Proof. unfold labels_distinct; simpl; lia. Qed.

Lemma G_raster_cmp_null_is_least_witness :
  G_raster_cmp grass (cellNullPattern grass) 5 (CELL_TYPE grass) = LESS.
Proof.
  apply (proj1 (proj2 (G_raster_cmp_null_is_least grass
           (cellNullPattern grass) 5 (CELL_TYPE grass) grass_labels_distinct)));
    reflexivity.
Defined.

(** C1 as stated fails: with the CELL null first and 5 second the result
    is not GREATER, and with the operands exchanged it is not LESS. *)
Lemma G_raster_cmp_null_not_greater :
  G_is_null_value grass (cellNullPattern grass) (CELL_TYPE grass) = true /\
  G_is_null_value grass 5 (CELL_TYPE grass) = false /\
  G_raster_cmp grass (cellNullPattern grass) 5 (CELL_TYPE grass) <> GREATER /\
  G_raster_cmp grass 5 (cellNullPattern grass) (CELL_TYPE grass) <> LESS.
Proof. repeat split; vm_compute; congruence. Qed.

(** What the three setters store, case by case: the null pattern of the
    destination kind when the value given is the null of its own type,
    whatever the two types are and without converting anything; otherwise
    the value, cast where the destination type is another one.  What the
    casts make of the value is stated at the end of the file. *)
Lemma G_set_raster_value_dispatch (G : gislib) (rast : Z)
    (cval : CELL) (fval : FCELL) (dval : DCELL) (k : RASTER_MAP_TYPE) :
  labels_distinct G -> is_kind G k ->
  G_is_null_value G (sentinel G k) k = true /\
  (G_is_c_null_value G cval = true ->
     G_set_raster_value_c G rast cval k = sentinel G k) /\
  (G_is_f_null_value G fval = true ->
     G_set_raster_value_f G rast fval k = Some (sentinel G k)) /\
  (G_is_d_null_value G dval = true ->
     G_set_raster_value_d G rast dval k = Some (sentinel G k)) /\
  (G_is_c_null_value G cval = false ->
     (k = CELL_TYPE G -> G_set_raster_value_c G rast cval k = cval) /\
     (k = FCELL_TYPE G ->
        G_set_raster_value_c G rast cval k = CELL_to_FCELL cval) /\
     (k = DCELL_TYPE G ->
        G_set_raster_value_c G rast cval k = CELL_to_DCELL cval)) /\
  (G_is_f_null_value G fval = false ->
     (k = CELL_TYPE G ->
        G_set_raster_value_f G rast fval k = FCELL_to_CELL fval) /\
     (k = FCELL_TYPE G -> G_set_raster_value_f G rast fval k = Some fval) /\
     (k = DCELL_TYPE G ->
        G_set_raster_value_f G rast fval k = Some (FCELL_to_DCELL fval))) /\
  (G_is_d_null_value G dval = false ->
     (k = CELL_TYPE G ->
        G_set_raster_value_d G rast dval k = DCELL_to_CELL dval) /\
     (k = FCELL_TYPE G ->
        G_set_raster_value_d G rast dval k = Some (DCELL_to_FCELL dval)) /\
     (k = DCELL_TYPE G -> G_set_raster_value_d G rast dval k = Some dval)).
Proof.
  intros HG Hk.
  unfold G_set_raster_value_c, G_set_raster_value_f, G_set_raster_value_d.
  pose proof (G_set_null_value_one G rast k HG Hk) as E.
  split; [ exact (sentinel_is_null G k HG Hk) |].
  split; [| split; [| split; [| split; [| split]]]]; intros N; rewrite N;
    rewrite ?E; try reflexivity.
  all: split; [| split]; intros Ek; take_case G HG Ek; reflexivity.
Qed.

Lemma grass_FCELL_is_kind : is_kind grass (FCELL_TYPE grass).
Proof. right; left; reflexivity. Qed.

(** What the three getters return, case by case: the CELL, FCELL and
    DCELL null where the source holds the null of its kind (a location just
    filled by G_set_null_value is such a source); otherwise the stored
    value, cast where the result type is another one. *)
Lemma G_get_raster_value_dispatch (G : gislib) (c0 : CELL)
    (f0 : FCELL) (d0 : DCELL) (rast : Z) (k : RASTER_MAP_TYPE) :
  labels_distinct G -> is_kind G k ->
  G_is_null_value G (G_set_null_value G rast 1 k) k = true /\
  (G_is_null_value G rast k = true ->
     G_get_raster_value_c G c0 rast k = Some (cellNullPattern G) /\
     G_get_raster_value_f G f0 rast k = fcellNullPattern G /\
     G_get_raster_value_d G d0 rast k = dcellNullPattern G) /\
  (G_is_null_value G rast k = false ->
     (k = CELL_TYPE G ->
        G_get_raster_value_c G c0 rast k = Some rast /\
        G_get_raster_value_f G f0 rast k = CELL_to_FCELL rast /\
        G_get_raster_value_d G d0 rast k = CELL_to_DCELL rast) /\
     (k = FCELL_TYPE G ->
        G_get_raster_value_c G c0 rast k = FCELL_to_CELL rast /\
        G_get_raster_value_f G f0 rast k = rast /\
        G_get_raster_value_d G d0 rast k = FCELL_to_DCELL rast) /\
     (k = DCELL_TYPE G ->
        G_get_raster_value_c G c0 rast k = DCELL_to_CELL rast /\
        G_get_raster_value_f G f0 rast k = DCELL_to_FCELL rast /\
        G_get_raster_value_d G d0 rast k = rast)).
Proof.
  intros HG Hk.
  unfold G_get_raster_value_c, G_get_raster_value_f, G_get_raster_value_d.
  split.
  { rewrite (G_set_null_value_one G rast k HG Hk).
    exact (sentinel_is_null G k HG Hk). }
  split; intros N; rewrite N.
  - repeat split.
  - split; [| split]; intros Ek; take_case G HG Ek; repeat split.
Qed.

(** C4: for a tag that is none of the three labels and operands that the
    null test does not report null, every [switch] falls through:
    G_raster_cmp returns 0 and G_get_raster_value_c returns 0. *)
Theorem unrecognized_type_falls_through (G : gislib) (c0 : CELL)
    (v1 v2 : Z) (k : RASTER_MAP_TYPE) :
  k <> CELL_TYPE G -> k <> FCELL_TYPE G -> k <> DCELL_TYPE G ->
  G_is_null_value G v1 k = false -> G_is_null_value G v2 k = false ->
  G_raster_cmp G v1 v2 k = 0 /\
  G_get_raster_value_c G c0 v1 k = Some 0 /\
  G_get_raster_value_c G c0 v2 k = Some 0.
Proof.
  intros Hc Hf Hd N1 N2.
  destruct (switch_default G k Hc Hf Hd) as (Ec & Ef & Ed).
  unfold G_raster_cmp, G_get_raster_value_c.
  rewrite N1, N2, Ec, Ef, Ed. repeat split.
Qed.

Lemma unrecognized_type_falls_through_witness :
  G_raster_cmp grass 3 4 7 = 0 /\
  G_get_raster_value_c grass 0 3 7 = Some 0 /\
  G_get_raster_value_c grass 0 4 7 = Some 0.
Proof.
  apply (unrecognized_type_falls_through grass 0 3 4 7);
    simpl; first [ lia | reflexivity ].
Defined.

(** * Properties of the history routines *)

Import History.

Lemma strlen_nonneg (s : cstring) : 0 <= strlen s.
Proof. unfold strlen. lia. Qed.

Lemma strlen_app (s t : cstring) : strlen (s ++ t) = strlen s + strlen t.
Proof. unfold strlen. rewrite length_app. lia. Qed.

Lemma strlen_from (cmdlin : cstring) (j : Z) :
  0 <= j -> strlen (from cmdlin j) = Z.max 0 (strlen cmdlin - j).
Proof. intros Hj. unfold strlen, from. rewrite length_drop. lia. Qed.

Lemma strlen_fragment (src : cstring) : strlen (fragment src) <= 69.
Proof.
  unfold fragment. rewrite strlen_app. unfold strlen.
  rewrite length_take. cbn [length]. lia.
Qed.

(** A store into a row that exists, of a string that fits, succeeds. *)
Lemma store_row_ok (i : Z) (s : cstring) (h : History) :
  0 <= i < MAXEDLINES -> strlen s < RECORD_LEN ->
  store_row i s h = Ok (set_edhist (<[Z.to_nat i := s]> (edhist h)) h).
Proof.
  intros Hi Hs. unfold store_row.
  destruct (Z.leb_spec 0 i); [| lia].
  destruct (Z.ltb_spec i MAXEDLINES); [| lia].
  destruct (Z.ltb_spec (strlen s) RECORD_LEN); [| lia].
  reflexivity.
Qed.

(** Storing at [edlinecnt] and counting the row appends it to the log. *)
Lemma comments_append (s : cstring) (h : History) :
  rows_allocated h -> 0 <= edlinecnt h < MAXEDLINES ->
  let h' := incr_edlinecnt
              (set_edhist (<[Z.to_nat (edlinecnt h) := s]> (edhist h)) h) in
  comments h' = comments h ++ [s] /\ rows_allocated h' /\
  edlinecnt h' = edlinecnt h + 1.
Proof.
  intros Hrows Hc. unfold comments, rows_allocated in *. simpl.
  assert (Hlt : (Z.to_nat (edlinecnt h) < length (edhist h))%nat)
    by (rewrite Hrows; unfold MAXEDLINES in *; lia).
  split; [| split; [ rewrite length_insert; exact Hrows | reflexivity ]].
  replace (Z.to_nat (edlinecnt h + 1)) with (S (Z.to_nat (edlinecnt h))) by lia.
  rewrite (take_S_r _ _ s) by (apply list_lookup_insert_eq; exact Hlt).
  rewrite take_insert_ge by lia. reflexivity.
Qed.

(** The two branches of the loop test. *)
Lemma wrap_more (cmdlin : cstring) (j : Z) (hist : History) :
  strlen cmdlin - j > 70 ->
  wrap cmdlin j hist =
    bind (store_row (edlinecnt hist) (fragment (from cmdlin j)) hist)
      (fun h =>
         let h := incr_edlinecnt h in
         if edlinecnt h >? MAXEDLINES - 2 then Ok (inl h)
         else wrap cmdlin (j + 68) h).
Proof.
  intros H. simp wrap. destruct (Z_gt_dec (strlen cmdlin - j) 70); [| lia].
  reflexivity.
Qed.

Lemma wrap_done (cmdlin : cstring) (j : Z) (hist : History) :
  ~ strlen cmdlin - j > 70 -> wrap cmdlin j hist = Ok (inr (j, hist)).
Proof.
  intros H. simp wrap. destruct (Z_gt_dec (strlen cmdlin - j) 70); [lia |].
  reflexivity.
Qed.

(** C5: with MAXEDLINES - 1 comment rows in use, G_command_history returns
    1 and the record, its comment rows and their count, is left as it was,
    whatever the command line. *)
Theorem G_command_history_no_room (cmdlin : cstring) (hist : History) :
  edlinecnt hist = MAXEDLINES - 1 ->
  G_command_history cmdlin hist = Ok (1, hist).
Proof.
  intros H. unfold G_command_history. rewrite H. reflexivity.
Qed.

(** One row stored at [edlinecnt], then counted. *)
Lemma store_next (s : cstring) (h : History) :
  rows_allocated h -> 0 <= edlinecnt h < MAXEDLINES -> strlen s < RECORD_LEN ->
  exists h1,
    store_row (edlinecnt h) s h = Ok h1 /\
    comments (incr_edlinecnt h1) = comments h ++ [s] /\
    rows_allocated (incr_edlinecnt h1) /\
    edlinecnt (incr_edlinecnt h1) = edlinecnt h + 1.
Proof.
  intros Hrows Hc Hs. eexists. split; [ apply store_row_ok; assumption |].
  apply (comments_append s h Hrows Hc).
Qed.

(** The blank row is added exactly when there are comments already. *)
Lemma separator_added (hist : History) :
  rows_allocated hist -> 0 <= edlinecnt hist <= MAXEDLINES - 2 ->
  exists h1,
    (if edlinecnt hist >? 0
     then bind (store_row (edlinecnt hist) [] hist)
            (fun h => Ok (incr_edlinecnt h))
     else Ok hist) = Ok h1 /\
    comments h1 = comments hist ++ separator hist /\
    rows_allocated h1 /\
    edlinecnt h1 = edlinecnt hist + Z.of_nat (length (separator hist)).
Proof.
  intros Hrows Hc. unfold separator.
  destruct (Z.gtb_spec (edlinecnt hist) 0).
  - destruct (store_next [] hist Hrows) as (h1 & E & C & R & N);
      [ unfold MAXEDLINES in *; lia | reflexivity |].
    exists (incr_edlinecnt h1). rewrite E. cbn [bind length]. auto.
  - exists hist. rewrite app_nil_r. cbn [length]. repeat split; auto; lia.
Qed.

(** C6: a command line of 200 characters, added to a record with room for
    it, is stored as three rows after the rows in use (and the blank
    separator row, if there were any): characters 0..67 followed by a
    backslash, characters 68..135 followed by a backslash, and the
    remaining 64 characters with nothing added; the three pieces without
    the backslashes make up the command line again. *)
Theorem G_command_history_wraps_200 (cmdlin : cstring) (hist : History) :
  strlen cmdlin = 200 -> rows_allocated hist -> 0 <= edlinecnt hist <= 45 ->
  exists hist',
    G_command_history cmdlin hist = Ok (0, hist') /\
    comments hist' =
      comments hist ++ separator hist ++
        [take 68 cmdlin ++ [backslash];
         take 68 (drop 68 cmdlin) ++ [backslash];
         drop 136 cmdlin] /\
    edlinecnt hist' = edlinecnt hist + Z.of_nat (length (separator hist)) + 3 /\
    take 68 cmdlin ++ take 68 (drop 68 cmdlin) ++ drop 136 cmdlin = cmdlin /\
    length (take 68 cmdlin) = 68%nat /\
    length (take 68 (drop 68 cmdlin)) = 68%nat /\
    length (drop 136 cmdlin) = 64%nat.
Proof.
  intros Hlen Hrows Hc.
  assert (Hsep : (length (separator hist) <= 1)%nat)
    by (unfold separator; destruct (_ >? _); simpl; lia).
  unfold G_command_history.
  destruct (Z.gtb_spec (edlinecnt hist) (MAXEDLINES - 2));
    [ unfold MAXEDLINES in *; lia |].
  destruct (separator_added hist Hrows) as (h1 & -> & C1 & R1 & N1);
    [ unfold MAXEDLINES in *; lia |].
  cbn [bind]. rewrite Hlen. cbn [Z.ltb Z.compare Pos.compare Pos.compare_cont].
  (* first pass of the loop *)
  rewrite wrap_more by lia.
  pose proof (strlen_fragment (from cmdlin 0)) as F0.
  destruct (store_next (fragment (from cmdlin 0)) h1 R1) as (h2 & -> & C2 & R2 & N2);
    [ unfold MAXEDLINES; lia | unfold RECORD_LEN; lia |].
  cbn [bind]. cbv zeta.
  destruct (Z.gtb_spec (edlinecnt (incr_edlinecnt h2)) (MAXEDLINES - 2));
    [ unfold MAXEDLINES in *; lia |].
  (* second pass *)
  rewrite wrap_more by lia.
  pose proof (strlen_fragment (from cmdlin (0 + 68))) as F1.
  destruct (store_next (fragment (from cmdlin (0 + 68))) _ R2)
    as (h3 & -> & C3 & R3 & N3);
    [ unfold MAXEDLINES; lia | unfold RECORD_LEN; lia |].
  cbn [bind]. cbv zeta.
  destruct (Z.gtb_spec (edlinecnt (incr_edlinecnt h3)) (MAXEDLINES - 2));
    [ unfold MAXEDLINES in *; lia |].
  (* the loop ends with 64 characters left *)
  rewrite wrap_done by lia. cbn [bind].
  destruct (Z.gtb_spec (200 - (0 + 68 + 68)) 0); [| lia].
  destruct (store_next (from cmdlin (0 + 68 + 68)) _ R3)
    as (h4 & -> & C4 & R4 & N4);
    [ unfold MAXEDLINES; lia
    | rewrite strlen_from by lia; unfold RECORD_LEN; lia |].
  cbn [bind]. eexists. split; [ reflexivity |].
  assert (L : length cmdlin = 200%nat) by (unfold strlen in Hlen; lia).
  split; [| split; [ lia | split; [| repeat split ]]].
  - rewrite C4, C3, C2, C1. unfold fragment, from.
    change (Z.to_nat 0) with 0%nat. change (Z.to_nat (0 + 68)) with 68%nat.
    change (Z.to_nat (0 + 68 + 68)) with 136%nat.
    rewrite drop_0, <- !app_assoc. reflexivity.
  - rewrite <- (take_drop 68 cmdlin) at 4. f_equal.
    rewrite <- (take_drop 68 (drop 68 cmdlin)) at 2. f_equal.
    rewrite drop_drop. reflexivity.
  - rewrite length_take. lia.
  - rewrite length_take, length_drop. lia.
  - rewrite length_drop. lia.
Qed.

(** What [sprintf] makes of a format is no longer than the format, its
    only failure is a conversion, and a format without a percent sign is
    copied as it is. *)
Lemma sprintf0_cases (n : nat) (fmt : cstring) :
  (length fmt <= n)%nat ->
  match sprintf0 fmt with
  | Ok s => strlen s <= strlen fmt
  | Fault f => f = BadFormat /\ In percent fmt
  end.
Proof.
  revert fmt. induction n as [| n IH]; intros fmt Hn.
  - destruct fmt; [ simpl; lia | simpl in Hn; lia ].
  - destruct fmt as [| c rest]; [ simpl; lia |]. cbn [sprintf0].
    destruct (Ascii.eqb_spec c percent) as [-> | Hc].
    + destruct rest as [| c' rest']; [ split; simpl; auto |].
      destruct (Ascii.eqb_spec c' percent) as [-> | Hc'];
        [| split; simpl; auto ].
      specialize (IH rest'). cbn [length] in Hn.
      destruct (sprintf0 rest') as [s | f]; cbn [bind].
      * unfold strlen in *. cbn [length]. lia.
      * split; [ apply IH; lia | simpl; auto ].
    + specialize (IH rest). cbn [length] in Hn.
      destruct (sprintf0 rest) as [s | f]; cbn [bind].
      * unfold strlen in *. cbn [length]. lia.
      * split; [ apply IH; lia | right; apply IH; lia ].
Qed.

(** The loop of G_command_history, entered with a row index below
    MAXEDLINES, stores into rows below MAXEDLINES only and leaves, either
    way, a count within the array. *)
Lemma wrap_invariant (n : nat) (cmdlin : cstring) (j : Z) (hist : History) :
  (Z.to_nat (strlen cmdlin - j) <= n)%nat -> 0 <= j ->
  0 <= edlinecnt hist <= MAXEDLINES - 1 ->
  match wrap cmdlin j hist with
  | Ok (inl h) => edlinecnt hist < edlinecnt h <= MAXEDLINES
  | Ok (inr (j', h)) =>
      j <= j' /\ strlen cmdlin - j' <= 70 /\
      edlinecnt hist <= edlinecnt h <= MAXEDLINES - 1
  | Fault _ => False
  end.
Proof.
  revert j hist. induction n as [| n IH]; intros j hist Hn Hj Hc.
  - rewrite wrap_done by lia. lia.
  - destruct (Z_gt_dec (strlen cmdlin - j) 70) as [Hgt | Hle];
      [| rewrite wrap_done by lia; lia ].
    rewrite wrap_more by exact Hgt.
    pose proof (strlen_fragment (from cmdlin j)) as F.
    rewrite store_row_ok by (unfold MAXEDLINES, RECORD_LEN in *; lia).
    cbn [bind]. cbv zeta.
    set (h := incr_edlinecnt _).
    assert (Hh : edlinecnt h = edlinecnt hist + 1) by reflexivity.
    destruct (Z.gtb_spec (edlinecnt h) (MAXEDLINES - 2)).
    + unfold MAXEDLINES in *. lia.
    + specialize (IH (j + 68) h).
      destruct (wrap cmdlin (j + 68) h) as [[h' | [j' h']] | f];
        unfold MAXEDLINES in *; lia.
Qed.

(** C10: entered with a count between 0 and MAXEDLINES, G_command_history
    never stores into a row outside the array (nor past the end of a row),
    and whichever way it returns, 0, 1 or 2, the count it leaves is at most
    MAXEDLINES.  It does return, unless a short command line contains a
    percent sign, which [sprintf] takes for a conversion. *)
Theorem G_command_history_within_bounds (cmdlin : cstring) (hist : History) :
  0 <= edlinecnt hist <= MAXEDLINES ->
  G_command_history cmdlin hist <> Fault BadIndex /\
  G_command_history cmdlin hist <> Fault RowOverflow /\
  (forall r hist', G_command_history cmdlin hist = Ok (r, hist') ->
     (r = 0 \/ r = 1 \/ r = 2) /\
     edlinecnt hist <= edlinecnt hist' <= MAXEDLINES) /\
  (70 <= strlen cmdlin \/ ~ In percent cmdlin ->
     exists r hist', G_command_history cmdlin hist = Ok (r, hist')).
Proof.
  intros Hc.
  assert (Main :
    match G_command_history cmdlin hist with
    | Ok (r, hist') =>
        (r = 0 \/ r = 1 \/ r = 2) /\
        edlinecnt hist <= edlinecnt hist' <= MAXEDLINES
    | Fault f => f = BadFormat /\ strlen cmdlin < 70 /\ In percent cmdlin
    end).
  { unfold G_command_history.
    destruct (Z.gtb_spec (edlinecnt hist) (MAXEDLINES - 2)); [ lia |].
    assert (Sep : exists h1,
      (if edlinecnt hist >? 0
       then bind (store_row (edlinecnt hist) [] hist)
              (fun h => Ok (incr_edlinecnt h))
       else Ok hist) = Ok h1 /\
      edlinecnt hist <= edlinecnt h1 <= MAXEDLINES - 1).
    { destruct (Z.gtb_spec (edlinecnt hist) 0).
      - rewrite store_row_ok by (unfold MAXEDLINES, RECORD_LEN in *;
          change (strlen []) with 0; lia).
        eexists; split; [ reflexivity |]. simpl. lia.
      - exists hist. split; [ reflexivity | lia ]. }
    destruct Sep as (h1 & -> & H1). cbn [bind].
    destruct (Z.ltb_spec (strlen cmdlin) 70) as [Hshort | Hlong].
    - pose proof (sprintf0_cases (length cmdlin) cmdlin (Nat.le_refl _)) as S.
      destruct (sprintf0 cmdlin) as [line | f]; cbn [bind];
        [| split; [ apply S | split; [ exact Hshort | apply S ] ] ].
      rewrite store_row_ok by (unfold MAXEDLINES, RECORD_LEN in *; lia).
      cbn [bind]. simpl. lia.
    - pose proof (wrap_invariant _ cmdlin 0 h1 (Nat.le_refl _)) as W.
      destruct (wrap cmdlin 0 h1) as [[h | [j h]] | f]; cbn [bind].
      + lia.
      + destruct W as (Hj & Hrest & Hh); [ lia | lia |].
        destruct (Z.gtb_spec (strlen cmdlin - j) 0); [| lia ].
        rewrite store_row_ok
          by (rewrite ?strlen_from by lia;
              unfold MAXEDLINES, RECORD_LEN in *; lia).
        cbn [bind]. simpl. lia.
      + exfalso. apply W; lia. }
  destruct (G_command_history cmdlin hist) as [[r hist'] | f].
  - split; [ discriminate | split; [ discriminate | split ] ].
    + intros r0 h0 E. injection E as <- <-. exact Main.
    + eauto.
  - destruct Main as (-> & Hs & Hp).
    split; [ discriminate | split; [ discriminate | split ] ].
    + discriminate.
    + intros [H | H]; [ lia | contradiction ].
Qed.

(** ** Reading lines *)

(** [fgets] splits the stream. *)
Lemma read_upto_split (room : nat) (fd : FILE) :
  fst (read_upto room fd) ++ snd (read_upto room fd) = fd.
Proof.
  revert fd. induction room as [| room IH]; intros [| c fd]; try reflexivity.
  cbn [read_upto]. destruct (Ascii.eqb c newline); [ reflexivity |].
  specialize (IH fd). destruct (read_upto room fd) as [s rest].
  simpl in *. congruence.
Qed.

Lemma read_upto_nonempty (room : nat) (c : ascii) (fd : FILE) :
  fst (read_upto (S room) (c :: fd)) <> [].
Proof.
  cbn [read_upto]. destruct (Ascii.eqb c newline); [ discriminate |].
  destruct (read_upto room fd). discriminate.
Qed.

(** A successful G_getl consumes at least one byte. *)
Lemma G_getl_consumes (fd : FILE) (s : cstring) (fd' : FILE) :
  G_getl RECORD_LEN fd = Some (s, fd') -> (length fd' < length fd)%nat.
Proof.
  destruct fd as [| c fd]; [ discriminate |].
  unfold G_getl. change (Z.to_nat (RECORD_LEN - 1)) with (S 78).
  pose proof (read_upto_split (S 78) (c :: fd)) as Hs.
  pose proof (read_upto_nonempty 78 c fd) as Hne.
  destruct (read_upto (S 78) (c :: fd)) as [t rest].
  intros E. injection E as _ <-. cbn [fst snd] in Hs, Hne.
  destruct t as [| c' t]; [ congruence |].
  rewrite <- Hs. cbn [app length]. rewrite length_app. lia.
Qed.

Lemma G_getl_eof (fd : FILE) : G_getl RECORD_LEN fd = None -> fd = [].
Proof.
  destruct fd; [ reflexivity |]. unfold G_getl.
  destruct (read_upto _ _). discriminate.
Qed.

(** Fuel beyond the length of the file changes nothing. *)
Lemma lines_upto_enough (n m : nat) (fd : FILE) :
  (length fd <= n)%nat -> (length fd <= m)%nat ->
  lines_upto n fd = lines_upto m fd.
Proof.
  revert m fd. induction n as [| n IH]; intros m fd Hn Hm.
  - destruct fd; [| simpl in Hn; lia ]. destruct m; reflexivity.
  - destruct m as [| m].
    + destruct fd; [ reflexivity | simpl in Hm; lia ].
    + cbn [lines_upto].
      destruct (G_getl RECORD_LEN fd) as [[s fd'] |] eqn:E; [| reflexivity ].
      apply G_getl_consumes in E. f_equal. apply IH; lia.
Qed.

(** The lines of a file: the first, then those of the rest. *)
Lemma file_lines_eq (fd : FILE) :
  file_lines fd =
    match G_getl RECORD_LEN fd with
    | Some (s, fd') => s :: file_lines fd'
    | None => []
    end.
Proof.
  unfold file_lines. destruct fd as [| c fd]; [ reflexivity |].
  remember (c :: fd) as fd0. cbn [length]. 
  destruct (length fd0) as [| n] eqn:L; [ subst; discriminate |].
  cbn [lines_upto].
  destruct (G_getl RECORD_LEN fd0) as [[s fd'] |] eqn:E; [| reflexivity ].
  apply G_getl_consumes in E. f_equal. apply lines_upto_enough; lia.
Qed.

(** Printable characters are neither the newline nor NUL. *)
Lemma printable_plain (c : ascii) :
  printable c = true -> Ascii.eqb c newline = false /\ Ascii.eqb c NUL = false.
Proof.
  intros H. split.
  - destruct (Ascii.eqb_spec c newline) as [-> |]; [ discriminate | reflexivity ].
  - destruct (Ascii.eqb_spec c NUL) as [-> |]; [ discriminate | reflexivity ].
Qed.

Lemma read_upto_line (room : nat) (l : cstring) (rest : FILE) :
  Forall (fun c => printable c = true) l -> (length l < room)%nat ->
  read_upto room (l ++ newline :: rest) = (l ++ [newline], rest).
Proof.
  revert room. induction l as [| c l IH]; intros room Hp Hl.
  - destruct room; [ simpl in Hl; lia |]. reflexivity.
  - destruct room as [| room]; [ simpl in Hl; lia |].
    inversion Hp as [| ? ? Hc Hp']; subst.
    cbn [read_upto app]. destruct (printable_plain c Hc) as [-> _].
    rewrite IH by (simpl in Hl; auto; lia). reflexivity.
Qed.

Lemma cut_line_line (l : cstring) :
  Forall (fun c => printable c = true) l -> cut_line (l ++ [newline]) = l.
Proof.
  induction 1 as [| c l Hc Hp IH]; [ reflexivity |].
  cbn [cut_line app]. destruct (printable_plain c Hc) as [-> ->].
  cbn [orb]. rewrite IH. reflexivity.
Qed.

(** G_getl hands back a well-formed line whole and stops behind it. *)
Lemma G_getl_line (l : cstring) (rest : FILE) :
  line_ok l ->
  G_getl RECORD_LEN (l ++ newline :: rest) = Some (l, rest).
Proof.
  intros [Hp Hl]. unfold G_getl.
  change (Z.to_nat (RECORD_LEN - 1)) with 79%nat.
  rewrite read_upto_line
    by (auto; unfold strlen, RECORD_LEN in Hl; lia).
  rewrite cut_line_line by exact Hp.
  destruct l; reflexivity.
Qed.

(** The lines of the text of well-formed lines are those lines. *)
Lemma file_lines_text_of (ls : list cstring) :
  Forall line_ok ls -> file_lines (text_of ls) = ls.
Proof.
  induction 1 as [| l ls Hl Hls IH]; [ reflexivity |].
  rewrite file_lines_eq. unfold text_of in *. cbn [map concat].
  rewrite <- app_assoc. cbn [app].
  rewrite G_getl_line by exact Hl. rewrite IH. reflexivity.
Qed.

(** Sanitization leaves printable strings alone. *)
Lemma G_ascii_check_printable (p : ascii) (s : cstring) :
  Forall (fun c => printable c = true) s -> G_ascii_check p s = s.
Proof.
  induction 1 as [| c s Hc Hs IH]; [ reflexivity |].
  unfold G_ascii_check in *. cbn [map]. rewrite Hc, IH. reflexivity.
Qed.

(** ** The comment loop of G_read_history *)

Lemma read_edhist_full (p : ascii) (fd : FILE) (hist : History) :
  ~ edlinecnt hist < MAXEDLINES -> read_edhist p fd hist = hist.
Proof.
  intros H. simp read_edhist.
  destruct (Z_lt_dec (edlinecnt hist) MAXEDLINES); [ lia | reflexivity ].
Qed.

Lemma read_edhist_eof (p : ascii) (fd : FILE) (hist : History) :
  G_getl RECORD_LEN fd = None -> read_edhist p fd hist = hist.
Proof.
  intros H. simp read_edhist.
  destruct (Z_lt_dec (edlinecnt hist) MAXEDLINES); [| reflexivity ].
  cbn. rewrite H. reflexivity.
Qed.

Lemma read_edhist_more (p : ascii) (fd fd' : FILE) (s : cstring)
    (hist : History) :
  edlinecnt hist < MAXEDLINES -> G_getl RECORD_LEN fd = Some (s, fd') ->
  read_edhist p fd hist =
    read_edhist p fd'
      (incr_edlinecnt
         (set_edhist
            (<[Z.to_nat (edlinecnt hist) := G_ascii_check p s]> (edhist hist))
            hist)).
Proof.
  intros Hc H. rewrite read_edhist_equation_1.
  destruct (Z_lt_dec (edlinecnt hist) MAXEDLINES); [| lia ].
  cbn. rewrite H. reflexivity.
Qed.

(** The loop appends the sanitized lines of the file to the log until the
    file ends or the array is full, and touches nothing else. *)
Lemma read_edhist_spec (p : ascii) (n : nat) (fd : FILE) (hist : History) :
  (Z.to_nat (MAXEDLINES - edlinecnt hist) <= n)%nat ->
  rows_allocated hist -> 0 <= edlinecnt hist ->
  let ls := take (Z.to_nat (MAXEDLINES - edlinecnt hist)) (file_lines fd) in
  let h' := read_edhist p fd hist in
  fields h' = fields hist /\
  comments h' = comments hist ++ map (G_ascii_check p) ls /\
  edlinecnt h' = edlinecnt hist + Z.of_nat (length ls) /\
  rows_allocated h'.
Proof.
  revert fd hist. induction n as [| n IH]; intros fd hist Hn Hrows Hc; cbv zeta.
  - rewrite read_edhist_full by lia.
    replace (Z.to_nat (MAXEDLINES - edlinecnt hist)) with 0%nat by lia.
    rewrite take_0, app_nil_r. cbn [length]. repeat split; auto; lia.
  - destruct (Z_lt_dec (edlinecnt hist) MAXEDLINES) as [Hlt | Hge].
    2:{ rewrite read_edhist_full by lia.
        replace (Z.to_nat (MAXEDLINES - edlinecnt hist)) with 0%nat by lia.
        rewrite take_0, app_nil_r. cbn [length]. repeat split; auto; lia. }
    rewrite (file_lines_eq fd).
    destruct (G_getl RECORD_LEN fd) as [[s fd'] |] eqn:E.
    2:{ rewrite read_edhist_eof by exact E.
        rewrite take_nil, app_nil_r. cbn [length]. repeat split; auto; lia. }
    rewrite (read_edhist_more p fd fd' s hist Hlt E).
    destruct (comments_append (G_ascii_check p s) hist Hrows) as (C & R & N);
      [ lia |].
    set (h1 := incr_edlinecnt _) in *.
    destruct (IH fd' h1) as (F' & C' & N' & R'); [ lia | exact R | lia |].
    replace (Z.to_nat (MAXEDLINES - edlinecnt hist))
      with (S (Z.to_nat (MAXEDLINES - edlinecnt h1))) by lia.
    cbn [take map length].
    split; [ rewrite F'; reflexivity |].
    split; [ rewrite C', C, <- app_assoc; reflexivity |].
    split; [ rewrite N', N; lia | exact R' ].
Qed.

Lemma G_zero_rows (h : History) : rows_allocated (G_zero h).
Proof. unfold rows_allocated, G_zero. cbn [edhist]. apply length_replicate. Qed.

(** G_read_history in terms of the lines of the file: with fewer than
    eight lines it fails and leaves the lines it found in the leading
    fields of the zeroed record; otherwise it succeeds, the first eight
    lines are the fields and up to MAXEDLINES of the others the comments. *)
Lemma G_read_history_lines (p : ascii) (fd : FILE) (h : History) :
  let ls := map (G_ascii_check p) (file_lines fd) in
  let r := G_read_history p (Some fd) h in
  ((length ls < 8)%nat -> r = (-1, with_fields ls (G_zero h))) /\
  ((8 <= length ls)%nat ->
     fst r = 0 /\ fields (snd r) = take 8 ls /\
     comments (snd r) = take (Z.to_nat MAXEDLINES) (drop 8 ls) /\
     edlinecnt (snd r) = Z.of_nat (length (take (Z.to_nat MAXEDLINES) (drop 8 ls)))).
Proof.
  cbv zeta. unfold G_read_history.
  do 8 (rewrite (file_lines_eq fd);
        destruct (G_getl RECORD_LEN fd) as [[? fd'] |];
        [ clear fd; rename fd' into fd
        | split; [ intros _; reflexivity | cbn [map length]; lia ] ]).
  split; [ cbn [map length]; lia | intros _ ].
  cbn [fst snd map drop].
  set (h8 := set_edlinecnt 0 _).
  destruct (read_edhist_spec p _ fd h8 (Nat.le_refl _)) as (F & C & N & _).
  { unfold h8, rows_allocated. cbn [edhist set_edlinecnt]. apply G_zero_rows. }
  { unfold h8. cbn [edlinecnt set_edlinecnt]. lia. }
  change (edlinecnt h8) with 0 in *. change (comments h8) with (@nil cstring) in C.
  rewrite Z.sub_0_r in *.
  split; [ reflexivity |]. split; [ rewrite F; reflexivity |].
  rewrite drop_0, firstn_map. split; [ exact C |].
  rewrite N, length_map. lia.
Qed.

(** C7: G_read_history returns -1 when the file could not be opened and
    when the file has fewer than eight lines, and 0 in every other case;
    with more than MAXEDLINES lines after the eighth it still returns 0,
    the comment log being the first MAXEDLINES of them and the others
    dropped.  (The lines of a file are what successive G_getl calls yield;
    for a text of well-formed lines they are those lines.) *)
Theorem G_read_history_status (p : ascii) (h : History) :
  fst (G_read_history p None h) = -1 /\
  (forall fd, (length (file_lines fd) < 8)%nat ->
     fst (G_read_history p (Some fd) h) = -1) /\
  (forall fd, (8 <= length (file_lines fd))%nat ->
     fst (G_read_history p (Some fd) h) = 0 /\
     comments (snd (G_read_history p (Some fd) h)) =
       map (G_ascii_check p)
         (take (Z.to_nat MAXEDLINES) (drop 8 (file_lines fd))) /\
     edlinecnt (snd (G_read_history p (Some fd) h)) =
       Z.of_nat (Nat.min (Z.to_nat MAXEDLINES) (length (file_lines fd) - 8))) /\
  (forall ls, Forall line_ok ls ->
     file_lines (text_of ls) = ls /\
     fst (G_read_history p (Some (text_of ls)) h) =
       if (length ls <? 8)%nat then -1 else 0).
Proof.
  assert (Short : forall fd, (length (file_lines fd) < 8)%nat ->
            fst (G_read_history p (Some fd) h) = -1).
  { intros fd Hn. destruct (G_read_history_lines p fd h) as [Hshort _].
    rewrite length_map in Hshort. rewrite (Hshort Hn). reflexivity. }
  assert (Long : forall fd, (8 <= length (file_lines fd))%nat ->
            fst (G_read_history p (Some fd) h) = 0 /\
            comments (snd (G_read_history p (Some fd) h)) =
              map (G_ascii_check p)
                (take (Z.to_nat MAXEDLINES) (drop 8 (file_lines fd))) /\
            edlinecnt (snd (G_read_history p (Some fd) h)) =
              Z.of_nat (Nat.min (Z.to_nat MAXEDLINES)
                          (length (file_lines fd) - 8))).
  { intros fd Hn. destruct (G_read_history_lines p fd h) as [_ Hlong].
    rewrite length_map in Hlong. destruct (Hlong Hn) as (R & _ & C & N).
    split; [ exact R |]. rewrite C, N.
    rewrite skipn_map, firstn_map, length_map, length_take, length_drop.
    split; reflexivity. }
  split; [ reflexivity |]. split; [ exact Short |]. split; [ exact Long |].
  intros ls Hls. pose proof (file_lines_text_of ls Hls) as E.
  split; [ exact E |].
  destruct (Nat.ltb_spec (length ls) 8) as [Hn | Hn].
  - apply Short. rewrite E. exact Hn.
  - apply Long. rewrite E. exact Hn.
Qed.

(** On a file of sixty lines G_read_history returns 0 with MAXEDLINES
    comment rows in use; the last two lines are not in the record. *)
Example G_read_history_at_capacity :
  fst (G_read_history "?" (Some long_file) sample_history) = 0 /\
  edlinecnt (snd (G_read_history "?" (Some long_file) sample_history)) = 50 /\
  length (file_lines long_file) = 60%nat.
Proof. vm_compute. repeat split. Qed.

(** C8 (as the code has it): when G_read_history fails for want of a line,
    the record it leaves is the zeroed record with the lines that were
    read, sanitized, in its leading fields; the fields not reached, the
    comment rows and the count are zero.  When the file could not be
    opened the record is all zero. *)
Theorem G_read_history_failure_keeps_read_fields (p : ascii) (h : History)
    (fd : FILE) :
  (length (file_lines fd) < 8)%nat ->
  G_read_history p (Some fd) h =
    (-1, with_fields (map (G_ascii_check p) (file_lines fd)) (G_zero h)) /\
  G_read_history p None h = (-1, G_zero h).
Proof.
  intros Hn. split; [| reflexivity ].
  destruct (G_read_history_lines p fd h) as [Hshort _].
  apply Hshort. rewrite length_map. exact Hn.
Qed.

Lemma G_read_history_failure_keeps_read_fields_witness :
  G_read_history "?" (Some truncated_file) sample_history =
    (-1, set_mapid (str "Tue Nov  3 10:00:00 2009") (G_zero sample_history)) /\
  G_read_history "?" None sample_history = (-1, G_zero sample_history).
Proof.
  apply (G_read_history_failure_keeps_read_fields "?" sample_history
           truncated_file).
  vm_compute. lia.
Defined.

(** C8 as stated fails: on a file of one line G_read_history returns -1
    and the record holds that line in its first field. *)
Lemma G_read_history_leaves_partial_record :
  fst (G_read_history "?" (Some truncated_file) sample_history) = -1 /\
  mapid (snd (G_read_history "?" (Some truncated_file) sample_history))
    = str "Tue Nov  3 10:00:00 2009" /\
  snd (G_read_history "?" (Some truncated_file) sample_history)
    <> G_zero sample_history.
Proof. repeat split. vm_compute. discriminate. Qed.

(** ** Writing a record and reading it back *)

Lemma write_edhist_more (i : Z) (hist : History) (fd : FILE) :
  i < edlinecnt hist ->
  write_edhist i hist fd =
    write_edhist (i + 1) hist (fprintf_line (row hist i) fd).
Proof.
  intros H. rewrite write_edhist_equation_1.
  destruct (Z_lt_dec i (edlinecnt hist)); [ reflexivity | lia ].
Qed.

Lemma write_edhist_done (i : Z) (hist : History) (fd : FILE) :
  ~ i < edlinecnt hist -> write_edhist i hist fd = fd.
Proof.
  intros H. rewrite write_edhist_equation_1.
  destruct (Z_lt_dec i (edlinecnt hist)); [ lia | reflexivity ].
Qed.

Lemma text_of_cons (l : cstring) (ls : list cstring) :
  text_of (l :: ls) = l ++ [newline] ++ text_of ls.
Proof. unfold text_of. cbn [map concat]. rewrite <- app_assoc. reflexivity. Qed.

Lemma text_of_app (ls1 ls2 : list cstring) :
  text_of (ls1 ++ ls2) = text_of ls1 ++ text_of ls2.
Proof. unfold text_of. rewrite map_app, concat_app. reflexivity. Qed.

(** The [for] loop writes the rows in use from row [i] on, one per line. *)
Lemma write_edhist_spec (n : nat) (i : Z) (hist : History) (fd : FILE) :
  (Z.to_nat (edlinecnt hist - i) <= n)%nat -> 0 <= i ->
  (Z.to_nat (edlinecnt hist) <= length (edhist hist))%nat ->
  write_edhist i hist fd = fd ++ text_of (drop (Z.to_nat i) (comments hist)).
Proof.
  revert i fd. induction n as [| n IH]; intros i fd Hn Hi Hrows.
  - rewrite write_edhist_done by lia.
    rewrite drop_ge by (unfold comments; rewrite length_take; lia).
    unfold text_of. cbn [map concat]. rewrite app_nil_r. reflexivity.
  - destruct (Z_lt_dec i (edlinecnt hist)) as [Hlt | Hge].
    + rewrite write_edhist_more by exact Hlt.
      rewrite IH by lia.
      assert (Hrow : comments hist !! Z.to_nat i = Some (row hist i)).
      { unfold comments, row. rewrite lookup_take_lt by lia.
        apply list_lookup_lookup_total_lt. lia. }
      rewrite (drop_S _ _ _ Hrow), text_of_cons.
      replace (Z.to_nat (i + 1)) with (S (Z.to_nat i)) by lia.
      unfold fprintf_line. rewrite <- !app_assoc. reflexivity.
    + rewrite write_edhist_done by exact Hge.
      rewrite drop_ge by (unfold comments; rewrite length_take; lia).
      unfold text_of. cbn [map concat]. rewrite app_nil_r. reflexivity.
Qed.

(** G_write_history writes the eight fields and the rows in use, one per
    line. *)
Lemma G_write_history_text (hist : History) :
  0 <= edlinecnt hist ->
  (Z.to_nat (edlinecnt hist) <= length (edhist hist))%nat ->
  G_write_history (Some []) hist =
    (0, Some (text_of (fields hist ++ comments hist))).
Proof.
  intros Hc Hrows. unfold G_write_history.
  rewrite (write_edhist_spec _ 0 hist _ (Nat.le_refl _)) by (auto; lia).
  change (Z.to_nat 0) with 0%nat. rewrite drop_0, text_of_app.
  do 2 f_equal. f_equal.
  unfold fields, fprintf_line, text_of. cbn [map concat].
  rewrite app_nil_r, <- !app_assoc. reflexivity.
Qed.

Lemma G_ascii_check_lines (p : ascii) (ls : list cstring) :
  Forall line_ok ls -> map (G_ascii_check p) ls = ls.
Proof.
  induction 1 as [| l ls [Hp _] Hls IH]; [ reflexivity |].
  cbn [map]. rewrite IH, G_ascii_check_printable by exact Hp. reflexivity.
Qed.

(** C9: a record whose eight fields and comment rows in use are printable
    strings of at most RECORD_LEN - 2 characters (so that a line, its
    newline and the terminator fit the buffer of G_getl), with between 0
    and MAXEDLINES rows in use, written by G_write_history to a new file
    and read from that file by G_read_history, comes back with the same
    eight fields, the same count and the same comment rows in the same
    order; both calls return 0. *)
Theorem history_write_read_roundtrip (p : ascii) (h0 hist : History) :
  Forall line_ok (fields hist) -> Forall line_ok (comments hist) ->
  0 <= edlinecnt hist <= MAXEDLINES -> rows_allocated hist ->
  exists file hist',
    G_write_history (Some []) hist = (0, Some file) /\
    G_read_history p (Some file) h0 = (0, hist') /\
    fields hist' = fields hist /\
    edlinecnt hist' = edlinecnt hist /\
    comments hist' = comments hist.
Proof.
  intros Hf Hcm Hc Hrows. unfold rows_allocated in Hrows.
  exists (text_of (fields hist ++ comments hist)).
  exists (snd (G_read_history p (Some (text_of (fields hist ++ comments hist))) h0)).
  split; [ apply G_write_history_text; lia |].
  destruct (G_read_history_lines p (text_of (fields hist ++ comments hist)) h0)
    as [_ Hlong].
  assert (Hall : Forall line_ok (fields hist ++ comments hist))
    by (apply Forall_app; split; assumption).
  rewrite (file_lines_text_of _ Hall), (G_ascii_check_lines p _ Hall) in Hlong.
  assert (Hlen : length (comments hist) = Z.to_nat (edlinecnt hist))
    by (unfold comments; rewrite length_take; lia).
  destruct Hlong as (R & F & C & N).
  { rewrite length_app. cbn [fields length]. lia. }
  change (take 8 (fields hist ++ comments hist)) with (fields hist) in F.
  change (drop 8 (fields hist ++ comments hist)) with (comments hist) in C, N.
  rewrite take_ge in C, N by lia.
  split; [| split; [ exact F | split; [ lia | exact C ] ] ].
  rewrite <- R. apply surjective_pairing.
Qed.

Lemma history_write_read_roundtrip_witness :
  exists file hist',
    G_write_history (Some []) sample_history = (0, Some file) /\
    G_read_history "?" (Some file) (G_zero sample_history) = (0, hist') /\
    fields hist' = fields sample_history /\
    edlinecnt hist' = edlinecnt sample_history /\
    comments hist' = comments sample_history.
Proof.
  apply (history_write_read_roundtrip "?" (G_zero sample_history)
           sample_history).
  - unfold line_ok, sample_history. cbn [fields mapid title mapset creator
      maptype datsrc_1 datsrc_2 keywrd].
    repeat constructor; vm_compute; congruence.
  - unfold line_ok, comments, sample_history. cbn.
    repeat constructor; vm_compute; congruence.
  - vm_compute. split; congruence.
  - reflexivity.
Defined.

(** A field of RECORD_LEN - 1 characters fills the buffer of G_getl before
    its newline is read, and the newline is then taken for an empty line:
    the map id comes back as it was written, the title comes back empty and
    the fields behind it move down by one. *)
Example full_width_field_splits :
  let hist := set_mapid (replicate 79 "a"%char) sample_history in
  exists file,
    G_write_history (Some []) hist = (0, Some file) /\
    mapid (snd (G_read_history "?" (Some file) hist)) = mapid hist /\
    title (snd (G_read_history "?" (Some file) hist)) = [] /\
    mapset (snd (G_read_history "?" (Some file) hist)) = title hist.
Proof. eexists. split; [ reflexivity |]. vm_compute. repeat split. Qed.

Lemma G_command_history_no_room_witness :
  G_command_history sample_command_200 sample_nearly_full
  = Ok (1, sample_nearly_full).
Proof.
  apply (G_command_history_no_room sample_command_200 sample_nearly_full).
  reflexivity.
Defined.

Lemma G_command_history_wraps_200_witness :
  exists hist',
    G_command_history sample_command_200 sample_history = Ok (0, hist') /\
    comments hist' =
      comments sample_history ++ separator sample_history ++
        [take 68 sample_command_200 ++ [backslash];
         take 68 (drop 68 sample_command_200) ++ [backslash];
         drop 136 sample_command_200] /\
    edlinecnt hist' =
      edlinecnt sample_history
      + Z.of_nat (length (separator sample_history)) + 3 /\
    take 68 sample_command_200 ++ take 68 (drop 68 sample_command_200)
      ++ drop 136 sample_command_200 = sample_command_200 /\
    length (take 68 sample_command_200) = 68%nat /\
    length (take 68 (drop 68 sample_command_200)) = 68%nat /\
    length (drop 136 sample_command_200) = 64%nat.
Proof.
  apply (G_command_history_wraps_200 sample_command_200 sample_history).
  - reflexivity.
  - reflexivity.
  - vm_compute. split; congruence.
Defined.

Lemma G_command_history_within_bounds_witness :
  G_command_history sample_command_200 sample_history <> Fault BadIndex /\
  G_command_history sample_command_200 sample_history <> Fault RowOverflow /\
  (forall r hist',
     G_command_history sample_command_200 sample_history = Ok (r, hist') ->
     (r = 0 \/ r = 1 \/ r = 2) /\
     edlinecnt sample_history <= edlinecnt hist' <= MAXEDLINES) /\
  (70 <= strlen sample_command_200 \/ ~ In percent sample_command_200 ->
     exists r hist',
       G_command_history sample_command_200 sample_history = Ok (r, hist')).
Proof.
  apply (G_command_history_within_bounds sample_command_200 sample_history).
  vm_compute. split; congruence.
Defined.

(** * Further properties of G_raster_cmp *)

(** X1: on CELL values G_raster_cmp is a total order with the null value
    as its least element: a value equals itself, exchanging the operands
    negates the result, the result is 0 only for equal values, and
    "not greater" is transitive. *)
Theorem G_raster_cmp_CELL_total_order (G : gislib) :
  (forall v, G_raster_cmp G v v (CELL_TYPE G) = EQUAL) /\
  (forall a b,
     G_raster_cmp G b a (CELL_TYPE G) = - G_raster_cmp G a b (CELL_TYPE G)) /\
  (forall a b, G_raster_cmp G a b (CELL_TYPE G) = EQUAL -> a = b) /\
  (forall a b c,
     G_raster_cmp G a b (CELL_TYPE G) <= 0 ->
     G_raster_cmp G b c (CELL_TYPE G) <= 0 ->
     G_raster_cmp G a c (CELL_TYPE G) <= 0) /\
  (forall v, G_raster_cmp G (cellNullPattern G) v (CELL_TYPE G) <= 0).
Proof.
  unfold G_raster_cmp, G_is_null_value, G_is_c_null_value, EQUAL.
  rewrite !Z.eqb_refl.
  split; [| split; [| split; [| split ] ] ].
  - intros v. rewrite Z.eqb_refl.
    destruct (Z.eqb_spec v (cellNullPattern G)); [ reflexivity |].
    destruct (Z.gtb_spec v v); [ lia | reflexivity ].
  - intros a b.
    destruct (Z.eqb_spec a (cellNullPattern G)),
      (Z.eqb_spec b (cellNullPattern G)); try reflexivity.
    destruct (Z.gtb_spec a b), (Z.gtb_spec b a), (Z.eqb_spec a b),
      (Z.eqb_spec b a); try reflexivity; lia.
  - intros a b.
    destruct (Z.eqb_spec a (cellNullPattern G)),
      (Z.eqb_spec b (cellNullPattern G)); try congruence; try discriminate.
    destruct (Z.gtb_spec a b); [ discriminate |].
    destruct (Z.eqb_spec a b); [ auto | discriminate ].
  - intros a b c.
    destruct (Z.eqb_spec a (cellNullPattern G)),
      (Z.eqb_spec b (cellNullPattern G)),
      (Z.eqb_spec c (cellNullPattern G)); try lia.
    destruct (Z.gtb_spec a b), (Z.gtb_spec b c), (Z.gtb_spec a c),
      (Z.eqb_spec a b), (Z.eqb_spec b c), (Z.eqb_spec a c); lia.
  - intros v. destruct (Z.eqb_spec v (cellNullPattern G)); lia.
Qed.

(** ** Comparison of floating values *)

Lemma SFcompare_swap (a b : spec_float) :
  SFcompare b a = option_map CompOpp (SFcompare a b).
Proof.
  destruct a as [sa | sa | | sa ma ea], b as [sb | sb | | sb mb eb];
    try destruct sa; try destruct sb; try reflexivity; cbn [SFcompare option_map].
  - rewrite (Z.compare_antisym eb ea).
    destruct (eb ?= ea); cbn [CompOpp]; try reflexivity.
    rewrite CompOpp_involutive. f_equal.
    exact (Pos.compare_cont_antisym mb ma Eq).
  - rewrite (Z.compare_antisym eb ea).
    destruct (eb ?= ea); cbn [CompOpp]; try reflexivity.
    f_equal. symmetry. exact (Pos.compare_cont_antisym ma mb Eq).
Qed.

Lemma SFcompare_nan (a b : spec_float) :
  SFcompare a b = None <-> a = S754_nan \/ b = S754_nan.
Proof.
  destruct a as [sa | sa | | sa ma ea], b as [sb | sb | | sb mb eb];
    cbn [SFcompare]; split; intros H; try discriminate; auto;
    destruct H; discriminate.
Qed.

(** The three-way comparison that G_raster_cmp makes of two floating
    values changes sign with the operands unless one decodes to a NaN;
    with a NaN on either side it is LESS. *)
Lemma three_way_float (mw ew : Z) (a b : Z) :
  (IEEE.decode mw ew a <> S754_nan -> IEEE.decode mw ew b <> S754_nan ->
     three_way (IEEE.gt mw ew) (IEEE.eq mw ew) b a
     = - three_way (IEEE.gt mw ew) (IEEE.eq mw ew) a b) /\
  (IEEE.decode mw ew a = S754_nan \/ IEEE.decode mw ew b = S754_nan ->
     three_way (IEEE.gt mw ew) (IEEE.eq mw ew) a b = LESS).
Proof.
  unfold three_way, IEEE.gt, IEEE.eq, SFltb, SFeqb.
  rewrite (SFcompare_swap (IEEE.decode mw ew a) (IEEE.decode mw ew b)).
  pose proof (SFcompare_nan (IEEE.decode mw ew a) (IEEE.decode mw ew b)) as N.
  destruct (SFcompare (IEEE.decode mw ew a) (IEEE.decode mw ew b)) as [[] |];
    cbn [option_map CompOpp]; split; intros; try reflexivity.
  all: try (exfalso;
            match goal with H : _ \/ _ |- _ => apply N in H; discriminate end).
  exfalso. destruct (proj1 N eq_refl); contradiction.
Qed.

(** A bit pattern decodes to a NaN exactly when its exponent field is all
    ones and its significand field is not zero. *)
Lemma decode_nan (mw ew : Z) (b : Z) :
  0 <= mw -> 0 < ew ->
  IEEE.decode mw ew b = S754_nan <-> IEEE.is_nan mw ew b = true.
Proof.
  intros Hmw Hew. unfold IEEE.decode, IEEE.is_nan.
  assert (Hones : Z.ones ew <> 0).
  { rewrite Z.ones_equiv. pose proof (Z.pow_gt_1 2 ew). lia. }
  assert (Hm : 0 <= IEEE.mant_of mw b).
  { unfold IEEE.mant_of. apply Z.land_nonneg. right.
    rewrite Z.ones_equiv. pose proof (Z.pow_pos_nonneg 2 mw). lia. }
  assert (Hp : 0 < 2 ^ mw) by (apply Z.pow_pos_nonneg; lia).
  destruct (Z.eqb_spec (IEEE.expo_of mw ew b) 0) as [E0 | E0].
  - destruct (Z.eqb_spec (IEEE.expo_of mw ew b) (Z.ones ew)); [ congruence |].
    cbn [andb]. destruct (IEEE.mant_of mw b); split; discriminate.
  - destruct (Z.eqb_spec (IEEE.expo_of mw ew b) (Z.ones ew)); cbn [andb].
    + destruct (Z.eqb_spec (IEEE.mant_of mw b) 0); cbn [negb];
        split; try discriminate; reflexivity.
    + destruct (IEEE.mant_of mw b + 2 ^ mw) eqn:S; split;
        try discriminate; lia.
Qed.

(** Between two values that are not null G_raster_cmp is the three-way
    comparison of the kind. *)
Lemma G_raster_cmp_numeric (G : gislib) (v1 v2 : Z) (k : RASTER_MAP_TYPE) :
  labels_distinct G ->
  G_is_null_value G v1 k = false -> G_is_null_value G v2 k = false ->
  (k = FCELL_TYPE G ->
     G_raster_cmp G v1 v2 k = three_way FCELL_gt FCELL_eq v1 v2) /\
  (k = DCELL_TYPE G ->
     G_raster_cmp G v1 v2 k = three_way DCELL_gt DCELL_eq v1 v2).
Proof.
  intros HG N1 N2. unfold G_raster_cmp. rewrite N1, N2.
  split; intros Hk; take_case G HG Hk; reflexivity.
Qed.

(** X2: on FCELL and DCELL values, a value that is a NaN without being the
    null pattern compares LESS whichever side it stands on, against any
    value that is not null, itself included: there G_raster_cmp is neither
    reflexive nor antisymmetric. *)
Theorem G_raster_cmp_nan_is_less_on_both_sides (G : gislib) (v1 v2 : Z)
    (k : RASTER_MAP_TYPE) :
  labels_distinct G ->
  G_is_null_value G v1 k = false -> G_is_null_value G v2 k = false ->
  (k = FCELL_TYPE G /\ IEEE.is_nan 23 8 v1 = true) \/
  (k = DCELL_TYPE G /\ IEEE.is_nan 52 11 v1 = true) ->
  G_raster_cmp G v1 v2 k = LESS /\ G_raster_cmp G v2 v1 k = LESS /\
  G_raster_cmp G v1 v1 k = LESS.
Proof.
  intros HG N1 N2 Hk.
  destruct (G_raster_cmp_numeric G v1 v2 k HG N1 N2) as [F12 D12].
  destruct (G_raster_cmp_numeric G v2 v1 k HG N2 N1) as [F21 D21].
  destruct (G_raster_cmp_numeric G v1 v1 k HG N1 N1) as [F11 D11].
  destruct Hk as [[Hk Hnan] | [Hk Hnan]].
  - apply (decode_nan 23 8) in Hnan; [| lia | lia ].
    rewrite (F12 Hk), (F21 Hk), (F11 Hk). unfold FCELL_gt, FCELL_eq.
    repeat split; apply three_way_float; auto.
  - apply (decode_nan 52 11) in Hnan; [| lia | lia ].
    rewrite (D12 Hk), (D21 Hk), (D11 Hk). unfold DCELL_gt, DCELL_eq.
    repeat split; apply three_way_float; auto.
Qed.

Lemma G_raster_cmp_nan_is_less_on_both_sides_witness :
  G_raster_cmp grass 0x7FC00000 0x3F800000 (FCELL_TYPE grass) = LESS /\
  G_raster_cmp grass 0x3F800000 0x7FC00000 (FCELL_TYPE grass) = LESS /\
  G_raster_cmp grass 0x7FC00000 0x7FC00000 (FCELL_TYPE grass) = LESS.
Proof.
  apply (G_raster_cmp_nan_is_less_on_both_sides grass 0x7FC00000 0x3F800000
           (FCELL_TYPE grass) grass_labels_distinct).
  - reflexivity.
  - reflexivity.
  - left. split; reflexivity.
Defined.

(** X3: on FCELL and DCELL values of which none is a NaN other than the
    null pattern, exchanging the operands of G_raster_cmp negates the
    result, and a value compares EQUAL to itself. *)
Theorem G_raster_cmp_float_antisymmetric (G : gislib) (v1 v2 : Z)
    (k : RASTER_MAP_TYPE) :
  labels_distinct G ->
  (k = FCELL_TYPE G /\
   (G_is_null_value G v1 k = true \/ IEEE.is_nan 23 8 v1 = false) /\
   (G_is_null_value G v2 k = true \/ IEEE.is_nan 23 8 v2 = false)) \/
  (k = DCELL_TYPE G /\
   (G_is_null_value G v1 k = true \/ IEEE.is_nan 52 11 v1 = false) /\
   (G_is_null_value G v2 k = true \/ IEEE.is_nan 52 11 v2 = false)) ->
  G_raster_cmp G v2 v1 k = - G_raster_cmp G v1 v2 k /\
  G_raster_cmp G v1 v1 k = EQUAL.
Proof.
  intros HG Hk.
  assert (Hnn : forall mw ew v, 0 <= mw -> 0 < ew ->
            IEEE.is_nan mw ew v = false -> IEEE.decode mw ew v <> S754_nan).
  { intros mw ew v H1 H2 H E. apply (decode_nan mw ew v H1 H2) in E.
    congruence. }
  assert (Refl : forall mw ew v, IEEE.decode mw ew v <> S754_nan ->
            three_way (IEEE.gt mw ew) (IEEE.eq mw ew) v v = EQUAL).
  { intros mw ew v Hv. unfold three_way, IEEE.gt, IEEE.eq, SFltb, SFeqb.
    pose proof (SFcompare_swap (IEEE.decode mw ew v) (IEEE.decode mw ew v)) as S.
    pose proof (SFcompare_nan (IEEE.decode mw ew v) (IEEE.decode mw ew v)) as N.
    destruct (SFcompare (IEEE.decode mw ew v) (IEEE.decode mw ew v))
      as [[] |]; try reflexivity; try discriminate.
    destruct (proj1 N eq_refl); contradiction. }
  destruct (G_is_null_value G v1 k) eqn:N1, (G_is_null_value G v2 k) eqn:N2.
  - unfold G_raster_cmp. rewrite N1, N2. split; reflexivity.
  - unfold G_raster_cmp. rewrite N1, N2. split; reflexivity.
  - unfold G_raster_cmp at 1 2. rewrite N1, N2. split; [ reflexivity |].
    destruct (G_raster_cmp_numeric G v1 v1 k HG N1 N1) as [F D].
    destruct Hk as [(Hk & [H1 | H1] & _) | (Hk & [H1 | H1] & _)];
      try discriminate.
    + rewrite (F Hk). apply Refl, Hnn; auto; lia.
    + rewrite (D Hk). apply Refl, Hnn; auto; lia.
  - destruct (G_raster_cmp_numeric G v1 v2 k HG N1 N2) as [F12 D12].
    destruct (G_raster_cmp_numeric G v2 v1 k HG N2 N1) as [F21 D21].
    destruct (G_raster_cmp_numeric G v1 v1 k HG N1 N1) as [F11 D11].
    destruct Hk as [(Hk & [H1 | H1] & [H2 | H2]) | (Hk & [H1 | H1] & [H2 | H2])];
      try discriminate.
    + rewrite (F12 Hk), (F21 Hk), (F11 Hk). unfold FCELL_gt, FCELL_eq.
      split; [ apply three_way_float | apply Refl ]; apply Hnn; auto; lia.
    + rewrite (D12 Hk), (D21 Hk), (D11 Hk). unfold DCELL_gt, DCELL_eq.
      split; [ apply three_way_float | apply Refl ]; apply Hnn; auto; lia.
Qed.

Lemma G_raster_cmp_float_antisymmetric_witness :
  G_raster_cmp grass 0x3F800000 0xC0490FDB (FCELL_TYPE grass)
  = - G_raster_cmp grass 0xC0490FDB 0x3F800000 (FCELL_TYPE grass) /\
  G_raster_cmp grass 0xC0490FDB 0xC0490FDB (FCELL_TYPE grass) = EQUAL.
Proof.
  apply (G_raster_cmp_float_antisymmetric grass 0xC0490FDB 0x3F800000
           (FCELL_TYPE grass) grass_labels_distinct).
  left. split; [ reflexivity | split; right; reflexivity ].
Defined.

(** * Storing and reading back *)

(** X4: a null value given to any of the three G_set_raster_value routines
    leaves the same cell whatever its type was, and G_is_null_value and
    the three G_get_raster_value routines read that cell as the null of
    their own type: null passes through a cell of any kind. *)
Theorem null_passes_through_any_kind (G : gislib) (rast : Z) (c0 : CELL)
    (f0 : FCELL) (d0 : DCELL) (k : RASTER_MAP_TYPE) :
  labels_distinct G -> is_kind G k ->
  let cell := G_set_raster_value_c G rast (cellNullPattern G) k in
  G_set_raster_value_f G rast (fcellNullPattern G) k = Some cell /\
  G_set_raster_value_d G rast (dcellNullPattern G) k = Some cell /\
  G_is_null_value G cell k = true /\
  G_get_raster_value_c G c0 cell k = Some (cellNullPattern G) /\
  G_get_raster_value_f G f0 cell k = fcellNullPattern G /\
  G_get_raster_value_d G d0 cell k = dcellNullPattern G.
Proof.
  intros HG Hk. cbv zeta.
  unfold G_set_raster_value_c, G_set_raster_value_f, G_set_raster_value_d,
    G_is_c_null_value, G_is_f_null_value, G_is_d_null_value.
  rewrite !Z.eqb_refl.
  pose proof (G_set_null_value_one G rast k HG Hk) as E.
  pose proof (sentinel_is_null G k HG Hk) as N.
  rewrite E.
  unfold G_get_raster_value_c, G_get_raster_value_f, G_get_raster_value_d.
  rewrite N. repeat split.
Qed.

Lemma grass_DCELL_is_kind : is_kind grass (DCELL_TYPE grass).
Proof. right; right; reflexivity. Qed.

Lemma null_passes_through_any_kind_witness :
  G_set_raster_value_f grass 0 (fcellNullPattern grass) (DCELL_TYPE grass)
    = Some (dcellNullPattern grass) /\
  G_set_raster_value_d grass 0 (dcellNullPattern grass) (DCELL_TYPE grass)
    = Some (dcellNullPattern grass) /\
  G_is_null_value grass (dcellNullPattern grass) (DCELL_TYPE grass) = true /\
  G_get_raster_value_c grass 0 (dcellNullPattern grass) (DCELL_TYPE grass)
    = Some (cellNullPattern grass) /\
  G_get_raster_value_f grass 0 (dcellNullPattern grass) (DCELL_TYPE grass)
    = fcellNullPattern grass /\
  G_get_raster_value_d grass 0 (dcellNullPattern grass) (DCELL_TYPE grass)
    = dcellNullPattern grass.
Proof.
  apply (null_passes_through_any_kind grass 0 0 0 0 (DCELL_TYPE grass)
           grass_labels_distinct grass_DCELL_is_kind).
Defined.

(** X5: a value stored into a cell of its own type and read back in that
    type is the value, bit for bit, whether it is null, a number or a NaN
    with any payload; no conversion is ever undefined there. *)
Theorem same_type_store_and_read (G : gislib) (rast v : Z) (c0 : CELL)
    (f0 : FCELL) (d0 : DCELL) :
  labels_distinct G ->
  (G_set_raster_value_c G rast v (CELL_TYPE G) = v /\
   G_get_raster_value_c G c0 v (CELL_TYPE G) = Some v) /\
  (G_set_raster_value_f G rast v (FCELL_TYPE G) = Some v /\
   G_get_raster_value_f G f0 v (FCELL_TYPE G) = v) /\
  (G_set_raster_value_d G rast v (DCELL_TYPE G) = Some v /\
   G_get_raster_value_d G d0 v (DCELL_TYPE G) = v).
Proof.
  intros HG.
  pose proof (switch_CELL G _ eq_refl) as EC.
  destruct (switch_FCELL G _ HG eq_refl) as [EF1 EF2].
  destruct (switch_DCELL G _ HG eq_refl) as (ED1 & ED2 & ED3).
  unfold G_set_raster_value_c, G_set_raster_value_f, G_set_raster_value_d,
    G_get_raster_value_c, G_get_raster_value_f, G_get_raster_value_d,
    G_set_null_value, G_is_null_value, G_set_c_null_value,
    G_set_f_null_value, G_set_d_null_value, G_is_c_null_value,
    G_is_f_null_value, G_is_d_null_value.
  rewrite EC, EF1, EF2, ED1, ED2, ED3. cbn [Z.ltb Z.compare].
  repeat split.
  all: match goal with
       | |- context [?x =? ?n] =>
           destruct (Z.eqb_spec x n); [ subst x; reflexivity | reflexivity ]
       end.
Qed.

Lemma same_type_store_and_read_witness :
  (G_set_raster_value_c grass 0 7 (CELL_TYPE grass) = 7 /\
   G_get_raster_value_c grass 0 7 (CELL_TYPE grass) = Some 7) /\
  (G_set_raster_value_f grass 0 7 (FCELL_TYPE grass) = Some 7 /\
   G_get_raster_value_f grass 0 7 (FCELL_TYPE grass) = 7) /\
  (G_set_raster_value_d grass 0 7 (DCELL_TYPE grass) = Some 7 /\
   G_get_raster_value_d grass 0 7 (DCELL_TYPE grass) = 7).
Proof.
  apply (same_type_store_and_read grass 0 7 0 0 0 grass_labels_distinct).
Defined.

(** ** Integers in the floating formats *)

(** The number of binary digits of a positive number. *)
Lemma digits2_bounds (p : positive) :
  2 ^ (Zpos (digits2_pos p) - 1) <= Zpos p < 2 ^ Zpos (digits2_pos p).
Proof.
  induction p as [p IH | p IH |]; cbn [digits2_pos].
  - rewrite Pos2Z.inj_succ, (Pos2Z.inj_xI p).
    replace (Z.succ (Zpos (digits2_pos p)) - 1) with (Z.succ (Zpos (digits2_pos p) - 1)) by lia.
    rewrite !Z.pow_succ_r by lia.
    generalize dependent (2 ^ (Zpos (digits2_pos p) - 1)).
    generalize (2 ^ Zpos (digits2_pos p)). intros; lia.
  - rewrite Pos2Z.inj_succ, (Pos2Z.inj_xO p).
    replace (Z.succ (Zpos (digits2_pos p)) - 1) with (Z.succ (Zpos (digits2_pos p) - 1)) by lia.
    rewrite !Z.pow_succ_r by lia.
    generalize dependent (2 ^ (Zpos (digits2_pos p) - 1)).
    generalize (2 ^ Zpos (digits2_pos p)). intros; lia.
  - cbn. lia.
Qed.

Lemma iter_xO_value (p k : positive) :
  Zpos (Pos.iter xO p k) = Zpos p * 2 ^ Zpos k.
Proof.
  induction k as [| k IH] using Pos.peano_ind.
  - cbn [Pos.iter]. rewrite (Pos2Z.inj_xO p). change (2 ^ 1) with 2. lia.
  - rewrite Pos.iter_succ, (Pos2Z.inj_xO (Pos.iter xO p k)), IH,
      Pos2Z.inj_succ, Z.pow_succ_r by lia.
    lia.
Qed.

Lemma iter_xO_digits (p k : positive) :
  Zpos (digits2_pos (Pos.iter xO p k)) = Zpos (digits2_pos p) + Zpos k.
Proof.
  induction k as [| k IH] using Pos.peano_ind.
  - cbn [Pos.iter digits2_pos]. lia.
  - rewrite Pos.iter_succ. cbn [digits2_pos]. rewrite Pos2Z.inj_succ, IH. lia.
Qed.

Lemma binary_round_small (prec emax : Z) (s : bool) (p : positive) :
  Zpos (digits2_pos p) <= prec -> prec <= emax -> 2 <= emax ->
  exists mz,
    binary_round prec emax s p 0 = S754_finite s mz (Zpos (digits2_pos p) - prec) /\
    Zpos mz = Zpos p * 2 ^ (prec - Zpos (digits2_pos p)) /\
    Zpos (digits2_pos mz) = prec.
Proof.
  intros Hd Hpe He. set (d := Zpos (digits2_pos p)) in *.
  assert (Hfexp : fexp prec emax d = d - prec).
  { unfold fexp, emin. unfold d. lia. }
  assert (Hal : exists mz, shl_align p 0 (d - prec) = (mz, d - prec) /\
             Zpos mz = Zpos p * 2 ^ (prec - d) /\ Zpos (digits2_pos mz) = prec).
  { unfold shl_align. destruct (d - prec - 0) as [| q | q] eqn:E; [ | lia |].
    - exists p. replace (d - prec) with 0 by lia. replace (prec - d) with 0 by lia.
      repeat split; [ lia | unfold d in *; lia ].
    - exists (Pos.iter xO p q). split; [ reflexivity |].
      rewrite iter_xO_value, iter_xO_digits. fold d.
      replace (prec - d) with (Zpos q) by lia. split; lia. }
  destruct Hal as (mz & Hal & Hv & Hdz). exists mz.
  unfold binary_round. rewrite Z.add_0_r. fold d. rewrite Hfexp, Hal.
  split; [| split; assumption ].
  unfold binary_round_aux, shr_fexp. cbn [Zdigits2]. rewrite Hdz.
  replace (prec + (d - prec)) with d by lia. rewrite Hfexp, Z.sub_diag.
  cbn [shr shr_record_of_loc shr_m loc_of_shr_record round_nearest_even Zdigits2].
  rewrite Hdz. replace (prec + (d - prec)) with d by lia.
  rewrite Hfexp, Z.sub_diag. cbn [shr shr_record_of_loc shr_m].
  destruct (Z.leb_spec (d - prec) (emax - prec)); [ reflexivity | lia ].
Qed.

(** The three fields of a bit pattern laid out as sign, exponent,
    significand. *)
Lemma fields_of_pattern (mw ew : Z) (s : bool) (E M : Z) :
  0 <= mw -> 0 <= ew -> 0 <= E < 2 ^ ew -> 0 <= M < 2 ^ mw ->
  let b := IEEE.sign_bit mw ew s + Z.shiftl E mw + M in
  IEEE.sign_of mw ew b = s /\ IEEE.expo_of mw ew b = E /\ IEEE.mant_of mw b = M.
Proof.
  intros Hmw Hew HE HM. cbv zeta.
  assert (Pm : 0 < 2 ^ mw) by (apply Z.pow_pos_nonneg; lia).
  assert (Pe : 0 < 2 ^ ew) by (apply Z.pow_pos_nonneg; lia).
  set (sb := if s then 1 else 0).
  assert (Hb : IEEE.sign_bit mw ew s + Z.shiftl E mw + M
               = M + (sb * 2 ^ ew + E) * 2 ^ mw).
  { unfold IEEE.sign_bit, sb. rewrite Z.shiftl_mul_pow2 by lia.
    rewrite Z.pow_add_r by lia. destruct s; lia. }
  rewrite Hb.
  assert (Hdiv : (M + (sb * 2 ^ ew + E) * 2 ^ mw) / 2 ^ mw = sb * 2 ^ ew + E).
  { rewrite Z.div_add by lia. rewrite Z.div_small by lia. lia. }
  split; [| split ].
  - unfold IEEE.sign_of.
    assert (Hs : Z.b2z (Z.testbit (M + (sb * 2 ^ ew + E) * 2 ^ mw) (mw + ew)) = sb).
    { rewrite Z.testbit_spec' by lia.
      rewrite Z.pow_add_r by lia.
      rewrite <- Z.div_div by lia. rewrite Hdiv.
      replace (sb * 2 ^ ew + E) with (E + sb * 2 ^ ew) by lia.
      rewrite Z.div_add by lia. rewrite (Z.div_small E) by lia.
      unfold sb. destruct s; reflexivity. }
    unfold sb in Hs. destruct s, (Z.testbit _ _); cbn in Hs; congruence.
  - unfold IEEE.expo_of. rewrite Z.shiftr_div_pow2 by lia. rewrite Hdiv.
    rewrite Z.land_ones by lia.
    replace (sb * 2 ^ ew + E) with (E + sb * 2 ^ ew) by lia.
    rewrite Z.mod_add by lia. apply Z.mod_small. lia.
  - unfold IEEE.mant_of. rewrite Z.land_ones by lia.
    rewrite Z.mod_add by lia. apply Z.mod_small. lia.
Qed.

Lemma decode_encode_normal (mw ew : Z) (s : bool) (m : positive) (e : Z) :
  1 <= mw -> 2 <= ew -> 2 ^ mw <= Zpos m < 2 ^ (mw + 1) ->
  0 < e - emin (IEEE.prec mw) (IEEE.emax ew) + 1 < Z.ones ew ->
  IEEE.decode mw ew (IEEE.encode mw ew (S754_finite s m e)) = S754_finite s m e /\
  IEEE.is_nan mw ew (IEEE.encode mw ew (S754_finite s m e)) = false.
Proof.
  intros Hmw Hew Hm HE.
  rewrite Z.ones_equiv in HE.
  assert (Hp : 2 ^ (mw + 1) = 2 * 2 ^ mw)
    by (rewrite Z.pow_add_r by lia; change (2 ^ 1) with 2; lia).
  unfold IEEE.encode. destruct (Z.ltb_spec (Zpos m) (2 ^ mw)); [ lia |].
  destruct (fields_of_pattern mw ew s
              (e - emin (IEEE.prec mw) (IEEE.emax ew) + 1) (Zpos m - 2 ^ mw))
    as (Hs & He & Hmt); try lia.
  cbv zeta in Hs, He, Hmt.
  unfold IEEE.decode, IEEE.is_nan. rewrite Hs, He, Hmt, Z.ones_equiv.
  destruct (Z.eqb_spec (e - emin (IEEE.prec mw) (IEEE.emax ew) + 1) 0); [ lia |].
  destruct (Z.eqb_spec (e - emin (IEEE.prec mw) (IEEE.emax ew) + 1)
              (Z.pred (2 ^ ew))); [ lia |].
  split; [| reflexivity ].
  replace (Zpos m - 2 ^ mw + 2 ^ mw) with (Zpos m) by lia.
  f_equal. lia.
Qed.

Lemma of_int_exact (mw ew : Z) (n : Z) :
  1 <= mw -> 2 <= ew -> mw + 1 <= 2 ^ (ew - 1) ->
  Z.abs n < 2 ^ (mw + 1) -> IEEE.INT_MIN <= n <= IEEE.INT_MAX ->
  IEEE.trunc (IEEE.decode mw ew (IEEE.of_int mw ew n)) = Some n /\
  IEEE.is_nan mw ew (IEEE.of_int mw ew n) = false.
Proof.
  intros Hmw Hew Hpe Hn Hr.
  assert (Hones : Z.ones ew <> 0).
  { rewrite Z.ones_equiv. pose proof (Z.pow_gt_1 2 ew). lia. }
  assert (Hemax : 2 <= IEEE.emax ew).
  { unfold IEEE.emax. change 2 with (2 ^ 1) at 1.
    apply Z.pow_le_mono_r; lia. }
  assert (Hones' : Z.ones ew = 2 * IEEE.emax ew - 1).
  { rewrite Z.ones_equiv. unfold IEEE.emax.
    replace ew with (Z.succ (ew - 1)) at 1 by lia.
    rewrite Z.pow_succ_r by lia. lia. }
  unfold IEEE.of_int, binary_normalize.
  assert (Case : forall (s : bool) (p : positive),
            Zpos p < 2 ^ (mw + 1) ->
            IEEE.INT_MIN <= cond_Zopp s (Zpos p) <= IEEE.INT_MAX ->
            IEEE.trunc (IEEE.decode mw ew
               (IEEE.encode mw ew (binary_round (IEEE.prec mw) (IEEE.emax ew) s p 0)))
              = Some (cond_Zopp s (Zpos p)) /\
            IEEE.is_nan mw ew
               (IEEE.encode mw ew (binary_round (IEEE.prec mw) (IEEE.emax ew) s p 0))
              = false).
  { intros s p Hp Hrange.
    pose proof (digits2_bounds p) as Hd.
    assert (Hdp : Zpos (digits2_pos p) <= IEEE.prec mw).
    { unfold IEEE.prec.
      destruct (Z_le_gt_dec (Zpos (digits2_pos p)) (mw + 1)); [ assumption |].
      assert (2 ^ (mw + 1) <= 2 ^ (Zpos (digits2_pos p) - 1))
        by (apply Z.pow_le_mono_r; lia). lia. }
    destruct (binary_round_small (IEEE.prec mw) (IEEE.emax ew) s p Hdp)
      as (mz & -> & Hv & Hdz); [ unfold IEEE.prec, IEEE.emax; lia | lia |].
    pose proof (digits2_bounds mz) as Hbz. rewrite Hdz in Hbz.
    unfold IEEE.prec in Hbz, Hdz, Hdp.
    replace (mw + 1 - 1) with mw in Hbz by lia.
    destruct (decode_encode_normal mw ew s mz
                (Zpos (digits2_pos p) - IEEE.prec mw)) as [-> ->]; try lia.
    { unfold emin, IEEE.prec, IEEE.emax in *. lia. }
    split; [| reflexivity ].
    unfold IEEE.trunc. unfold IEEE.prec.
    rewrite Z.shiftl_div_pow2 by lia.
    replace (- (Zpos (digits2_pos p) - (mw + 1)))
      with (mw + 1 - Zpos (digits2_pos p)) by lia.
    rewrite Hv. unfold IEEE.prec. rewrite Z.div_mul
      by (apply Z.pow_nonzero; lia).
    destruct (Z.leb_spec IEEE.INT_MIN (cond_Zopp s (Zpos p))); [| lia ].
    destruct (Z.leb_spec (cond_Zopp s (Zpos p)) IEEE.INT_MAX); [| lia ].
    reflexivity. }
  destruct n as [| p | p].
  - cbn [IEEE.encode IEEE.sign_bit].
    unfold IEEE.decode, IEEE.is_nan, IEEE.expo_of, IEEE.mant_of, IEEE.sign_of.
    rewrite Z.shiftr_0_l, !Z.land_0_l, Z.testbit_0_l.
    destruct (Z.eqb_spec 0 (Z.ones ew)); [ lia |]. split; reflexivity.
  - apply (Case false p); [ lia | exact Hr ].
  - apply (Case true p); [ lia | exact Hr ].
Qed.

(** X6: an [int] stored by G_set_raster_value_c into a DCELL cell and
    read back by G_get_raster_value_c is the same [int], for every value
    of the type, the null included, provided the DCELL null pattern is a
    NaN pattern (so that no number is taken for it). *)
Theorem CELL_survives_DCELL_cell (G : gislib) (rast : Z) (c0 cval : CELL) :
  labels_distinct G -> IEEE.is_nan 52 11 (dcellNullPattern G) = true ->
  IEEE.INT_MIN <= cval <= IEEE.INT_MAX ->
  G_get_raster_value_c G c0
    (G_set_raster_value_c G rast cval (DCELL_TYPE G)) (DCELL_TYPE G)
  = Some cval.
Proof.
  intros HG Hnull Hr.
  destruct (switch_DCELL G _ HG eq_refl) as (E1 & E2 & E3).
  unfold G_set_raster_value_c, G_get_raster_value_c, G_set_null_value,
    G_is_null_value, G_set_d_null_value, G_set_c_null_value,
    G_is_c_null_value, G_is_d_null_value.
  rewrite E1, E2, E3. cbn [Z.ltb Z.compare].
  destruct (Z.eqb_spec cval (cellNullPattern G)) as [-> | Hc].
  - rewrite Z.eqb_refl. reflexivity.
  - destruct (of_int_exact 52 11 cval) as [Ht Hn]; try lia.
    { revert Hr. unfold IEEE.INT_MIN, IEEE.INT_MAX. lia. }
    destruct (Z.eqb_spec (CELL_to_DCELL cval) (dcellNullPattern G)) as [E | _].
    + unfold CELL_to_DCELL in E. congruence.
    + exact Ht.
Qed.

Lemma CELL_survives_DCELL_cell_witness :
  G_get_raster_value_c grass 0
    (G_set_raster_value_c grass 0 (-2009) (DCELL_TYPE grass)) (DCELL_TYPE grass)
  = Some (-2009).
Proof.
  apply (CELL_survives_DCELL_cell grass 0 0 (-2009) grass_labels_distinct).
  - reflexivity.
  - vm_compute. split; congruence.
Defined.

(** X7: an [int] of magnitude below 2^24 stored by G_set_raster_value_c
    into an FCELL cell and read back by G_get_raster_value_c is the same
    [int], as is the null, provided the FCELL null pattern is a NaN
    pattern. *)
Theorem CELL_survives_FCELL_cell (G : gislib) (rast : Z) (c0 cval : CELL) :
  labels_distinct G -> IEEE.is_nan 23 8 (fcellNullPattern G) = true ->
  Z.abs cval < 2 ^ 24 \/ cval = cellNullPattern G ->
  G_get_raster_value_c G c0
    (G_set_raster_value_c G rast cval (FCELL_TYPE G)) (FCELL_TYPE G)
  = Some cval.
Proof.
  intros HG Hnull Hr.
  destruct (switch_FCELL G _ HG eq_refl) as (E1 & E2).
  unfold G_set_raster_value_c, G_get_raster_value_c, G_set_null_value,
    G_is_null_value, G_set_f_null_value, G_set_c_null_value,
    G_is_c_null_value, G_is_f_null_value.
  rewrite E1, E2. cbn [Z.ltb Z.compare].
  destruct (Z.eqb_spec cval (cellNullPattern G)) as [-> | Hc].
  - rewrite Z.eqb_refl. reflexivity.
  - destruct Hr as [Hr | Hr]; [| contradiction ].
    destruct (of_int_exact 23 8 cval) as [Ht Hn]; try lia.
    { revert Hr. unfold IEEE.INT_MIN, IEEE.INT_MAX. lia. }
    destruct (Z.eqb_spec (CELL_to_FCELL cval) (fcellNullPattern G)) as [E | _].
    + unfold CELL_to_FCELL in E. congruence.
    + exact Ht.
Qed.

Lemma CELL_survives_FCELL_cell_witness :
  G_get_raster_value_c grass 0
    (G_set_raster_value_c grass 0 (-2009) (FCELL_TYPE grass)) (FCELL_TYPE grass)
  = Some (-2009).
Proof.
  apply (CELL_survives_FCELL_cell grass 0 0 (-2009) grass_labels_distinct).
  - reflexivity.
  - left. vm_compute. reflexivity.
Defined.

(** Beyond 2^24 an FCELL cell does not keep every [int]: 2^24 + 1 comes
    back as 2^24. *)
Example CELL_rounded_in_FCELL_cell :
  G_get_raster_value_c grass 0
    (G_set_raster_value_c grass 0 16777217 (FCELL_TYPE grass)) (FCELL_TYPE grass)
  = Some 16777216.
Proof. reflexivity. Qed.

(** * Further properties of G_command_history *)

(** One row stored at [edlinecnt], then counted: the log grows by that row
    and the eight fields stay. *)
Lemma store_next_frame (s : cstring) (h : History) :
  rows_allocated h -> 0 <= edlinecnt h < MAXEDLINES -> strlen s < RECORD_LEN ->
  exists h1,
    store_row (edlinecnt h) s h = Ok h1 /\
    comments (incr_edlinecnt h1) = comments h ++ [s] /\
    rows_allocated (incr_edlinecnt h1) /\
    edlinecnt (incr_edlinecnt h1) = edlinecnt h + 1 /\
    fields (incr_edlinecnt h1) = fields h.
Proof.
  intros Hrows Hc Hs. eexists. split; [ apply store_row_ok; assumption |].
  destruct (comments_append s h Hrows Hc) as (C & R & N).
  repeat split; assumption.
Qed.

Lemma separator_frame (hist : History) :
  rows_allocated hist -> 0 <= edlinecnt hist <= MAXEDLINES - 2 ->
  exists h1,
    (if edlinecnt hist >? 0
     then bind (store_row (edlinecnt hist) [] hist)
            (fun h => Ok (incr_edlinecnt h))
     else Ok hist) = Ok h1 /\
    comments h1 = comments hist ++ separator hist /\
    rows_allocated h1 /\
    edlinecnt hist <= edlinecnt h1 <= MAXEDLINES - 1 /\
    edlinecnt h1 = edlinecnt hist + Z.of_nat (length (separator hist)) /\
    fields h1 = fields hist.
Proof.
  intros Hrows Hc. unfold separator.
  destruct (Z.gtb_spec (edlinecnt hist) 0).
  - destruct (store_next_frame [] hist Hrows) as (h1 & E & C & R & N & F);
      [ unfold MAXEDLINES in *; lia | reflexivity |].
    exists (incr_edlinecnt h1). rewrite E. cbn [bind length].
    repeat split; auto; lia.
  - exists hist. rewrite app_nil_r. cbn [length]. repeat split; auto; lia.
Qed.

(** A format without a percent sign is copied as it is. *)
Lemma sprintf0_plain (fmt : cstring) :
  ~ In percent fmt -> sprintf0 fmt = Ok fmt.
Proof.
  induction fmt as [| c rest IH]; intros Hp; [ reflexivity |].
  cbn [sprintf0].
  destruct (Ascii.eqb_spec c percent) as [-> | _];
    [ exfalso; apply Hp; left; reflexivity |].
  rewrite IH by (intros H; apply Hp; right; exact H). reflexivity.
Qed.

(** X8: a command line of fewer than 70 characters without a percent
    sign, added to a record with at most MAXEDLINES - 2 rows in use, is
    stored whole as one row, after a blank row if the log was not empty;
    the function returns 0 and the earlier rows and the eight fields are
    as before. *)
Theorem G_command_history_single_row (cmdlin : cstring) (hist : History) :
  rows_allocated hist -> 0 <= edlinecnt hist <= MAXEDLINES - 2 ->
  strlen cmdlin < 70 -> ~ In percent cmdlin ->
  exists hist',
    G_command_history cmdlin hist = Ok (0, hist') /\
    comments hist' = comments hist ++ separator hist ++ [cmdlin] /\
    fields hist' = fields hist /\
    rows_allocated hist'.
Proof.
  intros Hrows Hc Hlen Hp. unfold G_command_history.
  destruct (Z.gtb_spec (edlinecnt hist) (MAXEDLINES - 2)); [ lia |].
  destruct (separator_frame hist Hrows Hc) as (h1 & -> & C1 & R1 & B1 & _ & F1).
  cbn [bind].
  destruct (Z.ltb_spec (strlen cmdlin) 70); [| lia ].
  rewrite (sprintf0_plain cmdlin Hp). cbn [bind].
  destruct (store_next_frame cmdlin h1 R1) as (h2 & -> & C2 & R2 & _ & F2);
    [ unfold MAXEDLINES in *; lia | unfold RECORD_LEN; lia |].
  cbn [bind]. eexists. split; [ reflexivity |].
  rewrite C2, C1, F2, F1, <- app_assoc. auto.
Qed.

Lemma G_command_history_single_row_witness :
  exists hist',
    G_command_history (str "r.slope.aspect elevation=dem slope=s")
      sample_history = Ok (0, hist') /\
    comments hist' =
      comments sample_history ++ separator sample_history
        ++ [str "r.slope.aspect elevation=dem slope=s"] /\
    fields hist' = fields sample_history /\
    rows_allocated hist'.
Proof.
  apply (G_command_history_single_row
           (str "r.slope.aspect elevation=dem slope=s") sample_history).
  - reflexivity.
  - vm_compute. split; congruence.
  - reflexivity.
  - vm_compute. intuition congruence.
Defined.

Lemma from_step (cmdlin : cstring) (j : Z) :
  0 <= j -> from cmdlin (j + 68) = drop 68 (from cmdlin j).
Proof.
  intros Hj. unfold from. rewrite drop_drop. f_equal. lia.
Qed.

(** The loop of G_command_history in terms of the pieces it stores: each
    pass stores the next 68 characters with the mark; the loop leaves the
    function when the array is full but for one row, with more than two
    characters not stored, or ends with at most 70 characters left. *)
Lemma wrap_pieces (n : nat) (cmdlin : cstring) (j : Z) (hist : History) :
  (Z.to_nat (strlen cmdlin - j) <= n)%nat -> 0 <= j ->
  rows_allocated hist -> 0 <= edlinecnt hist <= MAXEDLINES - 1 ->
  exists pieces,
    Forall (fun f => length f = 68%nat) pieces /\
    match wrap cmdlin j hist with
    | Ok (inl h) =>
        pieces <> [] /\
        comments h = comments hist ++ marked pieces /\
        fields h = fields hist /\ rows_allocated h /\
        MAXEDLINES - 2 < edlinecnt h <= MAXEDLINES /\
        exists rest,
          from cmdlin j = concat pieces ++ rest /\ 2 < strlen rest
    | Ok (inr (j', h)) =>
        comments h = comments hist ++ marked pieces /\
        fields h = fields hist /\ rows_allocated h /\
        edlinecnt hist <= edlinecnt h <= MAXEDLINES - 1 /\
        from cmdlin j = concat pieces ++ from cmdlin j' /\
        0 <= j' /\ strlen cmdlin - j' <= 70 /\
        (2 < strlen cmdlin - j -> 2 < strlen cmdlin - j')
    | Fault _ => False
    end.
Proof.
  revert j hist. induction n as [| n IH]; intros j hist Hn Hj Hrows Hc.
  - rewrite wrap_done by lia. exists []. split; [ constructor |].
    unfold marked. cbn [map concat app]. rewrite app_nil_r.
    repeat split; auto; lia.
  - destruct (Z_gt_dec (strlen cmdlin - j) 70) as [Hgt | Hle].
    2:{ rewrite wrap_done by lia. exists []. split; [ constructor |].
        unfold marked. cbn [map concat app]. rewrite app_nil_r.
        repeat split; auto; lia. }
    rewrite wrap_more by exact Hgt.
    pose proof (strlen_fragment (from cmdlin j)) as F.
    destruct (store_next_frame (fragment (from cmdlin j)) hist Hrows)
      as (h1 & -> & C1 & R1 & N1 & F1);
      [ unfold MAXEDLINES in *; lia | unfold RECORD_LEN; lia |].
    cbn [bind]. cbv zeta.
    set (h := incr_edlinecnt h1) in *.
    assert (Lfrom : strlen (from cmdlin j) = strlen cmdlin - j)
      by (rewrite strlen_from by lia; lia).
    assert (Lpiece : length (take 68 (from cmdlin j)) = 68%nat)
      by (rewrite length_take; unfold strlen in *; lia).
    assert (Split : from cmdlin j
                    = take 68 (from cmdlin j) ++ from cmdlin (j + 68))
      by (rewrite from_step by lia; symmetry; apply take_drop).
    destruct (Z.gtb_spec (edlinecnt h) (MAXEDLINES - 2)) as [Hfull | Hroom].
    + exists [take 68 (from cmdlin j)].
      split; [ repeat constructor; exact Lpiece |].
      split; [ discriminate |].
      split; [ exact C1 |]. split; [ exact F1 |]. split; [ exact R1 |].
      split; [ unfold MAXEDLINES in *; lia |].
      exists (from cmdlin (j + 68)). cbn [concat]. rewrite app_nil_r.
      split; [ exact Split |]. rewrite strlen_from by lia. lia.
    + destruct (IH (j + 68) h) as (pieces & Hp & Hw);
        [ lia | lia | exact R1 | unfold MAXEDLINES in *; lia |].
      exists (take 68 (from cmdlin j) :: pieces).
      split; [ constructor; assumption |].
      destruct (wrap cmdlin (j + 68) h) as [[h' | [j' h']] | f];
        [ | | exact Hw ].
      * destruct Hw as (_ & C & Fd & R & B & rest & Hrest & Hl).
        split; [ discriminate |].
        split; [ rewrite C, C1, <- app_assoc; reflexivity |].
        split; [ congruence |]. split; [ exact R |]. split; [ exact B |].
        exists rest. cbn [concat]. rewrite <- app_assoc, <- Hrest.
        split; [ exact Split | exact Hl ].
      * destruct Hw as (C & Fd & R & B & Hrest & Hj' & Hleft & Hmore).
        split; [ rewrite C, C1, <- app_assoc; reflexivity |].
        split; [ congruence |]. split; [ exact R |].
        split; [ lia |].
        cbn [concat]. rewrite <- app_assoc, <- Hrest.
        split; [ exact Split |]. repeat split; lia.
Qed.

(** X9: a command line of 70 characters or more, added to a record with
    at most MAXEDLINES - 2 rows in use, is cut into pieces of 68
    characters and a last piece of 3 to 70 characters.  With return value
    0 the log gains, after the blank row if it was not empty, every piece
    with a backslash added and the last piece as it is, so that the pieces
    put together are the command line.  With return value 2 the log gains
    marked pieces only, at least one, the array is full but for at most
    one row, and the rest of the command line, more than two characters,
    is not stored.  No other return value occurs; the eight fields and the
    earlier rows are as before. *)
Theorem G_command_history_wraps (cmdlin : cstring) (hist : History) :
  rows_allocated hist -> 0 <= edlinecnt hist <= MAXEDLINES - 2 ->
  70 <= strlen cmdlin ->
  exists r hist' pieces rest,
    G_command_history cmdlin hist = Ok (r, hist') /\
    fields hist' = fields hist /\
    cmdlin = concat pieces ++ rest /\
    Forall (fun f => length f = 68%nat) pieces /\
    2 < strlen rest /\
    ((r = 0 /\ strlen rest <= 70 /\
      comments hist' =
        comments hist ++ separator hist ++ marked pieces ++ [rest]) \/
     (r = 2 /\ pieces <> [] /\ MAXEDLINES - 2 < edlinecnt hist' /\
      comments hist' = comments hist ++ separator hist ++ marked pieces)).
Proof.
  intros Hrows Hc Hlen. unfold G_command_history.
  destruct (Z.gtb_spec (edlinecnt hist) (MAXEDLINES - 2)); [ lia |].
  destruct (separator_frame hist Hrows Hc) as (h1 & -> & C1 & R1 & B1 & _ & F1).
  cbn [bind].
  destruct (Z.ltb_spec (strlen cmdlin) 70); [ lia |].
  destruct (wrap_pieces _ cmdlin 0 h1 (Nat.le_refl _)) as (pieces & Hp & Hw);
    [ lia | exact R1 | lia |].
  change (from cmdlin 0) with cmdlin in Hw.
  destruct (wrap cmdlin 0 h1) as [[h | [j h]] | f]; cbn [bind];
    [ | | contradiction ].
  - destruct Hw as (Hne & C & Fd & R & B & rest & Hrest & Hl).
    exists 2, h, pieces, rest.
    split; [ reflexivity |]. split; [ congruence |].
    split; [ exact Hrest |]. split; [ exact Hp |]. split; [ exact Hl |].
    right. split; [ reflexivity |]. split; [ exact Hne |].
    split; [ lia |]. rewrite C, C1, <- app_assoc. reflexivity.
  - destruct Hw as (C & Fd & R & B & Hrest & Hj & Hleft & Hmore).
    destruct (Z.gtb_spec (strlen cmdlin - j) 0); [| lia ].
    destruct (store_next_frame (from cmdlin j) h R) as (h2 & -> & C2 & R2 & _ & F2);
      [ unfold MAXEDLINES in *; lia
      | rewrite strlen_from by lia; unfold RECORD_LEN; lia |].
    cbn [bind].
    exists 0, (incr_edlinecnt h2), pieces, (from cmdlin j).
    split; [ reflexivity |]. split; [ congruence |].
    split; [ exact Hrest |]. split; [ exact Hp |].
    rewrite strlen_from by lia.
    split; [ lia |]. left. split; [ reflexivity |]. split; [ lia |].
    rewrite C2, C, C1, <- !app_assoc. reflexivity.
Qed.

Lemma G_command_history_wraps_witness :
  exists r hist' pieces rest,
    G_command_history sample_command_200 sample_history = Ok (r, hist') /\
    fields hist' = fields sample_history /\
    sample_command_200 = concat pieces ++ rest /\
    Forall (fun f => length f = 68%nat) pieces /\
    2 < strlen rest /\
    ((r = 0 /\ strlen rest <= 70 /\
      comments hist' =
        comments sample_history ++ separator sample_history
          ++ marked pieces ++ [rest]) \/
     (r = 2 /\ pieces <> [] /\ MAXEDLINES - 2 < edlinecnt hist' /\
      comments hist' =
        comments sample_history ++ separator sample_history
          ++ marked pieces)).
Proof.
  apply (G_command_history_wraps sample_command_200 sample_history).
  - reflexivity.
  - vm_compute. split; congruence.
  - vm_compute. congruence.
Defined.

(** The loop leaves the function only with the array full but for at most
    one row. *)
Lemma wrap_left_full (n : nat) (cmdlin : cstring) (j : Z) (hist h : History) :
  (Z.to_nat (strlen cmdlin - j) <= n)%nat ->
  wrap cmdlin j hist = Ok (inl h) -> MAXEDLINES - 2 < edlinecnt h.
Proof.
  revert j hist. induction n as [| n IH]; intros j hist Hn.
  - rewrite wrap_done by lia. discriminate.
  - destruct (Z_gt_dec (strlen cmdlin - j) 70) as [Hgt | Hle];
      [| rewrite wrap_done by lia; discriminate ].
    rewrite wrap_more by exact Hgt.
    destruct (store_row (edlinecnt hist) (fragment (from cmdlin j)) hist)
      as [h1 | f]; cbn [bind]; [| discriminate ].
    cbv zeta.
    destruct (Z.gtb_spec (edlinecnt (incr_edlinecnt h1)) (MAXEDLINES - 2)).
    + intros E. injection E as <-. assumption.
    + apply IH. lia.
Qed.

(** X10: once G_command_history has returned 1 or 2, every further call
    returns 1 and leaves the record as it is, whatever the command line:
    a truncated command line is never completed later. *)
Theorem G_command_history_stays_full (c1 c2 : cstring) (hist hist' : History)
    (r : Z) :
  G_command_history c1 hist = Ok (r, hist') -> r <> 0 ->
  G_command_history c2 hist' = Ok (1, hist').
Proof.
  intros E Hr.
  assert (Hfull : MAXEDLINES - 2 < edlinecnt hist').
  { revert E. unfold G_command_history.
    destruct (Z.gtb_spec (edlinecnt hist) (MAXEDLINES - 2)).
    - intros E. injection E as _ <-. assumption.
    - destruct (if edlinecnt hist >? 0
                then bind (store_row (edlinecnt hist) [] hist)
                       (fun h => Ok (incr_edlinecnt h))
                else Ok hist) as [h1 | f]; cbn [bind]; [| discriminate ].
      destruct (strlen c1 <? 70).
      + destruct (sprintf0 c1) as [line | f]; cbn [bind]; [| discriminate ].
        destruct (store_row (edlinecnt h1) line h1); cbn [bind];
          [| discriminate ].
        intros E. injection E as <- _. contradiction.
      + destruct (wrap c1 0 h1) as [[h | [j h]] | f] eqn:W; cbn [bind];
          [ | | discriminate ].
        * intros E. injection E as _ <-.
          exact (wrap_left_full _ c1 0 h1 h (Nat.le_refl _) W).
        * destruct (strlen c1 - j >? 0).
          -- destruct (store_row (edlinecnt h) (from c1 j) h); cbn [bind];
               [| discriminate ].
             intros E. injection E as <- _. contradiction.
          -- intros E. injection E as <- _. contradiction. }
  unfold G_command_history.
  destruct (Z.gtb_spec (edlinecnt hist') (MAXEDLINES - 2)); [ reflexivity | lia ].
Qed.

Lemma G_command_history_stays_full_witness :
  G_command_history (str "r.info map=dem") sample_nearly_full
  = Ok (1, sample_nearly_full).
Proof.
  apply (G_command_history_stays_full sample_command_200
           (str "r.info map=dem") sample_nearly_full sample_nearly_full 1).
  - reflexivity.
  - discriminate.
Defined.

(** X11: whatever the command line and however G_command_history
    returns, the eight fields are as before and the rows that were in use
    are still there, in place and unchanged, with the new rows behind
    them. *)
Theorem G_command_history_appends_only (cmdlin : cstring)
    (hist hist' : History) (r : Z) :
  rows_allocated hist -> 0 <= edlinecnt hist <= MAXEDLINES ->
  G_command_history cmdlin hist = Ok (r, hist') ->
  fields hist' = fields hist /\
  rows_allocated hist' /\
  exists added, comments hist' = comments hist ++ added.
Proof.
  intros Hrows Hc. unfold G_command_history.
  destruct (Z.gtb_spec (edlinecnt hist) (MAXEDLINES - 2)).
  { intros E. injection E as _ <-. repeat split; auto.
    exists []. rewrite app_nil_r. reflexivity. }
  destruct (separator_frame hist Hrows) as (h1 & -> & C1 & R1 & B1 & _ & F1);
    [ lia |].
  cbn [bind].
  destruct (Z.ltb_spec (strlen cmdlin) 70).
  - pose proof (sprintf0_cases _ cmdlin (Nat.le_refl _)) as S.
    destruct (sprintf0 cmdlin) as [line | f]; cbn [bind]; [| discriminate ].
    destruct (store_next_frame line h1 R1) as (h2 & -> & C2 & R2 & _ & F2);
      [ unfold MAXEDLINES in *; lia | unfold RECORD_LEN; lia |].
    cbn [bind]. intros E. injection E as _ <-.
    split; [ congruence |]. split; [ exact R2 |].
    exists (separator hist ++ [line]). rewrite C2, C1, <- app_assoc.
    reflexivity.
  - destruct (wrap_pieces _ cmdlin 0 h1 (Nat.le_refl _)) as (pieces & Hp & Hw);
      [ lia | exact R1 | lia |].
    destruct (wrap cmdlin 0 h1) as [[h | [j h]] | f]; cbn [bind];
      [ | | contradiction ].
    + destruct Hw as (_ & C & Fd & R & _).
      intros E. injection E as _ <-.
      split; [ congruence |]. split; [ exact R |].
      exists (separator hist ++ marked pieces).
      rewrite C, C1, <- app_assoc. reflexivity.
    + destruct Hw as (C & Fd & R & B & Hrest & Hj & Hleft & Hmore).
      destruct (Z.gtb_spec (strlen cmdlin - j) 0).
      * destruct (store_next_frame (from cmdlin j) h R)
          as (h2 & -> & C2 & R2 & _ & F2);
          [ unfold MAXEDLINES in *; lia
          | rewrite strlen_from by lia; unfold RECORD_LEN; lia |].
        cbn [bind]. intros E. injection E as _ <-.
        split; [ congruence |]. split; [ exact R2 |].
        exists (separator hist ++ marked pieces ++ [from cmdlin j]).
        rewrite C2, C, C1, <- !app_assoc. reflexivity.
      * intros E. injection E as _ <-.
        split; [ congruence |]. split; [ exact R |].
        exists (separator hist ++ marked pieces).
        rewrite C, C1, <- app_assoc. reflexivity.
Qed.

Lemma G_command_history_appends_only_witness :
  exists hist',
    G_command_history (str "r.in 100%% done") sample_history = Ok (0, hist') /\
    fields hist' = fields sample_history /\
    rows_allocated hist' /\
    exists added, comments hist' = comments sample_history ++ added.
Proof.
  eexists. split; [ reflexivity |].
  apply (G_command_history_appends_only (str "r.in 100%% done")
           sample_history _ 0).
  - reflexivity.
  - vm_compute. split; congruence.
  - reflexivity.
Defined.

(** * Further properties of G_read_history and G_write_history *)

Lemma read_upto_room (room : nat) (fd : FILE) :
  (length (fst (read_upto room fd)) <= room)%nat.
Proof.
  revert fd. induction room as [| room IH]; intros [| c fd];
    cbn [read_upto fst length]; try lia.
  destruct (Ascii.eqb c newline); [ cbn [fst length]; lia |].
  specialize (IH fd). destruct (read_upto room fd). cbn [fst length] in *. lia.
Qed.

Lemma cut_line_length (s : cstring) : (length (cut_line s) <= length s)%nat.
Proof.
  induction s as [| c s IH]; cbn [cut_line length]; [ lia |].
  destruct (Ascii.eqb c NUL || Ascii.eqb c newline); cbn [length]; lia.
Qed.

(** Sanitization keeps the length and leaves printable characters only,
    the placeholder being one. *)
Lemma G_ascii_check_tidy (p : ascii) (s : cstring) :
  printable p = true -> strlen s < RECORD_LEN -> tidy (G_ascii_check p s).
Proof.
  intros Hp Hs. unfold tidy, G_ascii_check, strlen in *.
  rewrite length_map. split; [ exact Hs |].
  clear Hs. induction s as [| c s IH]; cbn [map]; constructor; [| exact IH ].
  destruct (printable c) eqn:E; assumption.
Qed.

(** Every line G_getl hands out fits a field. *)
Lemma G_getl_tidy (p : ascii) (fd fd' : FILE) (s : cstring) :
  printable p = true -> G_getl RECORD_LEN fd = Some (s, fd') ->
  tidy (G_ascii_check p s).
Proof.
  intros Hp. destruct fd as [| c fd]; [ discriminate |].
  unfold G_getl. change (Z.to_nat (RECORD_LEN - 1)) with 79%nat.
  pose proof (read_upto_room 79 (c :: fd)) as Hroom.
  destruct (read_upto 79 (c :: fd)) as [t rest].
  intros E. injection E as <- _. apply G_ascii_check_tidy; [ exact Hp |].
  pose proof (cut_line_length t). cbn [fst] in Hroom.
  unfold strlen, RECORD_LEN. lia.
Qed.

Lemma tidy_nil : tidy [].
Proof. split; [ reflexivity | constructor ]. Qed.

(** The comment loop keeps a property of the rows that every line read
    has. *)
Lemma read_edhist_rows (P : cstring -> Prop) (p : ascii) (n : nat)
    (fd : FILE) (hist : History) :
  (forall fd fd' s, G_getl RECORD_LEN fd = Some (s, fd') ->
     P (G_ascii_check p s)) ->
  (Z.to_nat (MAXEDLINES - edlinecnt hist) <= n)%nat ->
  Forall P (edhist hist) ->
  Forall P (edhist (read_edhist p fd hist)) /\
  fields (read_edhist p fd hist) = fields hist.
Proof.
  intros HP. revert fd hist. induction n as [| n IH]; intros fd hist Hn Hall.
  - rewrite read_edhist_full by lia. auto.
  - destruct (Z_lt_dec (edlinecnt hist) MAXEDLINES) as [Hlt | Hge];
      [| rewrite read_edhist_full by lia; auto ].
    destruct (G_getl RECORD_LEN fd) as [[s fd'] |] eqn:E;
      [| rewrite read_edhist_eof by exact E; auto ].
    rewrite (read_edhist_more p fd fd' s hist Hlt E).
    set (h1 := incr_edlinecnt _).
    destruct (IH fd' h1) as [Hr Hf].
    + unfold h1. cbn [edlinecnt incr_edlinecnt set_edlinecnt set_edhist]. lia.
    + unfold h1. cbn [edhist incr_edlinecnt set_edlinecnt set_edhist].
      apply Forall_insert; [ exact Hall | exact (HP _ _ _ E) ].
    + split; [ exact Hr | rewrite Hf; reflexivity ].
Qed.

(** X12: whatever the file holds, and also when G_read_history fails,
    the record it leaves has its MAXEDLINES rows, a count between 0 and
    MAXEDLINES, and in every field and every row a string that fits its
    RECORD_LEN bytes and is printable throughout (the placeholder being a
    printable character). *)
Theorem G_read_history_leaves_tidy_record (p : ascii) (fd : option FILE)
    (h : History) :
  printable p = true ->
  rows_allocated (snd (G_read_history p fd h)) /\
  0 <= edlinecnt (snd (G_read_history p fd h)) <= MAXEDLINES /\
  Forall tidy (fields (snd (G_read_history p fd h))) /\
  Forall tidy (edhist (snd (G_read_history p fd h))).
Proof.
  intros Hp.
  assert (Zrows : Forall tidy (edhist (G_zero h)))
    by (apply Forall_replicate, tidy_nil).
  assert (Fail : forall a b c d e f g i,
            tidy a -> tidy b -> tidy c -> tidy d -> tidy e -> tidy f ->
            tidy g -> tidy i ->
            let h' := mkHistory a b c d e f g i 0 (edhist (G_zero h)) in
            rows_allocated h' /\ 0 <= edlinecnt h' <= MAXEDLINES /\
            Forall tidy (fields h') /\ Forall tidy (edhist h')).
  { intros a b c d e f g i Ha Hb Hc Hd He Hf Hg Hi. cbv zeta.
    split; [ exact (G_zero_rows h) |].
    split; [ cbn; unfold MAXEDLINES; lia |].
    split; [| exact Zrows ]. unfold fields. cbn.
    repeat (apply List.Forall_cons; [ assumption |]). apply List.Forall_nil. }
  unfold G_read_history. destruct fd as [fd |];
    [| apply Fail; apply tidy_nil ].
  do 8 (match goal with
        | |- context [G_getl RECORD_LEN ?f] =>
            destruct (G_getl RECORD_LEN f) as [[? ?] |] eqn:?
        end;
        [| apply Fail;
           first [ apply tidy_nil
                 | eapply G_getl_tidy; [ exact Hp | eassumption ] ] ]).
  cbn [snd].
  match goal with
  | |- context [read_edhist p ?f ?hh] => set (h8 := hh); set (fd8 := f)
  end.
  destruct (read_edhist_spec p _ fd8 h8 (Nat.le_refl _)) as (_ & _ & N & R).
  { exact (G_zero_rows h). }
  { cbn. lia. }
  destruct (read_edhist_rows tidy p _ fd8 h8
              (fun fd fd' s => G_getl_tidy p fd fd' s Hp) (Nat.le_refl _) Zrows)
    as [Hrows Hf].
  split; [ exact R |].
  split.
  { rewrite N. change (edlinecnt h8) with 0. rewrite length_take.
    unfold MAXEDLINES. lia. }
  split; [| exact Hrows ].
  rewrite Hf. unfold h8, fields. cbn.
  repeat (apply List.Forall_cons;
          [ eapply G_getl_tidy; [ exact Hp | eassumption ] |]).
  apply List.Forall_nil.
Qed.

Lemma G_read_history_leaves_tidy_record_witness :
  rows_allocated (snd (G_read_history "?" (Some long_file) sample_history)) /\
  0 <= edlinecnt (snd (G_read_history "?" (Some long_file) sample_history))
    <= MAXEDLINES /\
  Forall tidy (fields (snd (G_read_history "?" (Some long_file) sample_history))) /\
  Forall tidy (edhist (snd (G_read_history "?" (Some long_file) sample_history))).
Proof.
  apply (G_read_history_leaves_tidy_record "?" (Some long_file) sample_history).
  reflexivity.
Defined.

Lemma G_read_history_allocated (p : ascii) (fd : option FILE) (h : History) :
  rows_allocated (snd (G_read_history p fd h)).
Proof.
  unfold G_read_history. destruct fd as [fd |]; [| exact (G_zero_rows h) ].
  do 8 (match goal with
        | |- context [G_getl RECORD_LEN ?f] =>
            destruct (G_getl RECORD_LEN f) as [[? ?] |]
        end; [| exact (G_zero_rows h) ]).
  cbn [snd].
  match goal with
  | |- context [read_edhist p ?f ?hh] =>
      destruct (read_edhist_spec p _ f hh (Nat.le_refl _)) as (_ & _ & _ & R)
  end.
  - exact (G_zero_rows h).
  - cbn. lia.
  - exact R.
Qed.

(** Reading a text of well-formed lines: the first eight are the fields,
    the others, up to MAXEDLINES of them, the comments. *)
Lemma G_read_history_text (p : ascii) (h : History) (ls : list cstring) :
  Forall line_ok ls -> (8 <= length ls)%nat ->
  fst (G_read_history p (Some (text_of ls)) h) = 0 /\
  fields (snd (G_read_history p (Some (text_of ls)) h)) = take 8 ls /\
  comments (snd (G_read_history p (Some (text_of ls)) h))
    = take (Z.to_nat MAXEDLINES) (drop 8 ls) /\
  0 <= edlinecnt (snd (G_read_history p (Some (text_of ls)) h)) <= MAXEDLINES /\
  edlinecnt (snd (G_read_history p (Some (text_of ls)) h))
    = Z.of_nat (length (take (Z.to_nat MAXEDLINES) (drop 8 ls))).
Proof.
  intros Hls Hn.
  destruct (G_read_history_lines p (text_of ls) h) as [_ Hlong].
  rewrite (file_lines_text_of _ Hls), (G_ascii_check_lines p _ Hls) in Hlong.
  destruct (Hlong Hn) as (R & F & C & N).
  repeat split; try assumption; rewrite N; [ lia |].
  rewrite length_take. unfold MAXEDLINES. lia.
Qed.

(** X13: a history file of eight or more well-formed lines, read by
    G_read_history and written again by G_write_history, comes out as its
    first 8 + MAXEDLINES lines: unchanged if it has no more, and without
    the lines behind them if it has. *)
Theorem history_read_write_keeps_58_lines (p : ascii) (h : History)
    (ls : list cstring) :
  Forall line_ok ls -> (8 <= length ls)%nat ->
  G_write_history (Some [])
    (snd (G_read_history p (Some (text_of ls)) h))
  = (0, Some (text_of (take 58 ls))).
Proof.
  intros Hls Hn.
  destruct (G_read_history_text p h ls Hls Hn) as (_ & F & C & B & N).
  pose proof (G_read_history_allocated p (Some (text_of ls)) h) as R.
  unfold rows_allocated in R.
  rewrite G_write_history_text; [| lia | rewrite R; lia ].
  rewrite F, C. change (Z.to_nat MAXEDLINES) with 50%nat.
  rewrite take_take_drop. reflexivity.
Qed.

Lemma history_read_write_keeps_58_lines_witness :
  G_write_history (Some [])
    (snd (G_read_history "?" (Some long_file) sample_history))
  = (0, Some (text_of (take 58 (replicate 60 (str "r.mapcalc"))))).
Proof.
  apply (history_read_write_keeps_58_lines "?" sample_history
           (replicate 60 (str "r.mapcalc"))).
  - apply Forall_replicate. split; [| vm_compute; congruence ].
    repeat constructor.
  - vm_compute. lia.
Defined.

(** X14: G_write_history on an open file returns 0 and adds to the file
    the eight fields in their order and then the rows in use, each
    followed by a newline, and nothing else: the rows not in use are not
    written.  Without a file it returns -1 and writes nothing. *)
Theorem G_write_history_text_written (fd : FILE) (hist : History) :
  (Z.to_nat (edlinecnt hist) <= length (edhist hist))%nat ->
  G_write_history (Some fd) hist
    = (0, Some (fd ++ text_of (fields hist ++ comments hist))) /\
  G_write_history None hist = (-1, None).
Proof.
  intros Hrows. split; [| reflexivity ]. unfold G_write_history.
  rewrite (write_edhist_spec _ 0 hist _ (Nat.le_refl _)) by (auto; lia).
  change (Z.to_nat 0) with 0%nat. rewrite drop_0, text_of_app.
  do 2 f_equal. rewrite app_assoc. f_equal.
  unfold fields, fprintf_line, text_of. cbn [map concat].
  rewrite app_nil_r, <- !app_assoc. reflexivity.
Qed.

Lemma G_write_history_text_written_witness :
  G_write_history (Some (str "old")) sample_history
    = (0, Some (str "old"
                  ++ text_of (fields sample_history ++ comments sample_history)))
  /\ G_write_history None sample_history = (-1, None).
Proof.
  apply (G_write_history_text_written (str "old") sample_history).
  vm_compute. lia.
Defined.

(** * The documented sequence of calls *)

Lemma strncpy_field_fits (s : cstring) :
  line_ok s -> strncpy_field s = Some s.
Proof.
  intros [_ Hl]. unfold strncpy_field.
  destruct (Z.ltb_spec (strlen s) RECORD_LEN);
    [ reflexivity | unfold RECORD_LEN in *; lia ].
Qed.

Lemma line_ok_nil : line_ok [].
Proof.
  split; [ constructor | unfold strlen, RECORD_LEN; cbn; lia ].
Qed.

(** The keyword line in the untranslated message. *)
Lemma sprintf_generated_by (prog : cstring) :
  sprintf_s (list_ascii_of_string "generated by %s") [prog]
  = Ok (list_ascii_of_string "generated by " ++ prog).
Proof. cbn. rewrite app_nil_r. reflexivity. Qed.

(** X15: the sequence of the "Sample Usage" of history.c, begun on a
    record of any content: G_short_history, G_command_history with a
    command line of fewer than 70 printable characters without a percent
    sign, G_write_history, and G_read_history of the file written.  With
    the message "generated by %s" left untranslated and printable strings
    of at most RECORD_LEN - 2 characters for the date, the map name, the
    mapset, the user, the type and the keyword line, every call succeeds
    and the record read has these strings as its fields, two empty
    data-source lines, and the command line as its only comment. *)
Theorem short_history_pipeline (p : ascii) (H : host) (name type : cstring)
    (cmdlin : cstring) (hist0 h : History) :
  rows_allocated hist0 ->
  gettext H (list_ascii_of_string "generated by %s")
    = list_ascii_of_string "generated by %s" ->
  Forall line_ok
    [G_date H; name; G_mapset H; G_whoami H; type;
     list_ascii_of_string "generated by " ++ G_program_name H] ->
  Forall (fun c => printable c = true) cmdlin ->
  strlen cmdlin < 70 -> ~ In percent cmdlin ->
  exists h1 h2 file h3,
    G_short_history H name type hist0 = Some h1 /\
    G_command_history cmdlin h1 = Ok (0, h2) /\
    G_write_history (Some []) h2 = (0, Some file) /\
    G_read_history p (Some file) h = (0, h3) /\
    fields h3 =
      [G_date H; name; G_mapset H; G_whoami H; type; []; [];
       list_ascii_of_string "generated by " ++ G_program_name H] /\
    comments h3 = [cmdlin] /\
    edlinecnt h3 = 1.
Proof.
  intros Hrows Hfmt Hlines Hprint Hlen Hpct.
  inversion Hlines as [| ? ? Ldate Hl1]; subst.
  inversion Hl1 as [| ? ? Lname Hl2]; subst.
  inversion Hl2 as [| ? ? Lmapset Hl3]; subst.
  inversion Hl3 as [| ? ? Lwho Hl4]; subst.
  inversion Hl4 as [| ? ? Ltype Hl5]; subst.
  inversion Hl5 as [| ? ? Lkw _]; subst.
  set (kw := list_ascii_of_string "generated by " ++ G_program_name H) in *.
  assert (Lkw' : line_ok kw) by exact Lkw. clear Lkw. rename Lkw' into Lkw.
  (* G_short_history *)
  assert (Hkw : sprintf_field (gettext H (list_ascii_of_string "generated by %s"))
                  [G_program_name H] = Some kw).
  { rewrite Hfmt. unfold sprintf_field.
    rewrite (sprintf_generated_by (G_program_name H)). fold kw.
    destruct Lkw as [_ Lkw].
    destruct (Z.ltb_spec (strlen kw) RECORD_LEN);
      [ reflexivity | unfold RECORD_LEN in *; lia ]. }
  set (h1 := set_edlinecnt 0 (set_datsrc_2 [] (set_datsrc_1 []
               (set_keywrd kw (set_maptype type (set_creator (G_whoami H)
                 (set_mapset (G_mapset H) (set_title name
                   (set_mapid (G_date H) hist0))))))))).
  assert (E1 : G_short_history H name type hist0 = Some h1).
  { unfold G_short_history.
    rewrite !strncpy_field_fits by assumption. rewrite Hkw. reflexivity. }
  assert (R1 : rows_allocated h1) by exact Hrows.
  (* G_command_history *)
  assert (E2 : exists h2, G_command_history cmdlin h1 = Ok (0, h2) /\
             comments h2 = [cmdlin] /\ fields h2 = fields h1 /\
             rows_allocated h2 /\ edlinecnt h2 = 1).
  { unfold G_command_history.
    change (edlinecnt h1) with 0. cbn [Z.gtb Z.compare bind].
    destruct (Z.ltb_spec (strlen cmdlin) 70); [| lia ].
    rewrite (sprintf0_plain cmdlin Hpct). cbn [bind].
    destruct (store_next_frame cmdlin h1 R1) as (h2 & E & C & R & N & F);
      [ cbn; unfold MAXEDLINES; lia | unfold RECORD_LEN; lia |].
    rewrite E. change (0 >? MAXEDLINES - 2) with false. cbn [bind].
    eexists. split; [ reflexivity |]. repeat split; assumption. }
  destruct E2 as (h2 & E2 & C2 & F2 & R2 & N2).
  (* G_write_history, G_read_history *)
  assert (Hall : Forall line_ok (fields h2 ++ comments h2)).
  { rewrite F2, C2. unfold h1, fields. cbn.
    repeat (apply List.Forall_cons;
            [ first [ assumption | exact line_ok_nil ] |]).
    apply List.Forall_cons; [| apply List.Forall_nil ].
    split; [ exact Hprint | unfold RECORD_LEN; lia ]. }
  destruct (G_read_history_text p h (fields h2 ++ comments h2) Hall)
    as (Rd & Fd & Cd & _ & Nd).
  { rewrite length_app. cbn [fields length]. lia. }
  exists h1, h2, (text_of (fields h2 ++ comments h2)),
    (snd (G_read_history p (Some (text_of (fields h2 ++ comments h2))) h)).
  split; [ exact E1 |]. split; [ exact E2 |].
  split; [ apply G_write_history_text;
           [ lia
           | unfold rows_allocated in R2; rewrite R2, N2;
             unfold MAXEDLINES; lia ] |].
  split; [ rewrite <- Rd; apply surjective_pairing |].
  change (take 8 (fields h2 ++ comments h2)) with (fields h2) in Fd.
  change (drop 8 (fields h2 ++ comments h2)) with (comments h2) in Cd, Nd.
  split; [ rewrite Fd, F2; reflexivity |].
  split; [ rewrite Cd, C2 | rewrite Nd, C2 ]; reflexivity.
Qed.

Lemma short_history_pipeline_witness :
  exists h1 h2 file h3,
    G_short_history sample_host (str "elevation") (str "raster")
      sample_nearly_full = Some h1 /\
    G_command_history (str "r.in.gdal input=dem.tif output=elevation") h1
      = Ok (0, h2) /\
    G_write_history (Some []) h2 = (0, Some file) /\
    G_read_history "?" (Some file) sample_history = (0, h3) /\
    fields h3 =
      [G_date sample_host; str "elevation"; G_mapset sample_host;
       G_whoami sample_host; str "raster"; []; [];
       list_ascii_of_string "generated by " ++ G_program_name sample_host] /\
    comments h3 = [str "r.in.gdal input=dem.tif output=elevation"] /\
    edlinecnt h3 = 1.
Proof.
  apply (short_history_pipeline "?" sample_host (str "elevation")
           (str "raster") (str "r.in.gdal input=dem.tif output=elevation")
           sample_nearly_full sample_history).
  - reflexivity.
  - reflexivity.
  - repeat (apply List.Forall_cons;
            [ split; [ repeat constructor | vm_compute; congruence ] |]).
    apply List.Forall_nil.
  - repeat constructor.
  - reflexivity.
  - vm_compute. intuition congruence.
Defined.

(** * Percent signs in a short command line *)

Lemma sprintf0_app_plain (pre rest : cstring) :
  ~ In percent pre ->
  sprintf0 (pre ++ rest) = bind (sprintf0 rest) (fun s => Ok (pre ++ s)).
Proof.
  induction pre as [| c pre IH]; intros Hp.
  - cbn [app]. destruct (sprintf0 rest); reflexivity.
  - cbn [app sprintf0].
    destruct (Ascii.eqb_spec c percent) as [-> | _];
      [ exfalso; apply Hp; left; reflexivity |].
    rewrite IH by (intros H; apply Hp; right; exact H).
    destruct (sprintf0 rest); reflexivity.
Qed.

(** X16: a command line of fewer than 70 characters is handed to
    [sprintf] as its format.  If its first percent sign is not followed
    by a second one, the call has a conversion without argument and the
    behaviour of G_command_history is undefined; if it is, and there is
    no other, the row stored has one percent sign where the command line
    has two. *)
Theorem G_command_history_percent (pre post : cstring) (hist : History) :
  rows_allocated hist -> 0 <= edlinecnt hist <= MAXEDLINES - 2 ->
  ~ In percent pre -> strlen (pre ++ percent :: post) < 70 ->
  (match post with [] => True | c :: _ => c <> percent end ->
     G_command_history (pre ++ percent :: post) hist = Fault BadFormat) /\
  (forall post', post = percent :: post' -> ~ In percent post' ->
     exists hist',
       G_command_history (pre ++ percent :: post) hist = Ok (0, hist') /\
       comments hist' =
         comments hist ++ separator hist ++ [pre ++ percent :: post']).
Proof.
  intros Hrows Hc Hpre Hlen. unfold G_command_history.
  destruct (Z.gtb_spec (edlinecnt hist) (MAXEDLINES - 2)); [ lia |].
  destruct (separator_frame hist Hrows Hc) as (h1 & -> & C1 & R1 & B1 & _ & F1).
  cbn [bind].
  destruct (Z.ltb_spec (strlen (pre ++ percent :: post)) 70); [| lia ].
  rewrite (sprintf0_app_plain pre (percent :: post) Hpre).
  split.
  - intros Hpost. cbn [sprintf0]. rewrite Ascii.eqb_refl.
    destruct post as [| c post']; [ reflexivity |].
    destruct (Ascii.eqb_spec c percent); [ contradiction | reflexivity ].
  - intros post' -> Hpost'. cbn [sprintf0]. rewrite !Ascii.eqb_refl.
    rewrite (sprintf0_plain post' Hpost'). cbn [bind].
    destruct (store_next_frame (pre ++ percent :: post') h1 R1)
      as (h2 & -> & C2 & R2 & _ & F2).
    + unfold MAXEDLINES in *. lia.
    + rewrite strlen_app in *. unfold strlen, RECORD_LEN in *.
      cbn [length] in *. lia.
    + cbn [bind]. eexists. split; [ reflexivity |].
      rewrite C2, C1, <- app_assoc. reflexivity.
Qed.

Lemma G_command_history_percent_witness :
  G_command_history (str "r.mapcalc a=b" ++ percent :: str "c") sample_history
  = Fault BadFormat.
Proof.
  apply (proj1 (G_command_history_percent (str "r.mapcalc a=b") (str "c")
                  sample_history eq_refl
                  ltac:(vm_compute; split; congruence)
                  ltac:(vm_compute; intuition congruence)
                  eq_refl)).
  vm_compute. congruence.
Defined.

(** * A [float] in a DCELL cell *)

(** A bit pattern within the width of the format is made of its three fields. *)
Lemma pattern_of_fields (mw ew : Z) (b : Z) :
  0 <= mw -> 0 <= ew -> 0 <= b < 2 ^ (mw + ew + 1) ->
  b = IEEE.sign_bit mw ew (IEEE.sign_of mw ew b)
      + Z.shiftl (IEEE.expo_of mw ew b) mw + IEEE.mant_of mw b /\
  0 <= IEEE.expo_of mw ew b < 2 ^ ew /\ 0 <= IEEE.mant_of mw b < 2 ^ mw.
Proof.
  intros Hmw Hew Hb.
  assert (Pm : 0 < 2 ^ mw) by (apply Z.pow_pos_nonneg; lia).
  assert (Pe : 0 < 2 ^ ew) by (apply Z.pow_pos_nonneg; lia).
  unfold IEEE.expo_of, IEEE.mant_of, IEEE.sign_of, IEEE.sign_bit.
  rewrite Z.shiftr_div_pow2, !Z.land_ones, Z.shiftl_mul_pow2 by lia.
  pose proof (Z.mod_pos_bound b (2 ^ mw) Pm) as Bm.
  pose proof (Z.mod_pos_bound (b / 2 ^ mw) (2 ^ ew) Pe) as Be.
  split; [| split; assumption ].
  assert (Hs : Z.b2z (Z.testbit b (mw + ew)) = b / 2 ^ mw / 2 ^ ew).
  { rewrite Z.testbit_spec' by lia. rewrite Z.pow_add_r by lia.
    rewrite <- Z.div_div by lia. apply Z.mod_small.
    split; [ apply Z.div_pos; [ apply Z.div_pos |]; lia |].
    apply Z.div_lt_upper_bound; [ lia |].
    apply Z.div_lt_upper_bound; [ lia |].
    replace (mw + ew + 1) with (mw + (ew + 1)) in Hb by lia.
    rewrite Z.pow_add_r, (Z.pow_add_r 2 ew 1) in Hb by lia.
    change (2 ^ 1) with 2 in Hb. lia. }
  pose proof (Z.div_mod b (2 ^ mw)) as D1.
  pose proof (Z.div_mod (b / 2 ^ mw) (2 ^ ew)) as D2.
  rewrite Z.pow_add_r by lia.
  destruct (Z.testbit b (mw + ew)); cbn [Z.b2z] in Hs; nia.
Qed.

(** Decoding a pattern that is not a NaN and encoding the value again
    gives the pattern. *)
Lemma encode_decode (mw ew : Z) (b : Z) :
  0 <= mw -> 0 < ew -> 0 <= b < 2 ^ (mw + ew + 1) ->
  IEEE.is_nan mw ew b = false ->
  IEEE.encode mw ew (IEEE.decode mw ew b) = b.
Proof.
  intros Hmw Hew Hb Hnan.
  destruct (pattern_of_fields mw ew b) as (Hpat & HE & HM); try lia.
  unfold IEEE.is_nan in Hnan. unfold IEEE.decode.
  set (E := IEEE.expo_of mw ew b) in *. set (M := IEEE.mant_of mw b) in *.
  set (s := IEEE.sign_of mw ew b) in *.
  destruct (Z.eqb_spec E 0) as [E0 | E0].
  - rewrite E0, Z.shiftl_0_l in Hpat.
    destruct M as [| m | m] eqn:EM; cbn [IEEE.encode]; [ lia | | lia ].
    destruct (Z.ltb_spec (Zpos m) (2 ^ mw)); lia.
  - destruct (Z.eqb_spec E (Z.ones ew)) as [E1 | E1].
    + cbn [andb] in Hnan. destruct (Z.eqb_spec M 0) as [M0 | M0];
        [| discriminate ].
      cbn [IEEE.encode]. rewrite <- E1. lia.
    + assert (Hp : 0 < 2 ^ mw) by (apply Z.pow_pos_nonneg; lia).
      destruct (M + 2 ^ mw) as [| m | m] eqn:EM; [ lia | | lia ].
      cbn [IEEE.encode].
      destruct (Z.ltb_spec (Zpos m) (2 ^ mw)); [ lia |].
      replace (E + emin (IEEE.prec mw) (IEEE.emax ew) - 1
               - emin (IEEE.prec mw) (IEEE.emax ew) + 1) with E by lia.
      lia.
Qed.

(** Rounding a mantissa of no more digits than the precision, where the
    exponent is in range, only normalises it. *)
Lemma binary_round_exact (prec emax : Z) (s : bool) (p : positive) (e : Z) :
  let d := Zpos (digits2_pos p) in
  d <= prec -> emin prec emax <= d + e - prec <= emax - prec ->
  exists mz,
    binary_round prec emax s p e = S754_finite s mz (d + e - prec) /\
    Zpos mz = Zpos p * 2 ^ (prec - d) /\
    Zpos (digits2_pos mz) = prec /\
    (mz = p /\ d = prec \/
     exists k, mz = Pos.iter xO p k /\ Zpos k = prec - d).
Proof.
  intros d Hd He.
  assert (Hfexp : fexp prec emax (d + e) = d + e - prec)
    by (unfold fexp; lia).
  assert (Hal : exists mz, shl_align p e (d + e - prec) = (mz, d + e - prec) /\
             Zpos mz = Zpos p * 2 ^ (prec - d) /\ Zpos (digits2_pos mz) = prec /\
             (mz = p /\ d = prec \/
              exists k, mz = Pos.iter xO p k /\ Zpos k = prec - d)).
  { unfold shl_align. destruct (d + e - prec - e) as [| q | q] eqn:E; [ | lia |].
    - exists p. replace (d + e - prec) with e by lia.
      replace (prec - d) with 0 by lia.
      repeat split; [ lia | unfold d in *; lia | left; split; [ reflexivity | lia ] ].
    - exists (Pos.iter xO p q). split; [ reflexivity |].
      rewrite iter_xO_value, iter_xO_digits. fold d.
      replace (prec - d) with (Zpos q) by lia.
      split; [ lia |]. split; [ lia |]. right. exists q. split; [ reflexivity | lia ]. }
  destruct Hal as (mz & Hal & Hv & Hdz & Hshape). exists mz.
  unfold binary_round. fold d. rewrite Hfexp, Hal.
  split; [| repeat split; assumption ].
  unfold binary_round_aux, shr_fexp. cbn [Zdigits2]. rewrite Hdz.
  replace (prec + (d + e - prec)) with (d + e) by lia. rewrite Hfexp, Z.sub_diag.
  cbn [shr shr_record_of_loc shr_m loc_of_shr_record round_nearest_even Zdigits2].
  rewrite Hdz. replace (prec + (d + e - prec)) with (d + e) by lia.
  rewrite Hfexp, Z.sub_diag. cbn [shr shr_record_of_loc shr_m].
  destruct (Z.leb_spec (d + e - prec) (emax - prec)); [ reflexivity | lia ].
Qed.

(** Shifting out the zeros that a normalisation has put in is exact. *)
Lemma iter_pos_swap {A} (f : A -> A) (k : positive) (x : A) :
  SpecFloat.iter_pos f k (f x) = f (SpecFloat.iter_pos f k x).
Proof.
  revert x. induction k as [k IH | k IH |]; intros x; cbn [SpecFloat.iter_pos].
  - rewrite !IH. reflexivity.
  - rewrite !IH. reflexivity.
  - reflexivity.
Qed.

Lemma iter_pos_succ {A} (f : A -> A) (k : positive) (x : A) :
  SpecFloat.iter_pos f (Pos.succ k) x = f (SpecFloat.iter_pos f k x).
Proof.
  revert x. induction k as [k IH | k IH |]; intros x.
  - change (Pos.succ k~1) with ((Pos.succ k)~0)%positive.
    cbn [SpecFloat.iter_pos]. rewrite !IH, !iter_pos_swap. reflexivity.
  - change (Pos.succ k~0) with (k~1)%positive.
    cbn [SpecFloat.iter_pos]. rewrite !iter_pos_swap. reflexivity.
  - reflexivity.
Qed.

Lemma shr_zeros (k : positive) (m : positive) :
  SpecFloat.iter_pos shr_1 k (Build_shr_record (Zpos (Pos.iter xO m k)) false false)
  = Build_shr_record (Zpos m) false false.
Proof.
  revert m. induction k as [| k IH] using Pos.peano_ind; intros m.
  - reflexivity.
  - rewrite iter_pos_succ, Pos.iter_succ_r, IH. reflexivity.
Qed.

(** Rounding a normalised mantissa back to the format whose canonical
    form it came from gives that form. *)
Lemma binary_round_narrow (prec emax : Z) (s : bool) (m k : positive) (e : Z) :
  fexp prec emax (Zpos (digits2_pos m) + e) = e -> e <= emax - prec ->
  binary_round prec emax s (Pos.iter xO m k) (e - Zpos k) = S754_finite s m e.
Proof.
  intros Hcan He. unfold binary_round.
  rewrite iter_xO_digits.
  replace (Zpos (digits2_pos m) + Zpos k + (e - Zpos k))
    with (Zpos (digits2_pos m) + e) by lia.
  rewrite Hcan. unfold shl_align.
  replace (e - (e - Zpos k)) with (Zpos k) by lia.
  unfold binary_round_aux, shr_fexp. cbn [Zdigits2]. rewrite iter_xO_digits.
  replace (Zpos (digits2_pos m) + Zpos k + (e - Zpos k))
    with (Zpos (digits2_pos m) + e) by lia.
  rewrite Hcan. replace (e - (e - Zpos k)) with (Zpos k) by lia.
  cbn [shr shr_record_of_loc]. rewrite shr_zeros.
  cbn [shr_m loc_of_shr_record round_nearest_even Zdigits2].
  replace (e - Zpos k + Zpos k) with e by lia.
  rewrite Hcan, Z.sub_diag. cbn [shr shr_record_of_loc shr_m].
  destruct (Z.leb_spec e (emax - prec)); [ reflexivity | lia ].
Qed.

Lemma digits2_unique (m : positive) (n : Z) :
  2 ^ (n - 1) <= Zpos m < 2 ^ n -> 1 <= n -> Zpos (digits2_pos m) = n.
Proof.
  intros Hm Hn. pose proof (digits2_bounds m) as Hd.
  destruct (Z.lt_trichotomy (Zpos (digits2_pos m)) n) as [H | [H | H]];
    [ | exact H | ].
  - assert (2 ^ Zpos (digits2_pos m) <= 2 ^ (n - 1))
      by (apply Z.pow_le_mono_r; lia). lia.
  - assert (2 ^ n <= 2 ^ (Zpos (digits2_pos m) - 1))
      by (apply Z.pow_le_mono_r; lia). lia.
Qed.

(** What a [float] pattern that is not a NaN decodes to: a zero, an
    infinity, or a finite value in canonical form. *)
Lemma decode32_shape (b : FCELL) :
  0 <= b < 2 ^ 32 -> IEEE.is_nan 23 8 b = false ->
  match IEEE.decode32 b with
  | S754_zero _ | S754_infinity _ => True
  | S754_nan => False
  | S754_finite _ m e =>
      fexp 24 128 (Zpos (digits2_pos m) + e) = e /\ -149 <= e <= 104
  end.
Proof.
  intros Hb Hnan.
  destruct (pattern_of_fields 23 8 b) as (_ & HE & HM); try lia.
  unfold IEEE.decode32, IEEE.decode. unfold IEEE.is_nan in Hnan.
  set (E := IEEE.expo_of 23 8 b) in *. set (M := IEEE.mant_of 23 b) in *.
  change (emin (IEEE.prec 23) (IEEE.emax 8)) with (-149).
  destruct (Z.eqb_spec E 0) as [E0 | E0].
  - destruct M as [| m | m] eqn:EM; [ exact I | | lia ].
    pose proof (digits2_bounds m) as Hdm.
    assert (Zpos (digits2_pos m) <= 23).
    { destruct (Z_le_gt_dec (Zpos (digits2_pos m)) 23); [ assumption |].
      assert (2 ^ 23 <= 2 ^ (Zpos (digits2_pos m) - 1))
        by (apply Z.pow_le_mono_r; lia). lia. }
    unfold fexp, emin. lia.
  - destruct (Z.eqb_spec E (Z.ones 8)) as [E1 | E1].
    + cbn [andb] in Hnan. destruct (Z.eqb_spec M 0); [ exact I | discriminate ].
    + change (Z.ones 8) with 255 in E1. change (2 ^ 8) with 256 in HE.
      destruct (M + 2 ^ 23) as [| m | m] eqn:EM; [ lia | | lia ].
      assert (Hdm : Zpos (digits2_pos m) = 24)
        by (apply digits2_unique; [ change (2 ^ (24 - 1)) with (2 ^ 23);
              change (2 ^ 24) with (2 * 2 ^ 23); lia | lia ]).
      rewrite Hdm. unfold fexp, emin. lia.
Qed.

(** A [float] that is not a NaN, made a [double] and a [float] again, is
    the same [float]; the [double] is not a NaN. *)
Lemma FCELL_widened_and_narrowed (b : FCELL) :
  0 <= b < 2 ^ 32 -> IEEE.is_nan 23 8 b = false ->
  IEEE.is_nan 52 11 (FCELL_to_DCELL b) = false /\
  DCELL_to_FCELL (FCELL_to_DCELL b) = b.
Proof.
  intros Hb Hnan.
  pose proof (encode_decode 23 8 b ltac:(lia) ltac:(lia) Hb Hnan) as Henc.
  pose proof (decode32_shape b Hb Hnan) as Hshape.
  assert (Core :
    IEEE.is_nan 52 11 (IEEE.encode64 (IEEE.round 52 11 (IEEE.decode32 b))) = false /\
    IEEE.round 23 8 (IEEE.decode64
        (IEEE.encode64 (IEEE.round 52 11 (IEEE.decode32 b))))
      = IEEE.decode32 b).
  { unfold IEEE.decode64, IEEE.encode64.
    destruct (IEEE.decode32 b) as [s | s | | s m e]; [ | | contradiction | ].
    - destruct s; vm_compute; split; reflexivity.
    - destruct s; vm_compute; split; reflexivity.
    - destruct Hshape as [Hcan He].
      assert (Hd : Zpos (digits2_pos m) <= 24) by (unfold fexp in Hcan; lia).
      cbn [IEEE.round].
      destruct (binary_round_exact (IEEE.prec 52) (IEEE.emax 11) s m e)
        as (mz & -> & Hv & Hdz & Hsh).
      { unfold IEEE.prec. lia. }
      { unfold emin, IEEE.prec, IEEE.emax. change (2 ^ (11 - 1)) with 1024. lia. }
      pose proof (digits2_bounds mz) as Hbz. rewrite Hdz in Hbz.
      unfold IEEE.prec in Hbz, Hdz, Hsh.
      destruct (decode_encode_normal 52 11 s mz
                  (Zpos (digits2_pos m) + e - IEEE.prec 52)) as [-> ->];
        try lia.
      { unfold emin, IEEE.prec, IEEE.emax. change (2 ^ (11 - 1)) with 1024.
        change (Z.ones 11) with 2047. lia. }
      split; [ reflexivity |].
      destruct Hsh as [[_ Hd53] | (k & -> & Hk)]; [ lia |].
      cbn [IEEE.round]. unfold IEEE.prec.
      replace (Zpos (digits2_pos m) + e - (52 + 1)) with (e - Zpos k) by lia.
      apply binary_round_narrow.
      + exact Hcan.
      + unfold IEEE.emax. change (2 ^ (8 - 1)) with 128. lia. }
  destruct Core as [Cn Cr].
  unfold FCELL_to_DCELL. rewrite Hnan. split; [ exact Cn |].
  unfold DCELL_to_FCELL. rewrite Cn, Cr. exact Henc.
Qed.

(** X17: a [float] that is a number or an infinity, stored by
    G_set_raster_value_f into a DCELL cell and read back by
    G_get_raster_value_f, is the same [float] bit for bit, and so is the
    FCELL null, provided both floating null patterns are NaN patterns. *)
Theorem FCELL_survives_DCELL_cell (G : gislib) (rast : Z) (f0 fval : FCELL) :
  labels_distinct G ->
  IEEE.is_nan 23 8 (fcellNullPattern G) = true ->
  IEEE.is_nan 52 11 (dcellNullPattern G) = true ->
  (0 <= fval < 2 ^ 32 /\ IEEE.is_nan 23 8 fval = false) \/
  fval = fcellNullPattern G ->
  exists cell,
    G_set_raster_value_f G rast fval (DCELL_TYPE G) = Some cell /\
    G_get_raster_value_f G f0 cell (DCELL_TYPE G) = fval.
Proof.
  intros HG Hfnull Hdnull Hv.
  destruct (switch_DCELL G _ HG eq_refl) as (E1 & E2 & E3).
  unfold G_set_raster_value_f, G_get_raster_value_f, G_set_null_value,
    G_is_null_value, G_set_d_null_value, G_set_f_null_value,
    G_is_f_null_value, G_is_d_null_value.
  rewrite E1, E2, E3. cbn [Z.ltb Z.compare].
  destruct (Z.eqb_spec fval (fcellNullPattern G)) as [-> | Hne].
  - eexists. split; [ reflexivity |]. rewrite Z.eqb_refl. reflexivity.
  - destruct Hv as [[Hr Hnan] | Hv]; [| contradiction ].
    destruct (FCELL_widened_and_narrowed fval Hr Hnan) as [Hn Hback].
    eexists. split; [ reflexivity |].
    destruct (Z.eqb_spec (FCELL_to_DCELL fval) (dcellNullPattern G)) as [E | _];
      [ congruence | exact Hback ].
Qed.

Lemma FCELL_survives_DCELL_cell_witness :
  exists cell,
    G_set_raster_value_f grass 0 0xC0490FDB (DCELL_TYPE grass) = Some cell /\
    G_get_raster_value_f grass 0 cell (DCELL_TYPE grass) = 0xC0490FDB.
Proof.
  apply (FCELL_survives_DCELL_cell grass 0 0 0xC0490FDB grass_labels_distinct).
  - reflexivity.
  - reflexivity.
  - left. split; [ vm_compute; split; congruence | reflexivity ].
Defined.

(** * What the casts make of a value *)

(** One step of the right shift that rounding is made of: the last digit
    goes to the round bit, the round bit joins the sticky bit. *)
Lemma shr_1_nonneg (m : Z) (r s : bool) :
  0 <= m ->
  shr_1 (Build_shr_record m r s) = Build_shr_record (m / 2) (Z.odd m) (r || s).
Proof.
  intros Hm. destruct m as [| p | p]; [ reflexivity | | lia ].
  destruct p as [p | p |]; cbn [shr_1].
  - f_equal. rewrite (Pos2Z.inj_xI p).
    apply (Z.div_unique _ _ _ 1); lia.
  - f_equal. rewrite (Pos2Z.inj_xO p).
    apply (Z.div_unique _ _ _ 0); lia.
  - reflexivity.
Qed.

(** [k] steps leave the quotient by 2^k, the digit below it and whether
    anything lies below that digit. *)
Lemma iter_shr_1 (k : positive) (n : Z) :
  0 <= n ->
  SpecFloat.iter_pos shr_1 k (Build_shr_record n false false)
  = Build_shr_record (n / 2 ^ Zpos k) (Z.odd (n / 2 ^ (Zpos k - 1)))
      (negb (n mod 2 ^ (Zpos k - 1) =? 0)).
Proof.
  intros Hn. induction k as [| k IH] using Pos.peano_ind.
  - cbn [SpecFloat.iter_pos]. rewrite shr_1_nonneg by assumption.
    change (2 ^ 1) with 2. change (2 ^ (1 - 1)) with 1.
    rewrite Z.div_1_r, Z.mod_1_r. reflexivity.
  - rewrite iter_pos_succ, IH.
    assert (Pk : 0 < 2 ^ Zpos k) by (apply Z.pow_pos_nonneg; lia).
    assert (Pk1 : 0 < 2 ^ (Zpos k - 1)) by (apply Z.pow_pos_nonneg; lia).
    rewrite shr_1_nonneg by (apply Z.div_pos; lia).
    rewrite Pos2Z.inj_succ.
    replace (Z.succ (Zpos k) - 1) with (Zpos k) by lia.
    rewrite Z.pow_succ_r by lia.
    f_equal.
    + rewrite Z.div_div by lia. f_equal. lia.
    + assert (E2 : 2 ^ Zpos k = 2 ^ (Zpos k - 1) * 2).
      { replace (Zpos k) with (Z.succ (Zpos k - 1)) at 1 by lia.
        rewrite Z.pow_succ_r by lia. lia. }
      rewrite E2, Z.rem_mul_r by lia.
      pose proof (Z.mod_pos_bound n (2 ^ (Zpos k - 1)) Pk1) as B1.
      rewrite Zodd_mod.
      pose proof (Z.mod_pos_bound (n / 2 ^ (Zpos k - 1)) 2 ltac:(lia)) as B2.
      destruct (Z.eqb_spec (n mod 2 ^ (Zpos k - 1)) 0) as [E0 | E0];
        destruct (Z.eqb_spec ((n / 2 ^ (Zpos k - 1)) mod 2) 1) as [E1 | E1];
        cbn [negb orb];
        match goal with |- _ = negb (?a =? 0) => destruct (Z.eqb_spec a 0) end;
        try reflexivity; nia.
Qed.

(** The significand that rounding chooses after [k] steps is the integer
    nearest to n / 2^k, the even one at a tie. *)
Lemma round_nearest_even_shr (k : positive) (n : Z) :
  0 <= n ->
  let mrs := SpecFloat.iter_pos shr_1 k (Build_shr_record n false false) in
  let q := round_nearest_even (shr_m mrs) (loc_of_shr_record mrs) in
  n / 2 ^ Zpos k <= q <= n / 2 ^ Zpos k + 1 /\
  nearest_even n (Zpos k) q = true.
Proof.
  intros Hn. cbv zeta. rewrite iter_shr_1 by assumption.
  assert (PH : 0 < 2 ^ (Zpos k - 1)) by (apply Z.pow_pos_nonneg; lia).
  assert (E2 : 2 ^ Zpos k = 2 ^ (Zpos k - 1) * 2).
  { replace (Zpos k) with (Z.succ (Zpos k - 1)) at 1 by lia.
    rewrite Z.pow_succ_r by lia. lia. }
  unfold nearest_even.
  replace (Z.max 0 (Zpos k)) with (Zpos k) by lia.
  replace (Z.max 0 (- Zpos k)) with 0 by lia.
  rewrite Z.pow_0_r, Z.mul_1_r, E2.
  rewrite <- Z.div_div by lia.
  set (H := 2 ^ (Zpos k - 1)) in *.
  pose proof (Z.div_mod n H ltac:(lia)) as D1.
  pose proof (Z.mod_pos_bound n H PH) as B1.
  pose proof (Z.div_mod (n / H) 2 ltac:(lia)) as D2.
  pose proof (Z.mod_pos_bound (n / H) 2 ltac:(lia)) as B2.
  rewrite Zodd_mod. cbn [shr_m].
  set (m1 := n / H / 2) in *. set (low := n mod H) in *.
  set (b := (n / H) mod 2) in *.
  assert (Dn : n = H * (2 * m1 + b) + low) by lia.
  clearbody m1 low b H. subst n.
  destruct (Z.eqb_spec b 1) as [Eb | Eb];
    destruct (Z.eqb_spec low 0) as [El | El];
    cbn [negb loc_of_shr_record round_nearest_even].
  - destruct (Z.even m1) eqn:Ev.
    + split; [ lia |]. rewrite Ev.
      replace (Z.abs _) with H by nia.
      destruct (Z.ltb_spec (2 * H) (H * 2)); [ lia |].
      destruct (Z.eqb_spec (2 * H) (H * 2)); [ reflexivity | lia ].
    + split; [ lia |].
      rewrite Z.even_add, Ev. cbn [Z.even Bool.eqb].
      replace (Z.abs _) with H by nia.
      destruct (Z.ltb_spec (2 * H) (H * 2)); [ lia |].
      destruct (Z.eqb_spec (2 * H) (H * 2)); [ reflexivity | lia ].
  - split; [ lia |].
    replace (Z.abs _) with (H - low) by nia.
    destruct (Z.ltb_spec (2 * (H - low)) (H * 2)); [ reflexivity | lia ].
  - split; [ lia |].
    replace (Z.abs _) with 0 by nia.
    destruct (Z.ltb_spec (2 * 0) (H * 2)); [ reflexivity | lia ].
  - split; [ lia |].
    replace (Z.abs _) with low by nia.
    destruct (Z.ltb_spec (2 * low) (H * 2)); [ reflexivity | lia ].
Qed.

(** Rounding where the exponent of the format lies above the exponent
    given: the significand is rounded at that exponent, a carry into a
    further digit is renormalised, and the result is infinite if its
    exponent is beyond the format. *)
Lemma binary_round_inexact (prec emax : Z) (s : bool) (p : positive) (e : Z) :
  let d := Zpos (digits2_pos p) in
  let E := fexp prec emax (d + e) in
  0 < prec -> e < E ->
  exists q,
    nearest_even (Zpos p) (E - e) q = true /\
    0 <= q <= 2 ^ prec /\
    (q < 2 ^ (prec - 1) -> E = emin prec emax) /\
    binary_round prec emax s p e =
      match q with
      | Zpos qp =>
          if q =? 2 ^ prec then
            if E + 1 <=? emax - prec
            then S754_finite s (Z.to_pos (2 ^ (prec - 1))) (E + 1)
            else S754_infinity s
          else
            if E <=? emax - prec then S754_finite s qp E else S754_infinity s
      | _ => S754_zero s
      end.
Proof.
  intros d E Hprec Hk.
  pose proof (digits2_bounds p) as Hd. fold d in Hd.
  assert (HE : d + e - prec <= E /\ emin prec emax <= E)
    by (unfold E, fexp; lia).
  destruct (E - e) as [| k | k] eqn:Ek; [ lia | | lia ].
  pose proof (round_nearest_even_shr k (Zpos p) ltac:(lia)) as R.
  cbv zeta in R.
  set (mrs := SpecFloat.iter_pos shr_1 k (Build_shr_record (Zpos p) false false)) in *.
  set (q := round_nearest_even (shr_m mrs) (loc_of_shr_record mrs)) in *.
  destruct R as [Rq Rn].
  assert (Pk : 0 < 2 ^ Zpos k) by (apply Z.pow_pos_nonneg; lia).
  assert (Pp : 0 < 2 ^ prec) by (apply Z.pow_pos_nonneg; lia).
  assert (Hm1 : 0 <= Zpos p / 2 ^ Zpos k < 2 ^ prec).
  { split; [ apply Z.div_pos; lia |].
    apply Z.div_lt_upper_bound; [ lia |].
    rewrite <- Z.pow_add_r by lia.
    assert (2 ^ d <= 2 ^ (Zpos k + prec)) by (apply Z.pow_le_mono_r; lia).
    lia. }
  assert (Hlow : q < 2 ^ (prec - 1) -> E = emin prec emax).
  { intros Hq. destruct (Z.eq_dec E (emin prec emax)) as [| Hne]; [ assumption |].
    exfalso. assert (EE : E = d + e - prec) by (unfold E, fexp in *; lia).
    assert (Hkd : Zpos k = d - prec) by lia.
    assert (2 ^ (prec - 1) <= Zpos p / 2 ^ Zpos k); [| lia ].
    apply Z.div_le_lower_bound; [ lia |].
    rewrite <- Z.pow_add_r by lia.
    replace (Zpos k + (prec - 1)) with (d - 1) by lia. lia. }
  exists q. split; [ exact Rn |]. split; [ lia |]. split; [ exact Hlow |].
  unfold binary_round. fold d. fold E. unfold shl_align. rewrite Ek.
  unfold binary_round_aux, shr_fexp. cbn [Zdigits2]. fold d. fold E.
  rewrite Ek. cbn [shr shr_record_of_loc]. fold mrs. fold q.
  replace (e + Zpos k) with E by lia.
  destruct q as [| qp | qp] eqn:Eq; [ | | lia ].
  - cbn [Zdigits2]. 
    destruct (fexp prec emax (0 + E) - E) as [| j | j] eqn:Ej;
      [ reflexivity | unfold fexp in Ej; lia | reflexivity ].
  - cbn [Zdigits2]. pose proof (digits2_bounds qp) as Hdq.
    destruct (Z.eqb_spec (Zpos qp) (2 ^ prec)) as [Ecarry | Ecarry].
    + assert (Hdq' : Zpos (digits2_pos qp) = prec + 1).
      { apply digits2_unique; [| lia ].
        replace (prec + 1 - 1) with prec by lia.
        rewrite Z.pow_add_r by lia. change (2 ^ 1) with 2. lia. }
      rewrite Hdq'.
      assert (Ej : fexp prec emax (prec + 1 + E) - E = 1)
        by (unfold fexp; lia).
      rewrite Ej. cbn [shr SpecFloat.iter_pos].
      rewrite shr_1_nonneg by lia. cbn [shr_m].
      rewrite Ecarry.
      assert (Hhalf : 2 ^ prec / 2 = 2 ^ (prec - 1)).
      { replace prec with (Z.succ (prec - 1)) at 1 by lia.
        rewrite Z.pow_succ_r by lia. rewrite Z.mul_comm, Z.div_mul by lia.
        reflexivity. }
      rewrite Hhalf.
      assert (Ph : 0 < 2 ^ (prec - 1)) by (apply Z.pow_pos_nonneg; lia).
      destruct (2 ^ (prec - 1)) as [| h | h] eqn:Eh; [ lia | | lia ].
      reflexivity.
    + assert (Hdq' : Zpos (digits2_pos qp) <= prec).
      { destruct (Z_le_gt_dec (Zpos (digits2_pos qp)) prec); [ assumption |].
        assert (2 ^ prec <= 2 ^ (Zpos (digits2_pos qp) - 1))
          by (apply Z.pow_le_mono_r; lia). lia. }
      destruct (fexp prec emax (Zpos (digits2_pos qp) + E) - E) as [| j | j] eqn:Ej;
        [ reflexivity | unfold fexp in Ej; lia | reflexivity ].
Qed.

(** Rounding where the exponent of the format is not above the exponent
    given only rewrites the number at the exponent of the format. *)
Lemma binary_round_on_grid (prec emax : Z) (s : bool) (p : positive) (e : Z) :
  let d := Zpos (digits2_pos p) in
  let E := fexp prec emax (d + e) in
  E <= e ->
  exists mz,
    Zpos mz = Zpos p * 2 ^ (e - E) /\
    Zpos (digits2_pos mz) = d + e - E /\
    binary_round prec emax s p e =
      if E <=? emax - prec then S754_finite s mz E else S754_infinity s.
Proof.
  intros d E Hk.
  assert (Hal : exists mz, shl_align p e E = (mz, E) /\
             Zpos mz = Zpos p * 2 ^ (e - E) /\
             Zpos (digits2_pos mz) = d + e - E).
  { unfold shl_align. destruct (E - e) as [| q | q] eqn:Eq; [ | lia |].
    - exists p. split; [ f_equal; lia |].
      replace (e - E) with 0 by lia. split; [ lia | unfold d; lia ].
    - exists (Pos.iter xO p q). split; [ reflexivity |].
      rewrite iter_xO_value, iter_xO_digits. fold d.
      replace (e - E) with (Zpos q) by lia. split; lia. }
  destruct Hal as (mz & Hal & Hv & Hdz). exists mz.
  split; [ exact Hv |]. split; [ exact Hdz |].
  unfold binary_round. fold d. fold E. rewrite Hal.
  unfold binary_round_aux, shr_fexp. cbn [Zdigits2]. rewrite Hdz.
  replace (d + e - E + E) with (d + e) by lia. fold E. rewrite Z.sub_diag.
  cbn [shr shr_record_of_loc shr_m loc_of_shr_record round_nearest_even Zdigits2].
  rewrite Hdz. replace (d + e - E + E) with (d + e) by lia.
  fold E. rewrite Z.sub_diag. cbn [shr shr_record_of_loc shr_m].
  reflexivity.
Qed.

Lemma nearest_even_on_grid (n k : Z) :
  k <= 0 -> nearest_even n k (n * 2 ^ (- k)) = true.
Proof.
  intros Hk. unfold nearest_even.
  replace (Z.max 0 k) with 0 by lia. replace (Z.max 0 (- k)) with (- k) by lia.
  rewrite Z.pow_0_r, Z.mul_1_r, Z.sub_diag. reflexivity.
Qed.

(** [binary_round] rounds to nearest, ties to even, and returns a value
    of the format. *)
Lemma binary_round_rounded (prec emax : Z) (s : bool) (p : positive) (e : Z) :
  0 < prec ->
  rounded prec emax s p e (binary_round prec emax s p e) = true /\
  valid_binary prec emax (binary_round prec emax s p e) = true /\
  binary_round prec emax s p e <> S754_nan.
Proof.
  intros Hprec.
  pose proof (digits2_bounds p) as Hd.
  pose proof (binary_round_on_grid prec emax s p e) as Grid.
  pose proof (binary_round_inexact prec emax s p e) as Inex.
  cbv zeta in Grid, Inex. unfold rounded.
  assert (Pp : 0 < 2 ^ prec) by (apply Z.pow_pos_nonneg; lia).
  set (d := Zpos (digits2_pos p)) in *.
  set (E := fexp prec emax (d + e)) in *.
  assert (HE : d + e - prec <= E /\ emin prec emax <= E)
    by (unfold E, fexp; lia).
  assert (HEdef : fexp prec emax (d + e) = E) by reflexivity.
  clearbody E.
  destruct (Z_le_gt_dec E e) as [Hk | Hk].
  - destruct (Grid Hk) as (mz & Hv & Hdz & ->).
    destruct (Z.leb_spec E (emax - prec)) as [Hr | Hr].
    + assert (Hmz : Zpos mz < 2 ^ prec).
      { pose proof (digits2_bounds mz) as Hb. rewrite Hdz in Hb.
        assert (2 ^ (d + e - E) <= 2 ^ prec) by (apply Z.pow_le_mono_r; lia).
        lia. }
      split; [| split; [| discriminate ] ].
      * rewrite Bool.eqb_reflx, Z.leb_refl. cbn [andb].
        destruct (Z.leb_spec E (emax - prec)); [| lia ].
        destruct (Z.ltb_spec (Zpos mz) (2 ^ prec)); [| lia ]. cbn [andb].
        rewrite Z.sub_diag, Z.pow_0_r, Z.mul_1_r, Hv.
        replace (e - E) with (- (E - e)) by lia.
        apply nearest_even_on_grid. lia.
      * cbn [valid_binary]. unfold bounded, canonical_mantissa.
        rewrite Hdz. replace (d + e - E + E) with (d + e) by lia.
        rewrite HEdef, Z.eqb_refl. cbn [andb]. apply Z.leb_le. lia.
    + split; [| split; [ reflexivity | discriminate ] ].
      rewrite Bool.eqb_reflx. cbn [andb].
      destruct (Z.ltb_spec (emax - prec) E); [ reflexivity | lia ].
  - destruct (Inex Hprec ltac:(lia)) as (q & Rn & Rq & Rlow & ->).
    destruct q as [| qp | qp]; [ | | lia ].
    + split; [| split; [ reflexivity | discriminate ] ].
      rewrite Bool.eqb_reflx. exact Rn.
    + destruct (Z.eqb_spec (Zpos qp) (2 ^ prec)) as [Ec | Ec].
      * assert (Ph : 0 < 2 ^ (prec - 1)) by (apply Z.pow_pos_nonneg; lia).
        assert (Hdbl : 2 ^ prec = 2 ^ (prec - 1) * 2).
        { replace prec with (Z.succ (prec - 1)) at 1 by lia.
          rewrite Z.pow_succ_r by lia. lia. }
        destruct (Z.leb_spec (E + 1) (emax - prec)) as [Hr | Hr].
        -- split; [| split; [| discriminate ] ].
           ++ rewrite Bool.eqb_reflx. cbn [andb].
              rewrite Z2Pos.id by lia.
              destruct (Z.leb_spec E (E + 1)); [| lia ].
              destruct (Z.leb_spec (E + 1) (emax - prec)); [| lia ].
              destruct (Z.ltb_spec (2 ^ (prec - 1)) (2 ^ prec)); [| lia ].
              cbn [andb]. replace (E + 1 - E) with 1 by lia.
              change (2 ^ 1) with 2. rewrite <- Hdbl, <- Ec. exact Rn.
           ++ cbn [valid_binary]. unfold bounded, canonical_mantissa.
              assert (Hdh : Zpos (digits2_pos (Z.to_pos (2 ^ (prec - 1)))) = prec).
              { apply digits2_unique; [| lia ]. rewrite Z2Pos.id by lia. lia. }
              rewrite Hdh.
              assert (Hf : fexp prec emax (prec + (E + 1)) = E + 1)
                by (unfold fexp; lia).
              rewrite Hf, Z.eqb_refl. cbn [andb]. apply Z.leb_le. lia.
        -- split; [| split; [ reflexivity | discriminate ] ].
           rewrite Bool.eqb_reflx. cbn [andb].
           destruct (Z.ltb_spec (emax - prec) E); [ reflexivity |].
           destruct (Z.eqb_spec E (emax - prec)); [| lia ].
           cbn [orb andb]. rewrite <- Ec. exact Rn.
      * destruct (Z.leb_spec E (emax - prec)) as [Hr | Hr].
        -- split; [| split; [| discriminate ] ].
           ++ rewrite Bool.eqb_reflx, Z.leb_refl. cbn [andb].
              destruct (Z.leb_spec E (emax - prec)); [| lia ].
              destruct (Z.ltb_spec (Zpos qp) (2 ^ prec)); [| lia ].
              cbn [andb]. rewrite Z.sub_diag, Z.pow_0_r, Z.mul_1_r. exact Rn.
           ++ cbn [valid_binary]. unfold bounded, canonical_mantissa.
              pose proof (digits2_bounds qp) as Hb.
              assert (Hdq : Zpos (digits2_pos qp) <= prec).
              { destruct (Z_le_gt_dec (Zpos (digits2_pos qp)) prec); [ assumption |].
                assert (2 ^ prec <= 2 ^ (Zpos (digits2_pos qp) - 1))
                  by (apply Z.pow_le_mono_r; lia). lia. }
              assert (Hf : fexp prec emax (Zpos (digits2_pos qp) + E) = E).
              { destruct (Z.eq_dec E (emin prec emax)) as [Em | Em].
                - unfold fexp. lia.
                - assert (2 ^ (prec - 1) <= Zpos qp) by lia.
                  assert (prec <= Zpos (digits2_pos qp)).
                  { destruct (Z_le_gt_dec prec (Zpos (digits2_pos qp)));
                      [ assumption |].
                    assert (2 ^ Zpos (digits2_pos qp) <= 2 ^ (prec - 1))
                      by (apply Z.pow_le_mono_r; lia). lia. }
                  unfold fexp. lia. }
              rewrite Hf, Z.eqb_refl. cbn [andb]. apply Z.leb_le. lia.
        -- split; [| split; [ reflexivity | discriminate ] ].
           rewrite Bool.eqb_reflx. cbn [andb].
           destruct (Z.ltb_spec (emax - prec) E); [ reflexivity | lia ].
Qed.

(** A value of the format is read back from its bit pattern. *)
Lemma decode_encode_valid (mw ew : Z) (x : spec_float) :
  1 <= mw -> 2 <= ew ->
  valid_binary (IEEE.prec mw) (IEEE.emax ew) x = true -> x <> S754_nan ->
  IEEE.decode mw ew (IEEE.encode mw ew x) = x.
Proof.
  intros Hmw Hew Hval Hnan.
  assert (Pm : 0 < 2 ^ mw) by (apply Z.pow_pos_nonneg; lia).
  assert (Hones : Z.ones ew = 2 * IEEE.emax ew - 1).
  { rewrite Z.ones_equiv. unfold IEEE.emax.
    replace ew with (Z.succ (ew - 1)) at 1 by lia.
    rewrite Z.pow_succ_r by lia. lia. }
  assert (Hemax : 2 <= IEEE.emax ew).
  { unfold IEEE.emax. change 2 with (2 ^ 1) at 1.
    apply Z.pow_le_mono_r; lia. }
  assert (P2 : 2 ^ ew = 2 * IEEE.emax ew).
  { unfold IEEE.emax. replace ew with (Z.succ (ew - 1)) at 1 by lia.
    rewrite Z.pow_succ_r by lia. lia. }
  destruct x as [s | s | | s m e]; [ | | contradiction | ].
  - destruct (fields_of_pattern mw ew s 0 0) as (Hs & He & Hm); try lia.
    cbv zeta in Hs, He, Hm.
    rewrite Z.shiftl_0_l, !Z.add_0_r in Hs, He, Hm.
    unfold IEEE.decode. cbn [IEEE.encode]. rewrite Hs, He, Hm. reflexivity.
  - destruct (fields_of_pattern mw ew s (Z.ones ew) 0) as (Hs & He & Hm);
      try lia.
    cbv zeta in Hs, He, Hm. rewrite !Z.add_0_r in Hs, He, Hm.
    unfold IEEE.decode. cbn [IEEE.encode]. rewrite Hs, He, Hm.
    destruct (Z.eqb_spec (Z.ones ew) 0); [ lia |].
    rewrite Z.eqb_refl. reflexivity.
  - cbn [valid_binary] in Hval. unfold bounded, canonical_mantissa in Hval.
    apply andb_prop in Hval. destruct Hval as [Hc Hb].
    apply Z.eqb_eq in Hc. apply Z.leb_le in Hb.
    pose proof (digits2_bounds m) as Hd.
    destruct (Z_lt_ge_dec (Zpos m) (2 ^ mw)) as [Hsub | Hnor].
    + assert (Hdm : Zpos (digits2_pos m) <= mw).
      { destruct (Z_le_gt_dec (Zpos (digits2_pos m)) mw); [ assumption |].
        assert (2 ^ mw <= 2 ^ (Zpos (digits2_pos m) - 1))
          by (apply Z.pow_le_mono_r; lia). lia. }
      assert (He : e = emin (IEEE.prec mw) (IEEE.emax ew))
        by (unfold fexp, IEEE.prec in *; lia).
      destruct (fields_of_pattern mw ew s 0 (Zpos m)) as (Hs & HE & Hm); try lia.
      cbv zeta in Hs, HE, Hm. rewrite Z.shiftl_0_l, Z.add_0_r in Hs, HE, Hm.
      unfold IEEE.decode. cbn [IEEE.encode].
      destruct (Z.ltb_spec (Zpos m) (2 ^ mw)); [| lia ].
      rewrite Hs, HE, Hm. cbn [Z.eqb]. rewrite He. reflexivity.
    + assert (Hdm : Zpos (digits2_pos m) = IEEE.prec mw).
      { unfold fexp, IEEE.prec in *.
        destruct (Z_le_gt_dec (mw + 1) (Zpos (digits2_pos m))); [ lia |].
        assert (2 ^ Zpos (digits2_pos m) <= 2 ^ mw)
          by (apply Z.pow_le_mono_r; lia). lia. }
      rewrite Hdm in Hd. unfold IEEE.prec in Hd.
      replace (mw + 1 - 1) with mw in Hd by lia.
      apply (decode_encode_normal mw ew s m e); try lia.
      unfold fexp, emin, IEEE.prec in *. lia.
Qed.

(** The conversions of a NaN give a NaN. *)
Lemma nan32_to_64_is_nan (b : FCELL) : IEEE.is_nan 52 11 (IEEE.nan32_to_64 b) = true.
Proof.
  unfold IEEE.nan32_to_64.
  set (M := Z.lor (Z.shiftl (IEEE.mant_of 23 b) 29) (2 ^ 51)).
  assert (Hm : 0 <= IEEE.mant_of 23 b < 2 ^ 23).
  { unfold IEEE.mant_of. rewrite Z.land_ones by lia.
    apply Z.mod_pos_bound. lia. }
  assert (Hsh : 0 <= Z.shiftl (IEEE.mant_of 23 b) 29 < 2 ^ 52).
  { rewrite Z.shiftl_mul_pow2 by lia. lia. }
  assert (HM : 2 ^ 51 <= M < 2 ^ 52).
  { assert (H0 : 0 <= M) by (apply Z.lor_nonneg; lia).
    assert (Hl : Z.log2 M = Z.max (Z.log2 (Z.shiftl (IEEE.mant_of 23 b) 29)) 51).
    { unfold M. rewrite Z.log2_lor by lia. reflexivity. }
    assert (Hl1 : Z.log2 (Z.shiftl (IEEE.mant_of 23 b) 29) < 52).
    { destruct (Z.eq_dec (Z.shiftl (IEEE.mant_of 23 b) 29) 0) as [-> |];
        [ cbn; lia |].
      apply Z.log2_lt_pow2; lia. }
    assert (Hl2 : Z.log2 M = 51) by lia.
    assert (0 < M).
    { destruct (Z.eq_dec M 0) as [E0 |]; [| lia ].
      rewrite E0 in Hl2. cbn in Hl2. lia. }
    pose proof (Z.log2_spec M ltac:(lia)) as Sp. rewrite Hl2 in Sp.
    change (Z.succ 51) with 52 in Sp. exact Sp. }
  destruct (fields_of_pattern 52 11 (IEEE.sign_of 23 8 b) (Z.ones 11) M)
    as (_ & He & Hmt); try lia.
  { change (Z.ones 11) with 2047. change (2 ^ 11) with 2048. lia. }
  cbv zeta in He, Hmt. unfold IEEE.is_nan. rewrite He, Hmt, Z.eqb_refl.
  destruct (Z.eqb_spec M 0); [ lia | reflexivity ].
Qed.

Lemma nan64_to_32_is_nan (b : DCELL) : IEEE.is_nan 23 8 (IEEE.nan64_to_32 b) = true.
Proof.
  unfold IEEE.nan64_to_32.
  set (M := Z.lor (Z.shiftr (IEEE.mant_of 52 b) 29) (2 ^ 22)).
  assert (Hm : 0 <= IEEE.mant_of 52 b < 2 ^ 52).
  { unfold IEEE.mant_of. rewrite Z.land_ones by lia.
    apply Z.mod_pos_bound. lia. }
  assert (Hsh : 0 <= Z.shiftr (IEEE.mant_of 52 b) 29 < 2 ^ 23).
  { rewrite Z.shiftr_div_pow2 by lia. split; [ apply Z.div_pos; lia |].
    apply Z.div_lt_upper_bound; lia. }
  assert (HM : 2 ^ 22 <= M < 2 ^ 23).
  { assert (H0 : 0 <= M) by (apply Z.lor_nonneg; lia).
    assert (Hl : Z.log2 M = Z.max (Z.log2 (Z.shiftr (IEEE.mant_of 52 b) 29)) 22).
    { unfold M. rewrite Z.log2_lor by lia. reflexivity. }
    assert (Hl1 : Z.log2 (Z.shiftr (IEEE.mant_of 52 b) 29) < 23).
    { destruct (Z.eq_dec (Z.shiftr (IEEE.mant_of 52 b) 29) 0) as [-> |];
        [ cbn; lia |].
      apply Z.log2_lt_pow2; lia. }
    assert (Hl2 : Z.log2 M = 22) by lia.
    assert (0 < M).
    { destruct (Z.eq_dec M 0) as [E0 |]; [| lia ].
      rewrite E0 in Hl2. cbn in Hl2. lia. }
    pose proof (Z.log2_spec M ltac:(lia)) as Sp. rewrite Hl2 in Sp.
    change (Z.succ 22) with 23 in Sp. exact Sp. }
  destruct (fields_of_pattern 23 8 (IEEE.sign_of 52 11 b) (Z.ones 8) M)
    as (_ & He & Hmt); try lia.
  { change (Z.ones 8) with 255. change (2 ^ 8) with 256. lia. }
  cbv zeta in He, Hmt. unfold IEEE.is_nan. rewrite He, Hmt, Z.eqb_refl.
  destruct (Z.eqb_spec M 0); [ lia | reflexivity ].
Qed.

Lemma same_number_refl (x : spec_float) : same_number x x = true.
Proof.
  destruct x as [s | s | | s m e]; cbn [same_number];
    rewrite ?Bool.eqb_reflx, ?Z.eqb_refl; reflexivity.
Qed.

(** Rounding into a format and laying the result out in bits is the
    conversion to that format. *)
Lemma round_converted (mw ew : Z) (x : spec_float) :
  1 <= mw -> 2 <= ew -> x <> S754_nan ->
  converted (IEEE.prec mw) (IEEE.emax ew) x
    (IEEE.decode mw ew (IEEE.encode mw ew (IEEE.round mw ew x))) = true.
Proof.
  intros Hmw Hew Hnan.
  destruct x as [s | s | | s m e]; [ | | contradiction | ].
  - cbn [IEEE.round converted].
    rewrite decode_encode_valid by (try lia; try reflexivity; discriminate).
    apply same_number_refl.
  - cbn [IEEE.round converted].
    rewrite decode_encode_valid by (try lia; try reflexivity; discriminate).
    apply same_number_refl.
  - cbn [IEEE.round converted].
    destruct (binary_round_rounded (IEEE.prec mw) (IEEE.emax ew) s m e)
      as (Hr & Hv & Hn); [ unfold IEEE.prec; lia |].
    rewrite decode_encode_valid by (try lia; assumption).
    exact Hr.
Qed.

Lemma of_int_converted (mw ew : Z) (c : Z) :
  1 <= mw -> 2 <= ew ->
  converted (IEEE.prec mw) (IEEE.emax ew) (number_of_int c)
    (IEEE.decode mw ew (IEEE.of_int mw ew c)) = true.
Proof.
  intros Hmw Hew. unfold IEEE.of_int, binary_normalize.
  destruct c as [| p | p]; cbn [number_of_int].
  - exact (round_converted mw ew (S754_zero false) Hmw Hew ltac:(discriminate)).
  - exact (round_converted mw ew (S754_finite false p 0) Hmw Hew ltac:(discriminate)).
  - exact (round_converted mw ew (S754_finite true p 0) Hmw Hew ltac:(discriminate)).
Qed.

(** Where the format has the exponent and the digits for it the number
    is kept. *)
Lemma round_same_number (mw ew : Z) (s : bool) (m : positive) (e : Z) :
  1 <= mw -> 2 <= ew ->
  let E := fexp (IEEE.prec mw) (IEEE.emax ew) (Zpos (digits2_pos m) + e) in
  E <= e -> E <= IEEE.emax ew - IEEE.prec mw ->
  same_number (S754_finite s m e)
    (IEEE.decode mw ew (IEEE.encode mw ew (IEEE.round mw ew (S754_finite s m e))))
  = true.
Proof.
  intros Hmw Hew E Hk Hr.
  destruct (binary_round_rounded (IEEE.prec mw) (IEEE.emax ew) s m e)
    as (_ & Hv & Hn); [ unfold IEEE.prec; lia |].
  cbn [IEEE.round]. rewrite decode_encode_valid by (try lia; assumption).
  destruct (binary_round_on_grid (IEEE.prec mw) (IEEE.emax ew) s m e Hk)
    as (mz & Hmz & _ & ->).
  fold E in Hmz |- *.
  destruct (Z.leb_spec E (IEEE.emax ew - IEEE.prec mw)); [| lia ].
  cbn [same_number]. rewrite Bool.eqb_reflx. cbn [andb].
  replace (Z.min e E) with E by lia.
  rewrite Z.sub_diag, Z.pow_0_r, Z.mul_1_r. apply Z.eqb_eq. lia.
Qed.

(** Every bit pattern decodes to a value of its format. *)
Lemma decode_valid (mw ew : Z) (b : Z) :
  1 <= mw -> 2 <= ew ->
  valid_binary (IEEE.prec mw) (IEEE.emax ew) (IEEE.decode mw ew b) = true.
Proof.
  intros Hmw Hew.
  assert (Pm : 0 < 2 ^ mw) by (apply Z.pow_pos_nonneg; lia).
  assert (Pe : 0 < 2 ^ ew) by (apply Z.pow_pos_nonneg; lia).
  assert (P2 : 2 ^ ew = 2 * IEEE.emax ew).
  { unfold IEEE.emax. replace ew with (Z.succ (ew - 1)) at 1 by lia.
    rewrite Z.pow_succ_r by lia. lia. }
  assert (Hemax : 2 <= IEEE.emax ew).
  { unfold IEEE.emax. change 2 with (2 ^ 1) at 1.
    apply Z.pow_le_mono_r; lia. }
  assert (HM : 0 <= IEEE.mant_of mw b < 2 ^ mw).
  { unfold IEEE.mant_of. rewrite Z.land_ones by lia.
    apply Z.mod_pos_bound. lia. }
  assert (HE : 0 <= IEEE.expo_of mw ew b < 2 ^ ew).
  { unfold IEEE.expo_of. rewrite Z.land_ones by lia.
    apply Z.mod_pos_bound. lia. }
  unfold IEEE.decode.
  set (E := IEEE.expo_of mw ew b) in *. set (M := IEEE.mant_of mw b) in *.
  destruct (Z.eqb_spec E 0) as [E0 | E0].
  - destruct M as [| m | m] eqn:EM; [ reflexivity | | lia ].
    cbn [valid_binary]. unfold bounded, canonical_mantissa.
    pose proof (digits2_bounds m) as Hdm.
    assert (Zpos (digits2_pos m) <= mw).
    { destruct (Z_le_gt_dec (Zpos (digits2_pos m)) mw); [ assumption |].
      assert (2 ^ mw <= 2 ^ (Zpos (digits2_pos m) - 1))
        by (apply Z.pow_le_mono_r; lia). lia. }
    apply andb_true_intro. split; [ apply Z.eqb_eq | apply Z.leb_le ];
      unfold fexp, emin, IEEE.prec; lia.
  - destruct (Z.eqb_spec E (Z.ones ew)) as [E1 | E1].
    + destruct (M =? 0); reflexivity.
    + rewrite Z.ones_equiv in E1.
      destruct (M + 2 ^ mw) as [| m | m] eqn:EM; [ lia | | lia ].
      cbn [valid_binary]. unfold bounded, canonical_mantissa.
      assert (Hdm : Zpos (digits2_pos m) = mw + 1).
      { apply digits2_unique; [| lia ].
        replace (mw + 1 - 1) with mw by lia.
        rewrite Z.pow_add_r by lia. change (2 ^ 1) with 2. lia. }
      rewrite Hdm.
      apply andb_true_intro. split; [ apply Z.eqb_eq | apply Z.leb_le ];
        unfold fexp, emin, IEEE.prec; lia.
Qed.

(** The cast to [int] drops the fraction, and is undefined exactly where
    what is left is not an [int]. *)
Lemma trunc_truncated (x : spec_float) : truncated x (IEEE.trunc x) = true.
Proof.
  destruct x as [s | s | | s m e]; try reflexivity.
  cbn [truncated IEEE.trunc]. cbv zeta.
  set (num := Zpos m * 2 ^ Z.max 0 e).
  set (den := 2 ^ Z.max 0 (- e)).
  assert (Pd : 0 < den) by (apply Z.pow_pos_nonneg; lia).
  assert (Pn : 0 <= num).
  { unfold num. pose proof (Z.pow_pos_nonneg 2 (Z.max 0 e)). lia. }
  assert (Ha : Z.shiftl (Zpos m) e = num / den).
  { unfold num, den. destruct (Z_le_gt_dec 0 e).
    - rewrite Z.shiftl_mul_pow2 by lia.
      replace (Z.max 0 e) with e by lia. replace (Z.max 0 (- e)) with 0 by lia.
      rewrite Z.pow_0_r, Z.div_1_r. reflexivity.
    - rewrite Z.shiftl_div_pow2 by lia.
      replace (Z.max 0 e) with 0 by lia. replace (Z.max 0 (- e)) with (- e) by lia.
      rewrite Z.pow_0_r, Z.mul_1_r. reflexivity. }
  rewrite Ha.
  pose proof (Z.div_mod num den ltac:(lia)) as D.
  pose proof (Z.mod_pos_bound num den Pd) as B.
  assert (A0 : 0 <= num / den) by (apply Z.div_pos; lia).
  set (a := num / den) in *.
  assert (Hab : Z.abs (cond_Zopp s a) = a) by (destruct s; cbn [cond_Zopp]; lia).
  destruct ((IEEE.INT_MIN <=? cond_Zopp s a) && (cond_Zopp s a <=? IEEE.INT_MAX))
    eqn:R.
  - rewrite Hab. apply andb_prop in R. destruct R as [R1 R2].
    rewrite R1, R2. cbn [andb]. apply Z.leb_le in R1, R2.
    assert (S1 : (if s then cond_Zopp s a <=? 0 else 0 <=? cond_Zopp s a) = true)
      by (destruct s; cbn [cond_Zopp]; apply Z.leb_le; lia).
    rewrite S1. cbn [andb].
    destruct (Z.leb_spec (a * den) num); [| nia ].
    destruct (Z.ltb_spec num ((a + 1) * den)); [ reflexivity | nia ].
  - apply andb_false_iff in R. unfold IEEE.INT_MIN, IEEE.INT_MAX in R.
    assert (P31 : 2 ^ 31 = 2147483648) by reflexivity.
    destruct s; cbn [cond_Zopp] in R; apply Z.leb_le;
      destruct R as [R | R]; apply Z.leb_gt in R; nia.
Qed.


(** The predicates on a few values: of 16777219 as a [float] only the
    nearest one, 16777220, is the conversion, neither the one below nor the
    bits of the [int] themselves; 2^24 + 1 lies half way and goes to the
    even significand; the largest [double] overflows; 2^-150 lies half way
    between 0 and the least [float] and goes to 0; 3.14159274 is 3 as an
    [int], not 4, and -3.14159274 is -3; 2^31 is no [int]. *)
Example conversions_on_values :
  converted 24 128 (number_of_int 16777219) (IEEE.decode32 0x4B800002) = true /\
  converted 24 128 (number_of_int 16777219) (IEEE.decode32 0x4B800001) = false /\
  converted 24 128 (number_of_int 16777219) (IEEE.decode32 16777219) = false /\
  converted 24 128 (number_of_int 16777217) (IEEE.decode32 0x4B800000) = true /\
  converted 24 128 (number_of_int 16777217) (IEEE.decode32 0x4B800001) = false /\
  converted 24 128 (IEEE.decode64 0x7FEFFFFFFFFFFFFF) (IEEE.decode32 0x7F800000)
    = true /\
  converted 24 128 (IEEE.decode64 0x7FEFFFFFFFFFFFFF) (IEEE.decode32 0x7F7FFFFF)
    = false /\
  converted 24 128 (IEEE.decode64 0x3690000000000000) (IEEE.decode32 0) = true /\
  converted 24 128 (IEEE.decode64 0x3690000000000000) (IEEE.decode32 1) = false /\
  same_number (number_of_int 5) (IEEE.decode64 0x4014000000000000) = true /\
  same_number (number_of_int 5) (IEEE.decode64 5) = false /\
  truncated (IEEE.decode32 0x40490FDB) (Some 3) = true /\
  truncated (IEEE.decode32 0x40490FDB) (Some 4) = false /\
  truncated (IEEE.decode32 0xC0490FDB) (Some (-3)) = true /\
  truncated (IEEE.decode32 0xC0490FDB) (Some (-4)) = false /\
  truncated (IEEE.decode32 0x4F000000) None = true /\
  truncated (IEEE.decode32 0x4F000000) (Some 2147483647) = false.
Proof. repeat split. Qed.

(** The four casts that change the representation of a number. *)
Lemma CELL_to_FCELL_converted (c : CELL) :
  converted 24 128 (number_of_int c) (IEEE.decode32 (CELL_to_FCELL c)) = true.
Proof. exact (of_int_converted 23 8 c ltac:(lia) ltac:(lia)). Qed.

Lemma CELL_to_DCELL_same_number (c : CELL) :
  IEEE.INT_MIN <= c <= IEEE.INT_MAX ->
  same_number (number_of_int c) (IEEE.decode64 (CELL_to_DCELL c)) = true.
Proof.
  intros Hc. unfold CELL_to_DCELL, IEEE.of_int, binary_normalize, IEEE.decode64.
  assert (Case : forall (s : bool) (p : positive),
            Zpos p <= 2 ^ 31 ->
            same_number (S754_finite s p 0)
              (IEEE.decode 52 11 (IEEE.encode 52 11
                 (IEEE.round 52 11 (S754_finite s p 0)))) = true).
  { intros s p Hp. apply round_same_number; try lia.
    - pose proof (digits2_bounds p) as Hd.
      assert (Zpos (digits2_pos p) <= 32).
      { destruct (Z_le_gt_dec (Zpos (digits2_pos p)) 32); [ assumption |].
        assert (2 ^ 32 <= 2 ^ (Zpos (digits2_pos p) - 1))
          by (apply Z.pow_le_mono_r; lia). lia. }
      unfold fexp, emin, IEEE.prec, IEEE.emax. change (2 ^ (11 - 1)) with 1024. lia.
    - pose proof (digits2_bounds p) as Hd.
      assert (Zpos (digits2_pos p) <= 32).
      { destruct (Z_le_gt_dec (Zpos (digits2_pos p)) 32); [ assumption |].
        assert (2 ^ 32 <= 2 ^ (Zpos (digits2_pos p) - 1))
          by (apply Z.pow_le_mono_r; lia). lia. }
      unfold fexp, emin, IEEE.prec, IEEE.emax. change (2 ^ (11 - 1)) with 1024. lia. }
  unfold IEEE.INT_MIN, IEEE.INT_MAX in Hc.
  destruct c as [| p | p]; cbn [number_of_int].
  - reflexivity.
  - apply (Case false p). lia.
  - apply (Case true p). lia.
Qed.

Lemma FCELL_to_DCELL_same_number (f : FCELL) :
  same_number (IEEE.decode32 f) (IEEE.decode64 (FCELL_to_DCELL f)) = true.
Proof.
  unfold FCELL_to_DCELL, IEEE.decode32, IEEE.decode64, IEEE.encode64.
  destruct (IEEE.is_nan 23 8 f) eqn:Hnan.
  - apply (decode_nan 23 8 f ltac:(lia) ltac:(lia)) in Hnan. rewrite Hnan.
    pose proof (nan32_to_64_is_nan f) as H64.
    apply (decode_nan 52 11 _ ltac:(lia) ltac:(lia)) in H64. rewrite H64.
    reflexivity.
  - pose proof (decode_valid 23 8 f ltac:(lia) ltac:(lia)) as Hv.
    assert (Hn : IEEE.decode 23 8 f <> S754_nan).
    { intros E. apply (decode_nan 23 8 f ltac:(lia) ltac:(lia)) in E. congruence. }
    destruct (IEEE.decode 23 8 f) as [s | s | | s m e]; [ | | contradiction | ].
    + cbn [IEEE.round].
      rewrite decode_encode_valid by (try lia; try reflexivity; discriminate).
      apply same_number_refl.
    + cbn [IEEE.round].
      rewrite decode_encode_valid by (try lia; try reflexivity; discriminate).
      apply same_number_refl.
    + cbn [valid_binary] in Hv. unfold bounded, canonical_mantissa in Hv.
      apply andb_prop in Hv. destruct Hv as [Hc Hb].
      apply Z.eqb_eq in Hc. apply Z.leb_le in Hb.
      unfold fexp, emin, IEEE.prec, IEEE.emax in Hc, Hb.
      change (2 ^ (8 - 1)) with 128 in Hc, Hb.
      apply round_same_number; try lia;
        unfold fexp, emin, IEEE.prec, IEEE.emax;
        change (2 ^ (11 - 1)) with 1024; lia.
Qed.

Lemma DCELL_to_FCELL_converted (d : DCELL) :
  converted 24 128 (IEEE.decode64 d) (IEEE.decode32 (DCELL_to_FCELL d)) = true.
Proof.
  unfold DCELL_to_FCELL, IEEE.decode32, IEEE.decode64, IEEE.encode32.
  destruct (IEEE.is_nan 52 11 d) eqn:Hnan.
  - apply (decode_nan 52 11 d ltac:(lia) ltac:(lia)) in Hnan. rewrite Hnan.
    pose proof (nan64_to_32_is_nan d) as H32.
    apply (decode_nan 23 8 _ ltac:(lia) ltac:(lia)) in H32. rewrite H32.
    reflexivity.
  - apply (round_converted 23 8); try lia.
    intros E. apply (decode_nan 52 11 d ltac:(lia) ltac:(lia)) in E. congruence.
Qed.

(** C2 (as the code has it): for each of the three destination kinds,
    G_set_raster_value_c, G_set_raster_value_f and G_set_raster_value_d
    store the null pattern of the destination kind when the value given is
    the null of its own type, whatever the two types are and without
    converting anything (the result is defined even where the conversion is
    not); otherwise they store the value as the C cast to the destination
    type makes it: unchanged where the destination has the type of the
    value; the same number from [int] or [float] to [double]; rounded to
    the nearest [float], ties to even and overflow to infinity, from [int]
    or [double]; with the fraction dropped from [float] or [double] to
    [int], and undefined where what is left is not an [int]. *)
Theorem G_set_raster_value_null_or_cast (G : gislib) (rast : Z)
    (cval : CELL) (fval : FCELL) (dval : DCELL) (k : RASTER_MAP_TYPE) :
  labels_distinct G -> is_kind G k ->
  G_is_null_value G (sentinel G k) k = true /\
  (G_is_c_null_value G cval = true ->
     G_set_raster_value_c G rast cval k = sentinel G k) /\
  (G_is_f_null_value G fval = true ->
     G_set_raster_value_f G rast fval k = Some (sentinel G k)) /\
  (G_is_d_null_value G dval = true ->
     G_set_raster_value_d G rast dval k = Some (sentinel G k)) /\
  (G_is_c_null_value G cval = false ->
     (k = CELL_TYPE G -> G_set_raster_value_c G rast cval k = cval) /\
     (k = FCELL_TYPE G ->
        converted 24 128 (number_of_int cval)
          (IEEE.decode32 (G_set_raster_value_c G rast cval k)) = true) /\
     (k = DCELL_TYPE G -> IEEE.INT_MIN <= cval <= IEEE.INT_MAX ->
        same_number (number_of_int cval)
          (IEEE.decode64 (G_set_raster_value_c G rast cval k)) = true)) /\
  (G_is_f_null_value G fval = false ->
     (k = CELL_TYPE G ->
        truncated (IEEE.decode32 fval) (G_set_raster_value_f G rast fval k)
        = true) /\
     (k = FCELL_TYPE G -> G_set_raster_value_f G rast fval k = Some fval) /\
     (k = DCELL_TYPE G ->
        exists d, G_set_raster_value_f G rast fval k = Some d /\
          same_number (IEEE.decode32 fval) (IEEE.decode64 d) = true)) /\
  (G_is_d_null_value G dval = false ->
     (k = CELL_TYPE G ->
        truncated (IEEE.decode64 dval) (G_set_raster_value_d G rast dval k)
        = true) /\
     (k = FCELL_TYPE G ->
        exists f, G_set_raster_value_d G rast dval k = Some f /\
          converted 24 128 (IEEE.decode64 dval) (IEEE.decode32 f) = true) /\
     (k = DCELL_TYPE G -> G_set_raster_value_d G rast dval k = Some dval)).
Proof.
  intros HG Hk.
  destruct (G_set_raster_value_dispatch G rast cval fval dval k HG Hk)
    as (N0 & Nc & Nf & Nd & Vc & Vf & Vd).
  split; [ exact N0 |]. split; [ exact Nc |]. split; [ exact Nf |].
  split; [ exact Nd |].
  split; [| split ]; intros Hv.
  - destruct (Vc Hv) as (V1 & V2 & V3).
    split; [ exact V1 |]. split; intros Ek.
    + rewrite (V2 Ek). apply CELL_to_FCELL_converted.
    + intros Hc. rewrite (V3 Ek). apply CELL_to_DCELL_same_number. exact Hc.
  - destruct (Vf Hv) as (V1 & V2 & V3).
    split; [| split; [ exact V2 |] ]; intros Ek.
    + rewrite (V1 Ek). apply trunc_truncated.
    + exists (FCELL_to_DCELL fval). split; [ exact (V3 Ek) |].
      apply FCELL_to_DCELL_same_number.
  - destruct (Vd Hv) as (V1 & V2 & V3).
    split; [| split; [| exact V3 ] ]; intros Ek.
    + rewrite (V1 Ek). apply trunc_truncated.
    + exists (DCELL_to_FCELL dval). split; [ exact (V2 Ek) |].
      apply DCELL_to_FCELL_converted.
Qed.

Lemma G_set_raster_value_null_or_cast_witness :
  converted 24 128 (number_of_int 16777219)
    (IEEE.decode32 (G_set_raster_value_c grass 0 16777219 (FCELL_TYPE grass)))
  = true.
Proof.
  apply (proj1 (proj2 (proj1 (proj2 (proj2 (proj2 (proj2
           (G_set_raster_value_null_or_cast grass 0 16777219 0 0
              (FCELL_TYPE grass) grass_labels_distinct grass_FCELL_is_kind)))))
           eq_refl))).
  reflexivity.
Defined.

(** C2 as stated fails: 16777219 is not the CELL null, and stored into an
    FCELL cell it becomes 8388610 * 2^1 = 16777220, more than the value
    given, which dropping digits never yields. *)
Lemma G_set_raster_value_c_rounds_up :
  G_is_c_null_value grass 16777219 = false /\
  G_set_raster_value_c grass 0 16777219 (FCELL_TYPE grass) = 0x4B800002 /\
  IEEE.decode32 0x4B800002 = S754_finite false 8388610 1 /\
  magnitude_le
    (IEEE.decode32 (G_set_raster_value_c grass 0 16777219 (FCELL_TYPE grass)))
    (number_of_int 16777219) = false.
Proof. repeat split. Qed.

(** C3 (as the code has it): where the source holds the null of its kind,
    G_get_raster_value_c, G_get_raster_value_f and G_get_raster_value_d
    return the CELL, FCELL and DCELL null; a location just filled by
    G_set_null_value is such a source.  Where the source is not null each
    returns the stored value as the C cast to the result type makes it:
    unchanged where the result has the type of the source; the same number
    from [int] or [float] to [double]; rounded to the nearest [float], ties
    to even and overflow to infinity, from [int] or [double]; with the
    fraction dropped from [float] or [double] to [int], and undefined where
    what is left is not an [int]. *)
Theorem G_get_raster_value_null_or_cast (G : gislib) (c0 : CELL)
    (f0 : FCELL) (d0 : DCELL) (rast : Z) (k : RASTER_MAP_TYPE) :
  labels_distinct G -> is_kind G k ->
  G_is_null_value G (G_set_null_value G rast 1 k) k = true /\
  (G_is_null_value G rast k = true ->
     G_get_raster_value_c G c0 rast k = Some (cellNullPattern G) /\
     G_get_raster_value_f G f0 rast k = fcellNullPattern G /\
     G_get_raster_value_d G d0 rast k = dcellNullPattern G) /\
  (G_is_null_value G rast k = false ->
     (k = CELL_TYPE G ->
        G_get_raster_value_c G c0 rast k = Some rast /\
        converted 24 128 (number_of_int rast)
          (IEEE.decode32 (G_get_raster_value_f G f0 rast k)) = true /\
        (IEEE.INT_MIN <= rast <= IEEE.INT_MAX ->
         same_number (number_of_int rast)
           (IEEE.decode64 (G_get_raster_value_d G d0 rast k)) = true)) /\
     (k = FCELL_TYPE G ->
        truncated (IEEE.decode32 rast) (G_get_raster_value_c G c0 rast k)
        = true /\
        G_get_raster_value_f G f0 rast k = rast /\
        same_number (IEEE.decode32 rast)
          (IEEE.decode64 (G_get_raster_value_d G d0 rast k)) = true) /\
     (k = DCELL_TYPE G ->
        truncated (IEEE.decode64 rast) (G_get_raster_value_c G c0 rast k)
        = true /\
        converted 24 128 (IEEE.decode64 rast)
          (IEEE.decode32 (G_get_raster_value_f G f0 rast k)) = true /\
        G_get_raster_value_d G d0 rast k = rast)).
Proof.
  intros HG Hk.
  destruct (G_get_raster_value_dispatch G c0 f0 d0 rast k HG Hk)
    as (N0 & Nn & Vv).
  split; [ exact N0 |]. split; [ exact Nn |].
  intros Hv. destruct (Vv Hv) as (Vc & Vf & Vd).
  split; [| split ]; intros Ek.
  - destruct (Vc Ek) as (V1 & V2 & V3). rewrite V2, V3.
    split; [ exact V1 |]. split; [ apply CELL_to_FCELL_converted |].
    apply CELL_to_DCELL_same_number.
  - destruct (Vf Ek) as (V1 & V2 & V3). rewrite V1, V3.
    split; [ apply trunc_truncated |]. split; [ exact V2 |].
    apply FCELL_to_DCELL_same_number.
  - destruct (Vd Ek) as (V1 & V2 & V3). rewrite V1, V2.
    split; [ apply trunc_truncated |].
    split; [ apply DCELL_to_FCELL_converted | exact V3 ].
Qed.

Lemma grass_CELL_is_kind : is_kind grass (CELL_TYPE grass).
Proof. left; reflexivity. Qed.

Lemma G_get_raster_value_null_or_cast_witness :
  converted 24 128 (number_of_int 33554435)
    (IEEE.decode32 (G_get_raster_value_f grass 0 33554435 (CELL_TYPE grass)))
  = true.
Proof.
  apply (proj1 (proj2 (proj1 (proj2 (proj2
           (G_get_raster_value_null_or_cast grass 0 0 0 33554435
              (CELL_TYPE grass) grass_labels_distinct grass_CELL_is_kind))
           eq_refl) eq_refl))).
Defined.

(** C3 as stated fails: the CELL 33554435 is not null, and read as a
    [float] it is 8388609 * 2^2 = 33554436, more than the value stored. *)
Lemma G_get_raster_value_f_rounds_up :
  G_is_null_value grass 33554435 (CELL_TYPE grass) = false /\
  G_get_raster_value_f grass 0 33554435 (CELL_TYPE grass) = 0x4C000001 /\
  IEEE.decode32 0x4C000001 = S754_finite false 8388609 2 /\
  magnitude_le
    (IEEE.decode32 (G_get_raster_value_f grass 0 33554435 (CELL_TYPE grass)))
    (number_of_int 33554435) = false.
Proof. repeat split. Qed.
